(** * NaviPe payment router: routing engine, payment workflow, webhook handler

    A shallow embedding of the three Windmill scripts that carry the
    routing and reconciliation logic, and of the gateway factory they call:
      - the routing engine ([main], [getGatewayHealthMetrics],
        [evaluateRule], [applyRuleScoreAdjustment], [calculateFee]) of
        windmill/scripts/payment/routing-engine.ts;
      - the payment processing workflow ([main], [updateTransactionStatus],
        [selectGateway], [evaluateRule], [applyRuleAction],
        [processPaymentThroughGateway], [logRoutingAttempt]);
      - the gateway webhook handler ([main], [verifyWebhookSignature],
        [handlePaymentSuccess], [handlePaymentFailure],
        [handleRefundProcessed], [handleDisputeCreated], the [extract*]
        helpers, [updateTransaction], [notifyMerchant]);
      - [createGateway] of packages/navipe-factory/src/gateway-factory.ts,
        the package that replaced the scripts' own gateway-factory.ts.

    Conventions.
      - A JavaScript number is represented by its value, a rational
        ([Q]); integer columns (priorities) and the hour of the clock are
        [Z].  Comparisons are comparisons of values.  The operators [+],
        [-], [*] and [/] of the routing engine round their result: they
        are the fields of an [Arithmetic], of which [Binary64.arithmetic]
        is IEEE 754 double precision, the arithmetic of the code.
        [Infinity] and [NaN] have no value and are outside the model.
        The webhook handler's one operation, the division of an amount in
        minor units by 100, is kept exact: its result is only compared
        with a stored amount, and rounding to the nearest double keeps
        the order of two decimal amounts of at most 15 digits.
      - The Hasura store is an explicit in-memory state, passed in and
        returned; every request to it is answered (network failures and
        schema validation are outside the model).
      - A thrown [Error] is the left injection of a sum and carries
        [error.message]; [try]/[catch] is a match on that sum.
      - The wall clock enters in two places only: [new Date().getHours()]
        in the routing engine, an explicit argument [hour], and the
        elapsed time written to [processing_time_ms], which is left out. *)

From Stdlib Require Import QArith ZArith List Bool String Lia SpecFloat.
From stdpp Require Import base strings list gmap.
Import ListNotations.

Local Open Scope string_scope.
Local Open Scope list_scope.

(** ** JavaScript helpers shared by the three scripts *)

(** Truthiness of a number ([0] is falsy) and of a string ([""] is falsy). *)
Definition truthy_num (q : Q) : bool := negb (Qeq_bool q 0).

Definition truthy_str (s : string) : bool := negb (String.eqb s "").

(** [x || d] on a nullable number: [null], [undefined] and [0] give [d]. *)
Definition num_or (x : option Q) (d : Q) : Q :=
  match x with
  | Some q => if truthy_num q then q else d
  | None => d
  end.

(** Strict comparisons on rationals as booleans. *)
Definition Qlt_bool (a b : Q) : bool := negb (Qle_bool b a).

(** [Array.prototype.sort] is stable; [cmp_le a b] stands for
    "the comparator called on [(a, b)] returns a value [<= 0]". *)
Fixpoint insert_sorted {A} (cmp_le : A -> A -> bool) (x : A) (l : list A) : list A :=
  match l with
  | [] => [x]
  | y :: l' => if cmp_le x y then x :: y :: l' else y :: insert_sorted cmp_le x l'
  end.

Fixpoint js_sort {A} (cmp_le : A -> A -> bool) (l : list A) : list A :=
  match l with
  | [] => []
  | x :: l' => insert_sorted cmp_le x (js_sort cmp_le l')
  end.

(** [bound && lhs < bound] where [bound] may be undefined or [0]. *)
Definition below_bound (x : Q) (bound : option Q) : bool :=
  match bound with
  | Some b => truthy_num b && Qlt_bool x b
  | None => false
  end.

Definition above_bound (x : Q) (bound : option Q) : bool :=
  match bound with
  | Some b => truthy_num b && Qlt_bool b x
  | None => false
  end.

(** [cond && value !== cond] for a string condition. *)
Definition str_mismatch (cond : option string) (value : string) : bool :=
  match cond with
  | Some c => truthy_str c && negb (String.eqb value c)
  | None => false
  end.

(** ** The JSONB payloads of a [routing_rules] row *)

(** [rule.conditions]; an absent key is [None]. *)
Record AmountCondition := { amount_min : option Q; amount_max : option Q }.

Record TimeCondition := { tod_start : option Q; tod_end : option Q }.

Record Conditions := {
  c_amount : option AmountCondition;
  c_currency : option string;
  c_payment_method : option string;
  c_time_of_day : option TimeCondition
}.

(** [rule.actions]. *)
Record Actions := {
  preferred_gateway : option string;
  avoided_gateway : option string;
  distribution : option (gmap string Q);
  use_priority : bool
}.

(** ** Arithmetic on JavaScript numbers *)

(** The operators [+], [-], [*] and [/] on numbers. *)
Record Arithmetic := {
  js_add : Q -> Q -> Q;
  js_sub : Q -> Q -> Q;
  js_mul : Q -> Q -> Q;
  js_div : Q -> Q -> Q
}.

(** Arithmetic without rounding, for comparison. *)
Definition exactArithmetic : Arithmetic :=
  {| js_add := Qplus; js_sub := Qminus; js_mul := Qmult; js_div := Qdiv |}.

(** IEEE 754 binary64 with round-to-nearest-even, the format of a
    JavaScript number. *)
Module Binary64.

Definition prec : Z := 53.
Definition emax : Z := 1024.

Definition ofZ (m : Z) : spec_float := binary_normalize prec emax m 0 false.

(** [Some k] when [d = 2^k]. *)
Fixpoint log2_exact (d : positive) : option Z :=
  match d with
  | xH => Some 0%Z
  | xO d' => option_map Z.succ (log2_exact d')
  | xI _ => None
  end.

(** The double nearest to [q]: what a number literal or a JSON number
    denotes.  A double is read back unchanged; any other rational is the
    correctly rounded quotient of its numerator and denominator, which is
    the nearest double when both are below [2^53]. *)
Definition round (q : Q) : spec_float :=
  match log2_exact (Qden q) with
  | Some k => binary_normalize prec emax (Qnum q) (- k) false
  | None => SFdiv prec emax (ofZ (Qnum q)) (ofZ (Zpos (Qden q)))
  end.

(** The value of a finite double, in lowest terms. *)
Definition value (f : spec_float) : Q :=
  match f with
  | S754_finite s m e =>
      let n := if s then Zneg m else Zpos m in
      match e with
      | Z0 => inject_Z n
      | Zpos p => inject_Z (n * Z.pow_pos 2 p)
      | Zneg p => Qred (n # Pos.pow 2 p)
      end
  | _ => 0
  end.

Definition lift (op : spec_float -> spec_float -> spec_float) (a b : Q) : Q :=
  value (op (round a) (round b)).

Definition arithmetic : Arithmetic :=
  {| js_add := lift (SFadd prec emax);
     js_sub := lift (SFsub prec emax);
     js_mul := lift (SFmul prec emax);
     js_div := lift (SFdiv prec emax) |}.

End Binary64.

(** ** The routing engine (first script) *)

Module RoutingEngine.

(** The [transaction] argument of [main]. *)
Record Transaction := {
  amount : Q;
  currency : string;
  payment_method : string;
  merchant_id : string
}.

(** One row returned by [getAvailableGateways]. *)
Record Gateway := {
  gateway_id : string;
  gateway_code : string;
  priority : Z;
  fee_percentage : Q;
  fee_fixed : Q
}.

Record GatewayHealth := {
  h_gateway_id : string;
  success_rate : Q;
  average_response_time_ms : Q;
  is_healthy : bool
}.

(** One group of [gateway_health_metrics_aggregate]: the gateway of
    [nodes[0]] and the two averages, [None] when the average is null. *)
Record HealthAggregate := {
  agg_gateway_id : string;
  avg_success_rate : option Q;
  avg_response_time_ms : option Q
}.

Record Rule := {
  rule_name : string;
  conditions : Conditions;
  actions : Actions
}.

(** An entry of the [reasons] array; [main] joins their renderings
    with ["; "].  The entries are kept structured here. *)
Inductive Reason :=
| ReasonPriority (p : Z)
| ReasonHealth (rate : Q)
| ReasonFee (fee : Q)
| ReasonRule (name : string) (adjustment : Q).

Record ScoredGateway := {
  sg_gateway : Gateway;
  score : Q;
  reasons : list Reason
}.

Record RoutingDecision := {
  rd_gateway_id : string;
  rd_gateway_code : string;
  rd_reason : list Reason;
  rd_score : Q
}.

Inductive RoutingError :=
| NoAvailableGateways   (* "No available gateways for this transaction" *)
| NoHealthyGateways.    (* "No healthy gateways available" *)

(** [getGatewayHealthMetrics]: the mapping of the aggregate groups. *)
Definition healthOfAggregate (m : HealthAggregate) : GatewayHealth :=
  {| h_gateway_id := agg_gateway_id m;
     success_rate := num_or (avg_success_rate m) 95;
     average_response_time_ms := num_or (avg_response_time_ms m) 1000;
     is_healthy := Qle_bool 80 (num_or (avg_success_rate m) 95)
                   && Qle_bool (num_or (avg_response_time_ms m) 1000) 5000 |}.

Definition getGatewayHealthMetrics (groups : list HealthAggregate) : list GatewayHealth :=
  map healthOfAggregate groups.

Definition calculateFee (ar : Arithmetic) (amount percentage fixed : Q) : Q :=
  js_add ar (js_mul ar amount percentage) fixed.

(** [healthMetrics.find(h => h.gateway_id === id)]. *)
Definition findHealth (healthMetrics : list GatewayHealth) (id : string) : option GatewayHealth :=
  find (fun h => String.eqb (h_gateway_id h) id) healthMetrics.

(** [hour < start || hour > end]; a comparison with [undefined] is false. *)
Definition outside_window (hour : Z) (w : TimeCondition) : bool :=
  match tod_start w with Some s => Qlt_bool (inject_Z hour) s | None => false end
  || match tod_end w with Some e => Qlt_bool e (inject_Z hour) | None => false end.

(** [evaluateRule(rule, transaction, gateway)].  [hour] is the value of
    [new Date().getHours()] at the time of the call. *)
Definition evaluateRule (hour : Z) (rule : Rule) (transaction : Transaction) (gateway : Gateway) : bool :=
  let c := conditions rule in
  if match c_amount c with
     | Some a => below_bound (amount transaction) (amount_min a)
     | None => false
     end then false
  else if match c_amount c with
          | Some a => above_bound (amount transaction) (amount_max a)
          | None => false
          end then false
  else if str_mismatch (c_currency c) (currency transaction) then false
  else if str_mismatch (c_payment_method c) (payment_method transaction) then false
  else if match c_time_of_day c with
          | Some w => outside_window hour w
          | None => false
          end then false
  else true.

Definition opt_str_is (o : option string) (s : string) : bool :=
  match o with Some x => String.eqb x s | None => false end.

(** [applyRuleScoreAdjustment(rule, gateway)]. *)
Definition applyRuleScoreAdjustment (rule : Rule) (gateway : Gateway) : Q :=
  let a := actions rule in
  if opt_str_is (preferred_gateway a) (gateway_code gateway) then 50
  else if opt_str_is (avoided_gateway a) (gateway_code gateway) then -50
  else match distribution a with
       | Some d =>
           match d !! gateway_code gateway with
           | Some w => if truthy_num w then w else 0
           | None => 0
           end
       | None => 0
       end.

(** The body of [for (const rule of routingRules)]: one iteration on the
    running [(score, reasons)]. *)
Definition applyRule (ar : Arithmetic) (hour : Z) (transaction : Transaction)
    (gateway : Gateway) (acc : Q * list Reason) (rule : Rule) : Q * list Reason :=
  if evaluateRule hour rule transaction gateway then
    let adjustment := applyRuleScoreAdjustment rule gateway in
    (js_add ar (fst acc) adjustment,
     if truthy_num adjustment
     then snd acc ++ [ReasonRule (rule_name rule) adjustment]
     else snd acc)
  else acc.

(** The callback of [availableGateways.map]. *)
Definition scoreGateway (ar : Arithmetic) (hour : Z) (transaction : Transaction)
    (healthMetrics : list GatewayHealth) (routingRules : list Rule)
    (gateway : Gateway) : ScoredGateway :=
  let score0 := 100%Q in
  let reasons0 : list Reason := [] in
  let score1 :=
    js_add ar score0 (js_mul ar (js_sub ar 10 (inject_Z (priority gateway))) 5) in
  let reasons1 := reasons0 ++ [ReasonPriority (priority gateway)] in
  let withHealth :=
    match findHealth healthMetrics (gateway_id gateway) with
    | Some health =>
        (js_sub ar (js_add ar score1 (success_rate health))
           (js_div ar (average_response_time_ms health) 100),
         reasons1 ++ [ReasonHealth (success_rate health)])
    | None => (score1, reasons1)
    end in
  let transactionFee :=
    calculateFee ar (amount transaction) (fee_percentage gateway) (fee_fixed gateway) in
  let withFee :=
    (js_sub ar (fst withHealth) transactionFee,
     snd withHealth ++ [ReasonFee transactionFee]) in
  let withRules := fold_left (applyRule ar hour transaction gateway) routingRules withFee in
  {| sg_gateway := gateway; score := fst withRules; reasons := snd withRules |}.

(** The filter of step 5: [!health || health.is_healthy]. *)
Definition passesHealthFilter (healthMetrics : list GatewayHealth) (g : ScoredGateway) : bool :=
  match findHealth healthMetrics (gateway_id (sg_gateway g)) with
  | Some health => is_healthy health
  | None => true
  end.

(** Comparator [(a, b) => b.score - a.score] returning [<= 0]. *)
Definition byScoreDesc (ar : Arithmetic) (a b : ScoredGateway) : bool :=
  Qle_bool (js_sub ar (score b) (score a)) 0.

(** [main], after the three queries have been answered with
    [availableGateways], [healthGroups] and [routingRules]. *)
Definition main (ar : Arithmetic) (hour : Z) (transaction : Transaction)
    (availableGateways : list Gateway) (healthGroups : list HealthAggregate)
    (routingRules : list Rule) : RoutingError + RoutingDecision :=
  match availableGateways with
  | [] => inl NoAvailableGateways
  | _ =>
      let healthMetrics := getGatewayHealthMetrics healthGroups in
      let scoredGateways :=
        map (scoreGateway ar hour transaction healthMetrics routingRules) availableGateways in
      match js_sort (byScoreDesc ar)
              (List.filter (passesHealthFilter healthMetrics) scoredGateways) with
      | [] => inl NoHealthyGateways
      | bestGateway :: _ =>
          inr {| rd_gateway_id := gateway_id (sg_gateway bestGateway);
                 rd_gateway_code := gateway_code (sg_gateway bestGateway);
                 rd_reason := reasons bestGateway;
                 rd_score := score bestGateway |}
      end
  end.

(** Vocabulary of the statements below: a candidate is marked unhealthy
    when a metric exists for it and that metric's [is_healthy] is false. *)
Definition markedUnhealthy (healthMetrics : list GatewayHealth) (g : Gateway) : bool :=
  match findHealth healthMetrics (gateway_id g) with
  | Some health => negb (is_healthy health)
  | None => false
  end.

(** The scenario of the specification: 500.00 INR by UPI, razorpay
    (priority 1, fee 2%) and stripe (priority 2, fee 2.9%), one rule
    preferring razorpay for UPI. *)
Definition scenarioTransaction : Transaction :=
  {| amount := 500; currency := "INR"; payment_method := "upi"; merchant_id := "merchant-1" |}.

Definition razorpay : Gateway :=
  {| gateway_id := "gw-razorpay"; gateway_code := "razorpay"; priority := 1;
     fee_percentage := 2 # 100; fee_fixed := 0 |}.

Definition stripe : Gateway :=
  {| gateway_id := "gw-stripe"; gateway_code := "stripe"; priority := 2;
     fee_percentage := 29 # 1000; fee_fixed := 0 |}.

Definition upiRule : Rule :=
  {| rule_name := "UPI Routing";
     conditions := {| c_amount := None; c_currency := None;
                      c_payment_method := Some "upi"; c_time_of_day := None |};
     actions := {| preferred_gateway := Some "razorpay"; avoided_gateway := None;
                   distribution := None; use_priority := false |} |}.



(** A rule preferring stripe during office hours only. *)
Definition officeHoursRule : Rule :=
  {| rule_name := "Office hours";
     conditions := {| c_amount := None; c_currency := None; c_payment_method := None;
                      c_time_of_day := Some {| tod_start := Some 9%Q; tod_end := Some 17%Q |} |};
     actions := {| preferred_gateway := Some "stripe"; avoided_gateway := None;
                   distribution := None; use_priority := false |} |}.

End RoutingEngine.

(** ** JSON values and the Hasura store *)

(** A JavaScript value as the scripts see it ([data: any], JSONB columns). *)
#[local] Unset Elimination Schemes.
Inductive jsval :=
| JUndefined
| JNull
| JBool (b : bool)
| JNum (q : Q)
| JNaN
| JStr (s : string)
| JObj (fields : list (string * jsval))
| JArr (items : list jsval).
#[local] Set Elimination Schemes.

Definition js_of_opt_str (o : option string) : jsval :=
  match o with Some s => JStr s | None => JUndefined end.

(** The enum [transaction_status]. *)
Inductive Status := Pending | Processing | Success | Failed | Refunded | Cancelled.

Definition status_name (s : Status) : string :=
  match s with
  | Pending => "pending"
  | Processing => "processing"
  | Success => "success"
  | Failed => "failed"
  | Refunded => "refunded"
  | Cancelled => "cancelled"
  end.

Definition status_eqb (a b : Status) : bool :=
  match a, b with
  | Pending, Pending | Processing, Processing | Success, Success
  | Failed, Failed | Refunded, Refunded | Cancelled, Cancelled => true
  | _, _ => false
  end.

(** A row of [transactions] (the columns the scripts read or write). *)
Record TransactionRow := {
  tx_id : string;
  tx_merchant_id : string;
  tx_amount : Q;
  tx_currency : string;
  tx_payment_method : string;
  tx_customer_email : option string;
  tx_metadata : jsval;
  tx_status : Status;
  tx_gateway_transaction_id : option string;
  tx_gateway_response : jsval
}.

(** A row of [payment_gateways]. *)
Record PaymentGateway := {
  pg_id : string;
  pg_gateway_code : string;
  pg_provider : string;
  pg_credentials : jsval;
  pg_webhook_secret : jsval   (* [features -> 'webhook_secret'] *)
}.

(** A row of [merchant_gateways]. *)
Record MerchantGatewayRow := {
  mg_merchant_id : string;
  mg_gateway_id : string;
  mg_priority : Z;
  mg_is_active : bool
}.

(** A row of [routing_rules]. *)
Record RoutingRuleRow := {
  rr_merchant_id : string;
  rr_rule_type : string;
  rr_priority : Z;
  rr_conditions : Conditions;
  rr_actions : Actions;
  rr_is_active : bool
}.

(** A row of [merchants]. *)
Record MerchantRow := {
  m_id : string;
  m_webhook_url : option string
}.

(** A row of [routing_attempts]; [processing_time_ms], a wall-clock
    difference, is not represented. *)
Record RoutingAttempt := {
  ra_transaction_id : string;
  ra_gateway_id : string;
  ra_attempt_number : Z;
  ra_status : Status;
  ra_error_message : option string;
  ra_response_payload : jsval
}.

(** A row of [webhooks]; the id is the position of the row. *)
Record WebhookRow := {
  wh_source : string;
  wh_event_type : string;
  wh_payload : jsval;
  wh_gateway_code : string;
  wh_processed : bool;
  wh_processed_at : bool;           (* has [processed_at] been written *)
  wh_error_message : option string
}.

Record AuditLog := {
  al_entity_type : string;
  al_entity_id : jsval;
  al_action : string;
  al_changes : jsval
}.

(** A POST sent to a merchant's [webhook_url] by [notifyMerchant]. *)
Record Notification := {
  n_url : string;
  n_event : string;
  n_status : Status
}.

Record Store := {
  db_transactions : list TransactionRow;
  db_payment_gateways : list PaymentGateway;
  db_merchant_gateways : list MerchantGatewayRow;
  db_routing_rules : list RoutingRuleRow;
  db_merchants : list MerchantRow;
  db_routing_attempts : list RoutingAttempt;
  db_webhooks : list WebhookRow;
  db_audit_logs : list AuditLog;
  db_notifications : list Notification
}.

Definition with_transactions (st : Store) (l : list TransactionRow) : Store :=
  {| db_transactions := l;
     db_payment_gateways := db_payment_gateways st;
     db_merchant_gateways := db_merchant_gateways st;
     db_routing_rules := db_routing_rules st;
     db_merchants := db_merchants st;
     db_routing_attempts := db_routing_attempts st;
     db_webhooks := db_webhooks st;
     db_audit_logs := db_audit_logs st;
     db_notifications := db_notifications st |}.

Definition with_routing_attempts (st : Store) (l : list RoutingAttempt) : Store :=
  {| db_transactions := db_transactions st;
     db_payment_gateways := db_payment_gateways st;
     db_merchant_gateways := db_merchant_gateways st;
     db_routing_rules := db_routing_rules st;
     db_merchants := db_merchants st;
     db_routing_attempts := l;
     db_webhooks := db_webhooks st;
     db_audit_logs := db_audit_logs st;
     db_notifications := db_notifications st |}.

Definition with_webhooks (st : Store) (l : list WebhookRow) : Store :=
  {| db_transactions := db_transactions st;
     db_payment_gateways := db_payment_gateways st;
     db_merchant_gateways := db_merchant_gateways st;
     db_routing_rules := db_routing_rules st;
     db_merchants := db_merchants st;
     db_routing_attempts := db_routing_attempts st;
     db_webhooks := l;
     db_audit_logs := db_audit_logs st;
     db_notifications := db_notifications st |}.

Definition with_audit_logs (st : Store) (l : list AuditLog) : Store :=
  {| db_transactions := db_transactions st;
     db_payment_gateways := db_payment_gateways st;
     db_merchant_gateways := db_merchant_gateways st;
     db_routing_rules := db_routing_rules st;
     db_merchants := db_merchants st;
     db_routing_attempts := db_routing_attempts st;
     db_webhooks := db_webhooks st;
     db_audit_logs := l;
     db_notifications := db_notifications st |}.

Definition with_notifications (st : Store) (l : list Notification) : Store :=
  {| db_transactions := db_transactions st;
     db_payment_gateways := db_payment_gateways st;
     db_merchant_gateways := db_merchant_gateways st;
     db_routing_rules := db_routing_rules st;
     db_merchants := db_merchants st;
     db_routing_attempts := db_routing_attempts st;
     db_webhooks := db_webhooks st;
     db_audit_logs := db_audit_logs st;
     db_notifications := l |}.

(** [transactions_by_pk(id: $id)]. *)
Definition transactions_by_pk (st : Store) (id : string) : option TransactionRow :=
  find (fun t => String.eqb (tx_id t) id) (db_transactions st).

(** [update_transactions_by_pk(pk_columns: {id: $id}, ...)]: the row with
    that primary key, if any, is rewritten by [f]. *)
Definition update_transactions_by_pk (st : Store) (id : string)
    (f : TransactionRow -> TransactionRow) : Store :=
  with_transactions st
    (map (fun t => if String.eqb (tx_id t) id then f t else t) (db_transactions st)).

(** A GraphQL variable of a [_set] clause: left out of the request
    ([undefined]), sent as [null], or sent with a value. *)
Inductive SetVar (A : Type) :=
| Omitted
| SetNull
| SetTo (a : A).

Arguments Omitted {A}.
Arguments SetNull {A}.
Arguments SetTo {A} a.

(** ** The gateway factory (gateway-factory.ts) and the plugin interface *)

Record PaymentRequest := {
  req_amount : Q;
  req_currency : string;
  req_payment_method : string;
  req_customer_email : option string;
  req_merchant_reference : string;
  req_metadata : jsval
}.

Record GatewayConfig := {
  cfg_gateway_code : string;
  cfg_credentials : jsval;
  cfg_features : jsval;
  cfg_webhook_secret : jsval
}.

Record PaymentResponse := {
  resp_success : bool;
  resp_gateway_transaction_id : option string;
  resp_status : string;
  resp_gateway_response : jsval;
  resp_redirect_url : option string;
  resp_error_message : option string
}.

Record WebhookVerificationRequest := {
  vr_headers : gmap string string;
  vr_body : string;
  vr_signature : option string
}.

(** The two operations of the [PaymentGateway] interface that the scripts
    call; [inl msg] is a rejected promise with [error.message = msg]. *)
Record GatewayImpl := {
  processPayment : PaymentRequest -> GatewayConfig -> string + PaymentResponse;
  verifySignature : WebhookVerificationRequest -> GatewayConfig -> string + bool
}.

(** [PaymentGatewayFactoryImpl.gateways]: each registered constructor is
    represented by its outcome, [None] when [new GatewayClass()] throws. *)
Abbreviation GatewayFactory := (gmap string (option GatewayImpl)).

(** [createGateway(gatewayCode)]. *)
Definition createGateway (factory : GatewayFactory) (gatewayCode : string) : option GatewayImpl :=
  match factory !! gatewayCode with
  | None => None
  | Some constructed => constructed
  end.

(** ** The payment processing workflow (second script) *)

Module PaymentWorkflow.

Record TransactionInput := {
  transactionId : string;
  routingStrategy : option string
}.

(** An element of [transaction.merchant.merchant_gateways]. *)
Record MerchantGateway := {
  gateway : PaymentGateway;
  priority : Z;
  is_active : bool
}.

Record Merchant := {
  merchant_id : string;
  merchant_gateways : list MerchantGateway;
  routing_rules : list RoutingRuleRow
}.

(** The answer of the query [GetTransactionForProcessing]. *)
Record Transaction := {
  id : string;
  amount : Q;
  currency : string;
  payment_method : string;
  customer_email : option string;
  metadata : jsval;
  status : Status;
  merchant : Merchant
}.

Record ProcessResult := {
  success : bool;
  message : string;
  res_transactionId : option string;
  gatewayUsed : option string;
  gatewayTransactionId : option string;
  error : option string
}.

(** The object built by [processPaymentThroughGateway]. *)
Record PaymentResult := {
  pr_transactionId : option string;
  pr_status : string;
  pr_amount : Q;
  pr_currency : string;
  pr_success : bool;
  pr_gateway_response : jsval;
  pr_redirect_url : option string;
  pr_error_message : option string
}.

Definition js_of_PaymentResult (r : PaymentResult) : jsval :=
  JObj [ ("transactionId", js_of_opt_str (pr_transactionId r));
         ("status", JStr (pr_status r));
         ("amount", JNum (pr_amount r));
         ("currency", JStr (pr_currency r));
         ("success", JBool (pr_success r));
         ("gateway_response", pr_gateway_response r);
         ("redirect_url", js_of_opt_str (pr_redirect_url r));
         ("error_message", js_of_opt_str (pr_error_message r)) ].

(** The nested object [gateway { id gateway_code provider credentials }]. *)
Definition joinGateway (st : Store) (row : MerchantGatewayRow) : option MerchantGateway :=
  match find (fun g => String.eqb (pg_id g) (mg_gateway_id row)) (db_payment_gateways st) with
  | Some g => Some {| gateway := g; priority := mg_priority row; is_active := mg_is_active row |}
  | None => None
  end.

Definition byPriorityAsc (a b : MerchantGateway) : bool := (priority a <=? priority b)%Z.

Definition byRulePriorityAsc (a b : RoutingRuleRow) : bool := (rr_priority a <=? rr_priority b)%Z.

(** [merchant { id merchant_gateways(where: {is_active: {_eq: true}}) {...}
    routing_rules(where: {is_active: {_eq: true}}, order_by: {priority: asc}) {...} }]. *)
Definition merchantOf (st : Store) (merchantId : string) : Merchant :=
  {| merchant_id := merchantId;
     merchant_gateways :=
       omap (joinGateway st)
         (List.filter (fun r => String.eqb (mg_merchant_id r) merchantId && mg_is_active r)
            (db_merchant_gateways st));
     routing_rules :=
       js_sort byRulePriorityAsc
         (List.filter (fun r => String.eqb (rr_merchant_id r) merchantId && rr_is_active r)
            (db_routing_rules st)) |}.

Definition getTransactionForProcessing (st : Store) (txId : string) : option Transaction :=
  match transactions_by_pk st txId with
  | Some t =>
      Some {| id := tx_id t;
              amount := tx_amount t;
              currency := tx_currency t;
              payment_method := tx_payment_method t;
              customer_email := tx_customer_email t;
              metadata := tx_metadata t;
              status := tx_status t;
              merchant := merchantOf st (tx_merchant_id t) |}
  | None => None
  end.

(** [updateTransactionStatus(hasura, transactionId, status,
    gatewayTransactionId?, gatewayResponse?)].  The mutation names no
    expected prior status.  A variable left [undefined] is dropped by
    [JSON.stringify] and its column keeps its value. *)
Definition updateTransactionStatus (st : Store) (txId : string) (newStatus : Status)
    (gatewayTransactionId : SetVar string) (gatewayResponse : SetVar jsval) : Store :=
  update_transactions_by_pk st txId (fun t =>
    {| tx_id := tx_id t;
       tx_merchant_id := tx_merchant_id t;
       tx_amount := tx_amount t;
       tx_currency := tx_currency t;
       tx_payment_method := tx_payment_method t;
       tx_customer_email := tx_customer_email t;
       tx_metadata := tx_metadata t;
       tx_status := newStatus;
       tx_gateway_transaction_id :=
         match gatewayTransactionId with
         | Omitted => tx_gateway_transaction_id t
         | SetNull => None
         | SetTo s => Some s
         end;
       tx_gateway_response :=
         match gatewayResponse with
         | Omitted => tx_gateway_response t
         | SetNull => JNull
         | SetTo v => v
         end |}).

(** [evaluateRule(rule, transaction)] of this script. *)
Definition evaluateRule (rule : RoutingRuleRow) (transaction : Transaction) : bool :=
  let conditions := rr_conditions rule in
  if String.eqb (rr_rule_type rule) "amount" then
    match c_amount conditions with
    | Some a =>
        if below_bound (amount transaction) (amount_min a) then false
        else if above_bound (amount transaction) (amount_max a) then false
        else true
    | None => true
    end
  else if String.eqb (rr_rule_type rule) "method_based" then
    match c_payment_method conditions with
    | Some m => if truthy_str m then String.eqb (payment_method transaction) m else true
    | None => true
    end
  else if String.eqb (rr_rule_type rule) "gateway_priority" then true
  else true.

(** [applyRuleAction(rule, merchantGateways)].  [Array.prototype.sort]
    sorts the caller's array in place, so the array is returned too. *)
Definition applyRuleAction (rule : RoutingRuleRow) (merchantGateways : list MerchantGateway)
    : option MerchantGateway * list MerchantGateway :=
  let actions := rr_actions rule in
  match preferred_gateway actions with
  | Some code =>
      if truthy_str code then
        (find (fun mg => String.eqb (pg_gateway_code (gateway mg)) code) merchantGateways,
         merchantGateways)
      else if use_priority actions then
        let sorted := js_sort byPriorityAsc merchantGateways in (head sorted, sorted)
      else (None, merchantGateways)
  | None =>
      if use_priority actions then
        let sorted := js_sort byPriorityAsc merchantGateways in (head sorted, sorted)
      else (None, merchantGateways)
  end.

(** The loop [for (const rule of transaction.merchant.routing_rules)]. *)
Fixpoint selectByRules (rules : list RoutingRuleRow) (transaction : Transaction)
    (merchantGateways : list MerchantGateway) : option PaymentGateway * list MerchantGateway :=
  match rules with
  | [] => (None, merchantGateways)
  | rule :: rest =>
      if evaluateRule rule transaction then
        match applyRuleAction rule merchantGateways with
        | (Some mg, gws) => (Some (gateway mg), gws)
        | (None, gws) => selectByRules rest transaction gws
        end
      else selectByRules rest transaction merchantGateways
  end.

(** [selectGateway(transaction, strategy)]; [strategy] is not read. *)
Definition selectGateway (transaction : Transaction) (strategy : string) : option PaymentGateway :=
  match selectByRules (routing_rules (merchant transaction)) transaction
          (merchant_gateways (merchant transaction)) with
  | (Some g, _) => Some g
  | (None, gws) =>
      match js_sort byPriorityAsc gws with
      | mg :: _ => Some (gateway mg)
      | [] => None
      end
  end.

(** The parameter [gatewayConfig: any] of [processPaymentThroughGateway].
    The function reads [gatewayConfig.gateway.*], the shape of an element
    of [merchant_gateways]; [main] passes what [selectGateway] returned, a
    [PaymentGateway], which has no property [gateway]. *)
Inductive GatewayConfigArg :=
| OfMerchantGateway (mg : MerchantGateway)
| OfPaymentGateway (g : PaymentGateway).

(** [gatewayConfig.gateway], [None] standing for [undefined]. *)
Definition arg_gateway (a : GatewayConfigArg) : option PaymentGateway :=
  match a with
  | OfMerchantGateway mg => Some (gateway mg)
  | OfPaymentGateway _ => None
  end.

(** The message of the [TypeError] raised by reading [prop] of [undefined]. *)
Definition read_of_undefined (prop : string) : string :=
  ("Cannot read properties of undefined (reading '" ++ prop ++ "')")%string.

(** [processPaymentThroughGateway(transaction, gatewayConfig)]. *)
Definition processPaymentThroughGateway (factory : GatewayFactory)
    (transaction : Transaction) (gatewayConfig : GatewayConfigArg) : string + PaymentResult :=
  match arg_gateway gatewayConfig with
  | None => inl (read_of_undefined "provider")
  | Some g =>
      match createGateway factory (pg_provider g) with
      | None => inl ("Unsupported gateway: " ++ pg_provider g)%string
      | Some impl =>
          let paymentRequest :=
            {| req_amount := amount transaction;
               req_currency := currency transaction;
               req_payment_method := payment_method transaction;
               req_customer_email := customer_email transaction;
               req_merchant_reference := id transaction;
               req_metadata := metadata transaction |} in
          let config :=
            {| cfg_gateway_code := pg_gateway_code g;
               cfg_credentials := pg_credentials g;
               cfg_features := JUndefined;
               cfg_webhook_secret := JUndefined |} in
          match processPayment impl paymentRequest config with
          | inl msg => inl msg
          | inr result =>
              inr {| pr_transactionId := resp_gateway_transaction_id result;
                     pr_status := resp_status result;
                     pr_amount := amount transaction;
                     pr_currency := currency transaction;
                     pr_success := resp_success result;
                     pr_gateway_response := resp_gateway_response result;
                     pr_redirect_url := resp_redirect_url result;
                     pr_error_message := resp_error_message result |}
          end
      end
  end.

(** [logRoutingAttempt(hasura, attempt)]. *)
Definition logRoutingAttempt (st : Store) (attempt : RoutingAttempt) : Store :=
  with_routing_attempts st (db_routing_attempts st ++ [attempt]).

(** Step 1 of [main]: the query and the two checks that follow it. *)
Definition loadPending (st : Store) (input : TransactionInput) : string + Transaction :=
  match getTransactionForProcessing st (transactionId input) with
  | None => inl "Transaction not found"
  | Some transaction =>
      if negb (status_eqb (status transaction) Pending)
      then inl ("Transaction is already " ++ status_name (status transaction))%string
      else inr transaction
  end.

(** Steps 2 to 6 of [main], run on the transaction loaded by step 1. *)
Definition processLoaded (factory : GatewayFactory) (st : Store) (input : TransactionInput)
    (transaction : Transaction) : Store * (string + ProcessResult) :=
  let st1 := updateTransactionStatus st (transactionId input) Processing Omitted Omitted in
  match selectGateway transaction
          (match routingStrategy input with
           | Some s => if truthy_str s then s else "default"
           | None => "default"
           end) with
  | None => (st1, inl "No suitable gateway found for this transaction")
  | Some selectedGateway =>
      match processPaymentThroughGateway factory transaction (OfPaymentGateway selectedGateway) with
      | inl msg =>
          let st2 :=
            logRoutingAttempt st1
              {| ra_transaction_id := transactionId input;
                 ra_gateway_id := pg_id selectedGateway;
                 ra_attempt_number := 1;
                 ra_status := Failed;
                 ra_error_message := Some msg;
                 ra_response_payload := JUndefined |} in
          (* if (input.routingStrategy === "failover") { } *)
          let st3 :=
            match routingStrategy input with
            | Some s => if String.eqb s "failover" then st2 else st2
            | None => st2
            end in
          (st3, inl msg)
      | inr paymentResult =>
          let st2 :=
            logRoutingAttempt st1
              {| ra_transaction_id := transactionId input;
                 ra_gateway_id := pg_id selectedGateway;
                 ra_attempt_number := 1;
                 ra_status := Success;
                 ra_error_message := None;
                 ra_response_payload := js_of_PaymentResult paymentResult |} in
          let st3 :=
            updateTransactionStatus st2 (transactionId input) Success
              (match pr_transactionId paymentResult with
               | Some s => SetTo s
               | None => Omitted
               end)
              (SetTo (js_of_PaymentResult paymentResult)) in
          (st3, inr {| success := true;
                       message := "Payment processed successfully";
                       res_transactionId := Some (transactionId input);
                       gatewayUsed := Some (pg_gateway_code selectedGateway);
                       gatewayTransactionId := pr_transactionId paymentResult;
                       error := None |})
      end
  end.

(** The outer [catch (error)] of [main]. *)
Definition settle (input : TransactionInput) (outcome : Store * (string + ProcessResult))
    : Store * ProcessResult :=
  match outcome with
  | (st, inr result) => (st, result)
  | (st, inl msg) =>
      (updateTransactionStatus st (transactionId input) Failed SetNull
         (SetTo (JObj [("error", JStr msg)])),
       {| success := false;
          message := "Payment processing failed";
          res_transactionId := None;
          gatewayUsed := None;
          gatewayTransactionId := None;
          error := Some msg |})
  end.

(** [main(input, hasura)]. *)
Definition main (factory : GatewayFactory) (st : Store) (input : TransactionInput)
    : Store * ProcessResult :=
  settle input
    match loadPending st input with
    | inl msg => (st, inl msg)
    | inr transaction => processLoaded factory st input transaction
    end.

(** Two invocations of [main] whose first [await] (the query of step 1)
    is answered for both before either sends its first mutation. *)
Definition mainTwiceOverlapping (factory : GatewayFactory) (st : Store)
    (inputA inputB : TransactionInput) : Store * (ProcessResult * ProcessResult) :=
  let loadedA := loadPending st inputA in
  let loadedB := loadPending st inputB in
  let '(stA, resultA) :=
    settle inputA
      match loadedA with
      | inl msg => (st, inl msg)
      | inr transaction => processLoaded factory st inputA transaction
      end in
  let '(stB, resultB) :=
    settle inputB
      match loadedB with
      | inl msg => (stA, inl msg)
      | inr transaction => processLoaded factory stA inputB transaction
      end in
  (stB, (resultA, resultB)).

End PaymentWorkflow.

(** ** Reading JavaScript values *)

(** The built-ins of the JavaScript runtime that the webhook handler
    relies on; [None] stands for [NaN]. *)
Record JsRuntime := {
  StringToNumber : string -> option Q;
  ObjectToNumber : jsval -> option Q;
  parseFloat : jsval -> option Q;
  JSON_stringify : jsval -> string
}.

Definition js_truthy (v : jsval) : bool :=
  match v with
  | JUndefined | JNull | JNaN => false
  | JBool b => b
  | JNum q => truthy_num q
  | JStr s => truthy_str s
  | JObj _ | JArr _ => true
  end.

(** [a || b]. *)
Definition js_or (a b : jsval) : jsval := if js_truthy a then a else b.

Fixpoint assoc_lookup (fields : list (string * jsval)) (key : string) : jsval :=
  match fields with
  | [] => JUndefined
  | (k, v) :: rest => if String.eqb k key then v else assoc_lookup rest key
  end.

(** [v.key]: a [TypeError] on [undefined] and [null]; the keys read by
    the scripts are own properties of plain objects only. *)
Definition js_get (v : jsval) (key : string) : string + jsval :=
  match v with
  | JUndefined =>
      inl ("Cannot read properties of undefined (reading '" ++ key ++ "')")%string
  | JNull =>
      inl ("Cannot read properties of null (reading '" ++ key ++ "')")%string
  | JObj fields => inr (assoc_lookup fields key)
  | _ => inr JUndefined
  end.

(** [v?.key]. *)
Definition js_oget (v : jsval) (key : string) : jsval :=
  match v with
  | JObj fields => assoc_lookup fields key
  | _ => JUndefined
  end.

(** [ToNumber(v)]. *)
Definition ToNumber (rt : JsRuntime) (v : jsval) : option Q :=
  match v with
  | JUndefined | JNaN => None
  | JNull => Some 0%Q
  | JBool b => Some (if b then 1%Q else 0%Q)
  | JNum q => Some q
  | JStr s => StringToNumber rt s
  | JObj _ | JArr _ => ObjectToNumber rt v
  end.

Definition js_of_number (n : option Q) : jsval :=
  match n with Some q => JNum q | None => JNaN end.

(** [v >= n] for a number [n]. *)
Definition js_ge (rt : JsRuntime) (v : jsval) (n : Q) : bool :=
  match ToNumber rt v with
  | Some q => Qle_bool n q
  | None => false
  end.

(** What [JSON.stringify] leaves of a value inside a request body. *)
Definition json_of (v : jsval) : jsval :=
  match v with
  | JNaN => JNull
  | _ => v
  end.

(** The JSONB operator [||] behind Hasura's [_append]. *)
Definition jsonb_concat (a b : jsval) : jsval :=
  match a, b with
  | JObj fa, JObj fb =>
      JObj (List.filter
              (fun kv => negb (existsb (fun kv' => String.eqb (fst kv') (fst kv)) fb)) fa
            ++ fb)
  | JArr xa, JArr xb => JArr (xa ++ xb)
  | JArr xa, _ => JArr (xa ++ [b])
  | _, JArr xb => JArr (a :: xb)
  | _, _ => JArr [a; b]
  end.

(** ** The gateway webhook handler (third script) *)

Module WebhookHandler.

Record WebhookPayload := {
  gateway : string;
  event_type : string;
  data : jsval;
  signature : option string;
  headers : option (gmap string string);
  body : option string
}.

Record HandleResult := {
  success : bool;
  message : string;
  processed : bool
}.

(** The object returned by the three payment handlers. *)
Record TransactionUpdate := {
  transaction_id : string;
  status : Status;
  gateway_response : jsval;
  metadata : option jsval;
  notify_merchant : bool
}.

Section WithRuntime.

Context (rt : JsRuntime) (factory : GatewayFactory).

(** [getGatewayConfig(hasura, gatewayCode)]. *)
Definition getGatewayConfig (st : Store) (gatewayCode : string) : option PaymentGateway :=
  find (fun g => String.eqb (pg_gateway_code g) gatewayCode) (db_payment_gateways st).

(** [verifyWebhookSignature(payload, hasura)]. *)
Definition verifyWebhookSignature (st : Store) (payload : WebhookPayload) : bool :=
  match getGatewayConfig st (gateway payload) with
  | None => false
  | Some gatewayConfig =>
      match createGateway factory (pg_provider gatewayConfig) with
      | None => true
      | Some impl =>
          let verificationRequest :=
            {| vr_headers := match headers payload with Some h => h | None => ∅ end;
               vr_body :=
                 match body payload with
                 | Some b => if truthy_str b then b else JSON_stringify rt (data payload)
                 | None => JSON_stringify rt (data payload)
                 end;
               vr_signature := signature payload |} in
          let config :=
            {| cfg_gateway_code := pg_gateway_code gatewayConfig;
               cfg_credentials := pg_credentials gatewayConfig;
               cfg_features := JUndefined;
               cfg_webhook_secret := pg_webhook_secret gatewayConfig |} in
          match verifySignature impl verificationRequest config with
          | inr valid => valid
          | inl _ => false
          end
      end
  end.

(** [extractGatewayTransactionId(payload)]. *)
Definition extractGatewayTransactionId (payload : WebhookPayload) : string + jsval :=
  let d := data payload in
  if String.eqb (gateway payload) "stripe" then
    match js_get d "object" with
    | inl e => inl e
    | inr o => if js_truthy (js_oget o "id") then inr (js_oget o "id") else js_get d "id"
    end
  else if String.eqb (gateway payload) "razorpay" then
    match js_get d "payload" with
    | inl e => inl e
    | inr p =>
        let viaPayment := js_oget (js_oget (js_oget p "payment") "entity") "id" in
        if js_truthy viaPayment then inr viaPayment
        else match js_get d "entity" with
             | inl e => inl e
             | inr ent => inr (js_oget ent "id")
             end
    end
  else if String.eqb (gateway payload) "paypal" then
    match js_get d "resource" with
    | inl e => inl e
    | inr r => if js_truthy (js_oget r "id") then inr (js_oget r "id") else js_get d "id"
    end
  else
    match js_get d "transaction_id" with
    | inl e => inl e
    | inr t => if js_truthy t then inr t else js_get d "id"
    end.

(** [extractRefundAmount(payload)]. *)
Definition extractRefundAmount (payload : WebhookPayload) : string + jsval :=
  let d := data payload in
  if String.eqb (gateway payload) "stripe" then
    match js_get d "object" with
    | inl e => inl e
    | inr o =>
        inr (js_of_number
               (match ToNumber rt (js_oget o "amount_refunded") with
                | Some q => Some (q / 100)%Q
                | None => None
                end))
    end
  else if String.eqb (gateway payload) "razorpay" then
    match js_get d "payload" with
    | inl e => inl e
    | inr p =>
        inr (js_of_number
               (match ToNumber rt (js_oget (js_oget (js_oget p "refund") "entity") "amount") with
                | Some q => Some (q / 100)%Q
                | None => None
                end))
    end
  else if String.eqb (gateway payload) "paypal" then
    match js_get d "resource" with
    | inl e => inl e
    | inr r =>
        inr (js_of_number
               (parseFloat rt (js_or (js_oget (js_oget r "amount") "value") (JNum 0))))
    end
  else
    match js_get d "refund_amount" with
    | inl e => inl e
    | inr a => inr (js_or a (JNum 0))
    end.

(** [extractTransactionId(payload)]. *)
Definition extractTransactionId (payload : WebhookPayload) : string + jsval :=
  let d := data payload in
  match js_get d "metadata" with
  | inl e => inl e
  | inr m =>
      if js_truthy (js_oget m "transaction_id") then inr (js_oget m "transaction_id")
      else match js_get d "reference" with
           | inl e => inl e
           | inr r =>
               if js_truthy r then inr r
               else match js_get d "order_id" with
                    | inl e => inl e
                    | inr o => inr (js_or o (JStr ""))
                    end
           end
  end.

(** The query [GetTransactionByGatewayId] followed by the read of
    [response.data.transactions].  The variable is declared [String!]:
    any other value is answered with [errors] and no [data]. *)
Definition transactionsByGatewayId (st : Store) (gatewayTransactionId : jsval)
    : string + list TransactionRow :=
  match gatewayTransactionId with
  | JStr s =>
      inr (List.filter
             (fun t => match tx_gateway_transaction_id t with
                       | Some g => String.eqb g s
                       | None => false
                       end)
             (db_transactions st))
  | _ => inl "Cannot read properties of undefined (reading 'transactions')"
  end.

(** [handlePaymentSuccess(payload, hasura)]. *)
Definition handlePaymentSuccess (st : Store) (payload : WebhookPayload)
    : string + option TransactionUpdate :=
  match extractGatewayTransactionId payload with
  | inl e => inl e
  | inr gatewayTransactionId =>
      match transactionsByGatewayId st gatewayTransactionId with
      | inl e => inl e
      | inr [] => inr None
      | inr (transaction :: _) =>
          if negb (status_eqb (tx_status transaction) Processing) then inr None
          else inr (Some {| transaction_id := tx_id transaction;
                            status := Success;
                            gateway_response := data payload;
                            metadata := None;
                            notify_merchant := true |})
      end
  end.

(** [handlePaymentFailure(payload, hasura)]. *)
Definition handlePaymentFailure (st : Store) (payload : WebhookPayload)
    : string + option TransactionUpdate :=
  match extractGatewayTransactionId payload with
  | inl e => inl e
  | inr gatewayTransactionId =>
      match transactionsByGatewayId st gatewayTransactionId with
      | inl e => inl e
      | inr [] => inr None
      | inr (transaction :: _) =>
          inr (Some {| transaction_id := tx_id transaction;
                       status := Failed;
                       gateway_response := data payload;
                       metadata := None;
                       notify_merchant := true |})
      end
  end.

(** [handleRefundProcessed(payload, hasura)]. *)
Definition handleRefundProcessed (st : Store) (payload : WebhookPayload)
    : string + option TransactionUpdate :=
  match extractGatewayTransactionId payload with
  | inl e => inl e
  | inr gatewayTransactionId =>
      match extractRefundAmount payload with
      | inl e => inl e
      | inr refundAmount =>
          match transactionsByGatewayId st gatewayTransactionId with
          | inl e => inl e
          | inr [] => inr None
          | inr (transaction :: _) =>
              let status :=
                if js_ge rt refundAmount (tx_amount transaction) then Refunded else Success in
              inr (Some {| transaction_id := tx_id transaction;
                           status := status;
                           gateway_response := data payload;
                           metadata := Some (JObj [("refund_amount", json_of refundAmount)]);
                           notify_merchant := true |})
          end
      end
  end.

(** [handleDisputeCreated(payload, hasura)]. *)
Definition handleDisputeCreated (st : Store) (payload : WebhookPayload) : string + Store :=
  match extractTransactionId payload with
  | inl e => inl e
  | inr entityId =>
      inr (with_audit_logs st
             (db_audit_logs st ++
              [{| al_entity_type := "transaction";
                  al_entity_id := entityId;
                  al_action := "dispute_created";
                  al_changes := data payload |}]))
  end.

(** [logWebhook(hasura, webhook)]: the new row and its id. *)
Definition logWebhook (st : Store) (payload : WebhookPayload) : Store * nat :=
  (with_webhooks st
     (db_webhooks st ++
      [{| wh_source := "gateway";
          wh_event_type := event_type payload;
          wh_payload := data payload;
          wh_gateway_code := gateway payload;
          wh_processed := false;
          wh_processed_at := false;
          wh_error_message := None |}]),
   length (db_webhooks st)).

(** [markWebhookProcessed(hasura, webhookId, processed)]. *)
Definition markWebhookProcessed (st : Store) (webhookId : nat) (processed : bool) : Store :=
  with_webhooks st
    (alter (fun w =>
              {| wh_source := wh_source w;
                 wh_event_type := wh_event_type w;
                 wh_payload := wh_payload w;
                 wh_gateway_code := wh_gateway_code w;
                 wh_processed := processed;
                 wh_processed_at := true;
                 wh_error_message := wh_error_message w |})
       webhookId (db_webhooks st)).

(** [updateTransaction(hasura, update)]. *)
Definition updateTransaction (st : Store) (update : TransactionUpdate) : Store :=
  update_transactions_by_pk st (transaction_id update) (fun t =>
    {| tx_id := tx_id t;
       tx_merchant_id := tx_merchant_id t;
       tx_amount := tx_amount t;
       tx_currency := tx_currency t;
       tx_payment_method := tx_payment_method t;
       tx_customer_email := tx_customer_email t;
       tx_metadata :=
         match metadata update with
         | Some m => jsonb_concat (tx_metadata t) m
         | None => tx_metadata t
         end;
       tx_status := status update;
       tx_gateway_transaction_id := tx_gateway_transaction_id t;
       tx_gateway_response :=
         match gateway_response update with
         | JUndefined => tx_gateway_response t
         | v => json_of v
         end |}).

(** [notifyMerchant(hasura, transactionId, eventType)]. *)
Definition notifyMerchant (st : Store) (transactionId eventType : string) : string + Store :=
  match transactions_by_pk st transactionId with
  | None => inr st
  | Some transaction =>
      match find (fun m => String.eqb (m_id m) (tx_merchant_id transaction)) (db_merchants st) with
      | None => inl "Cannot read properties of null (reading 'webhook_url')"
      | Some m =>
          match m_webhook_url m with
          | Some url =>
              if truthy_str url then
                inr (with_notifications st
                       (db_notifications st ++
                        [{| n_url := url; n_event := eventType;
                            n_status := tx_status transaction |}]))
              else inr st
          | None => inr st
          end
      end
  end.

(** The [switch (payload.event_type)] of step 3: the store, the update
    to apply and the flag [processed]. *)
Definition dispatchEvent (st : Store) (payload : WebhookPayload)
    : string + (Store * option TransactionUpdate * bool) :=
  let ev := event_type payload in
  if String.eqb ev "payment.success" || String.eqb ev "payment_capture.completed" then
    match handlePaymentSuccess st payload with
    | inl e => inl e
    | inr u => inr (st, u, true)
    end
  else if String.eqb ev "payment.failed" || String.eqb ev "payment_capture.failed" then
    match handlePaymentFailure st payload with
    | inl e => inl e
    | inr u => inr (st, u, true)
    end
  else if String.eqb ev "refund.processed" then
    match handleRefundProcessed st payload with
    | inl e => inl e
    | inr u => inr (st, u, true)
    end
  else if String.eqb ev "dispute.created" then
    match handleDisputeCreated st payload with
    | inl e => inl e
    | inr st' => inr (st', None, true)
    end
  else inr (st, None, false).

Definition failure (st : Store) (msg : string) : Store * HandleResult :=
  (st, {| success := false; message := msg; processed := false |}).

(** Steps 2 to 6 of [main], entered once the signature is accepted. *)
Definition processVerified (st : Store) (payload : WebhookPayload) : Store * HandleResult :=
  let '(st1, webhookId) := logWebhook st payload in
  match dispatchEvent st1 payload with
  | inl e => failure st1 e
  | inr (st2, transactionUpdate, processed) =>
      let st3 :=
        match transactionUpdate with
        | Some update => updateTransaction st2 update
        | None => st2
        end in
      let st4 := markWebhookProcessed st3 webhookId processed in
      match
        match transactionUpdate with
        | Some update =>
            if notify_merchant update
            then notifyMerchant st4 (transaction_id update) (event_type payload)
            else inr st4
        | None => inr st4
        end
      with
      | inl e => failure st4 e
      | inr st5 =>
          (st5, {| success := true;
                   message := "Webhook processed successfully";
                   processed := processed |})
      end
  end.

(** [main(payload, hasura)]. *)
Definition main (st : Store) (payload : WebhookPayload) : Store * HandleResult :=
  if negb (verifyWebhookSignature st payload)
  then failure st "Invalid webhook signature"
  else processVerified st payload.

End WithRuntime.

End WebhookHandler.

(** ** Concrete stores, gateways and requests used in the statements below *)

Module Examples.

Definition stripeRow : PaymentGateway :=
  {| pg_id := "gw-stripe"; pg_gateway_code := "stripe"; pg_provider := "stripe";
     pg_credentials := JObj [("api_key", JStr "sk_test")];
     pg_webhook_secret := JStr "whsec_stripe" |}.

Definition razorpayRow : PaymentGateway :=
  {| pg_id := "gw-razorpay"; pg_gateway_code := "razorpay"; pg_provider := "razorpay";
     pg_credentials := JObj [("key_id", JStr "rzp_test")];
     pg_webhook_secret := JStr "whsec_razorpay" |}.

(** A row of [payment_gateways] whose provider no package implements. *)
Definition adyenRow : PaymentGateway :=
  {| pg_id := "gw-adyen"; pg_gateway_code := "adyen"; pg_provider := "adyen";
     pg_credentials := JObj []; pg_webhook_secret := JNull |}.

(** The transaction [tx-1] of merchant [m-1]: 100.00 USD by card. *)
Definition transactionRow (s : Status) (gatewayTransactionId : option string)
    (gatewayResponse : jsval) : TransactionRow :=
  {| tx_id := "tx-1";
     tx_merchant_id := "m-1";
     tx_amount := 100;
     tx_currency := "USD";
     tx_payment_method := "card";
     tx_customer_email := None;
     tx_metadata := JObj [];
     tx_status := s;
     tx_gateway_transaction_id := gatewayTransactionId;
     tx_gateway_response := gatewayResponse |}.

(** A store holding [tx-1] in the given state; merchant [m-1] has two
    active gateways, stripe (priority 1) and razorpay (priority 2), and
    no routing rule. *)
Definition storeWith (s : Status) (gatewayTransactionId : option string)
    (gatewayResponse : jsval) : Store :=
  {| db_transactions := [transactionRow s gatewayTransactionId gatewayResponse];
     db_payment_gateways := [stripeRow; razorpayRow; adyenRow];
     db_merchant_gateways :=
       [ {| mg_merchant_id := "m-1"; mg_gateway_id := "gw-stripe";
            mg_priority := 1; mg_is_active := true |};
         {| mg_merchant_id := "m-1"; mg_gateway_id := "gw-razorpay";
            mg_priority := 2; mg_is_active := true |} ];
     db_routing_rules := [];
     db_merchants := [ {| m_id := "m-1"; m_webhook_url := Some "https://merchant.example/hook" |} ];
     db_routing_attempts := [];
     db_webhooks := [];
     db_audit_logs := [];
     db_notifications := [] |}.

Definition approved : PaymentResponse :=
  {| resp_success := true;
     resp_gateway_transaction_id := Some "pay_1";
     resp_status := "success";
     resp_gateway_response := JObj [];
     resp_redirect_url := None;
     resp_error_message := None |}.

(** A gateway whose payment call times out and which accepts signatures. *)
Definition timingOut : GatewayImpl :=
  {| processPayment := fun _ _ => inl "Gateway timeout";
     verifySignature := fun _ _ => inr true |}.

(** A gateway that approves payments and accepts signatures. *)
Definition accepting : GatewayImpl :=
  {| processPayment := fun _ _ => inr approved;
     verifySignature := fun _ _ => inr true |}.

(** A gateway that rejects every signature. *)
Definition rejecting : GatewayImpl :=
  {| processPayment := fun _ _ => inr approved;
     verifySignature := fun _ _ => inr false |}.

(** Stripe times out, razorpay works. *)
Definition factory : GatewayFactory :=
  <["stripe" := Some timingOut]> (<["razorpay" := Some accepting]> ∅).

(** Both installed gateways reject the signature. *)
Definition strictFactory : GatewayFactory :=
  <["stripe" := Some rejecting]> (<["razorpay" := Some rejecting]> ∅).

(** A runtime for the examples.  They carry a raw [body] and numeric
    amounts, so only [ToNumber] on numbers is exercised. *)
Definition runtime : JsRuntime :=
  {| StringToNumber := fun _ => None;
     ObjectToNumber := fun _ => None;
     parseFloat := fun v => match v with JNum q => Some q | _ => None end;
     JSON_stringify := fun _ => "{}" |}.

Definition trigger (strategy : option string) : PaymentWorkflow.TransactionInput :=
  {| PaymentWorkflow.transactionId := "tx-1";
     PaymentWorkflow.routingStrategy := strategy |}.

(** A razorpay webhook about payment [pay_1]. *)
Definition razorpayEvent (eventType : string) (extra : list (string * jsval))
    : WebhookHandler.WebhookPayload :=
  {| WebhookHandler.gateway := "razorpay";
     WebhookHandler.event_type := eventType;
     WebhookHandler.data :=
       JObj [("payload",
              JObj (("payment", JObj [("entity", JObj [("id", JStr "pay_1")])]) :: extra))];
     WebhookHandler.signature := Some "t=1,v1=abc";
     WebhookHandler.headers := None;
     WebhookHandler.body := Some "{...}" |}.

(** The [refund] entity of a razorpay payload, the amount in paise. *)
Definition refundOf (paise : Q) : list (string * jsval) :=
  [("refund", JObj [("entity", JObj [("amount", JNum paise)])])].

(** A webhook of the provider that has no implementation. *)
Definition adyenEvent : WebhookHandler.WebhookPayload :=
  {| WebhookHandler.gateway := "adyen";
     WebhookHandler.event_type := "payment.failed";
     WebhookHandler.data := JObj [("transaction_id", JStr "pay_1")];
     WebhookHandler.signature := None;
     WebhookHandler.headers := None;
     WebhookHandler.body := None |}.

End Examples.

(** ** Vocabulary for the statements about the routing engine *)

Module RoutingEngineTerms.

Import RoutingEngine.

(** The score a candidate is sorted by. *)
Definition scoreOf (ar : Arithmetic) (hour : Z) (tx : Transaction)
    (groups : list HealthAggregate) (rules : list Rule) (g : Gateway) : Q :=
  score (scoreGateway ar hour tx (getGatewayHealthMetrics groups) rules g).

(** What [main] returns when [best] is the first element after the sort. *)
Definition decisionFor (best : ScoredGateway) : RoutingDecision :=
  {| rd_gateway_id := gateway_id (sg_gateway best);
     rd_gateway_code := gateway_code (sg_gateway best);
     rd_reason := reasons best;
     rd_score := score best |}.

(** The sort compares two candidates by the sign of [b.score - a.score].
    Subtraction keeps the order of [x] and [y] when the difference it
    computes is [<= 0] exactly when [y <= x].  IEEE 754 subtraction does
    so on finite numbers; it is stated for the scores at hand. *)
Definition subtractionKeepsOrder (ar : Arithmetic) (x y : Q) : Prop :=
  Qle_bool (js_sub ar y x) 0 = Qle_bool y x.

Definition scoresKeepOrder (ar : Arithmetic) (hour : Z) (tx : Transaction)
    (groups : list HealthAggregate) (rules : list Rule) (gws : list Gateway) : Prop :=
  forall a b, In a gws -> In b gws ->
    subtractionKeepsOrder ar (scoreOf ar hour tx groups rules a)
                             (scoreOf ar hour tx groups rules b).

(** The order on scored candidates that the comparator then implements. *)
Definition byScoreOrder (a b : ScoredGateway) : bool := Qle_bool (score b) (score a).

(** Two candidates for a payment of 1000.00 whose scores are both 112.7
    without rounding: a fee of 3.23% against a fixed fee of 32.30. *)
Definition thousand : Transaction :=
  {| amount := 1000; currency := "INR"; payment_method := "card";
     merchant_id := "merchant-1" |}.

Definition percentFee : Gateway :=
  {| gateway_id := "gw-a"; gateway_code := "alpha"; priority := 1;
     fee_percentage := 323 # 10000; fee_fixed := 0 |}.

Definition fixedFee : Gateway :=
  {| gateway_id := "gw-b"; gateway_code := "beta"; priority := 1;
     fee_percentage := 0; fee_fixed := 323 # 10 |}.

End RoutingEngineTerms.

(** ** Vocabulary for the statements about the webhook handler *)

Module WebhookTerms.

Import WebhookHandler.

(** The row [logWebhook] inserts for a payload. *)
Definition loggedRow (payload : WebhookPayload) : WebhookRow :=
  {| wh_source := "gateway";
     wh_event_type := event_type payload;
     wh_payload := data payload;
     wh_gateway_code := gateway payload;
     wh_processed := false;
     wh_processed_at := false;
     wh_error_message := None |}.

(** That row once [markWebhookProcessed] has written to it. *)
Definition markedRow (payload : WebhookPayload) (processed : bool) : WebhookRow :=
  {| wh_source := "gateway";
     wh_event_type := event_type payload;
     wh_payload := data payload;
     wh_gateway_code := gateway payload;
     wh_processed := processed;
     wh_processed_at := true;
     wh_error_message := None |}.

(** The event types with a [case] in the [switch] of [main]. *)
Definition handledEvents : list string :=
  [ "payment.success"; "payment_capture.completed";
    "payment.failed"; "payment_capture.failed";
    "refund.processed"; "dispute.created" ].

(** Those handled by one of the three transaction handlers. *)
Definition transactionEvents : list string :=
  [ "payment.success"; "payment_capture.completed";
    "payment.failed"; "payment_capture.failed";
    "refund.processed" ].

(** The columns of a transaction that the handler never writes. *)
Definition sameFixedColumns (t t' : TransactionRow) : Prop :=
  tx_id t' = tx_id t /\
  tx_merchant_id t' = tx_merchant_id t /\
  tx_amount t' = tx_amount t /\
  tx_currency t' = tx_currency t /\
  tx_payment_method t' = tx_payment_method t /\
  tx_customer_email t' = tx_customer_email t /\
  tx_gateway_transaction_id t' = tx_gateway_transaction_id t.

(** The tables no webhook handler writes to. *)
Definition sameStaticTables (st st' : Store) : Prop :=
  db_payment_gateways st' = db_payment_gateways st /\
  db_merchant_gateways st' = db_merchant_gateways st /\
  db_routing_rules st' = db_routing_rules st /\
  db_merchants st' = db_merchants st /\
  db_routing_attempts st' = db_routing_attempts st.

(** The [WebhookVerificationRequest] that the handler's
    [verifyWebhookSignature] builds from a payload. *)
Definition verificationRequestOf (rt : JsRuntime) (payload : WebhookPayload)
    : WebhookVerificationRequest :=
  {| vr_headers := match headers payload with Some h => h | None => ∅ end;
     vr_body :=
       match body payload with
       | Some b => if truthy_str b then b else JSON_stringify rt (data payload)
       | None => JSON_stringify rt (data payload)
       end;
     vr_signature := signature payload |}.

(** The [GatewayConfig] it builds from the row of [payment_gateways]. *)
Definition gatewayConfigOf (row : PaymentGateway) : GatewayConfig :=
  {| cfg_gateway_code := pg_gateway_code row;
     cfg_credentials := pg_credentials row;
     cfg_features := JUndefined;
     cfg_webhook_secret := pg_webhook_secret row |}.

(** A razorpay webhook whose [data] names no payment. *)
Definition idlessEvent (eventType : string) : WebhookPayload :=
  {| gateway := "razorpay";
     event_type := eventType;
     data := JObj [("event", JStr eventType)];
     signature := Some "t=1,v1=abc";
     headers := None;
     body := Some "{...}" |}.

End WebhookTerms.

(** ** The other operations of the gateway factory (gateway-factory.ts) *)

Module Factory.

(** [registerGateway(gatewayCode, gatewayFactory)]. *)
Definition registerGateway (factory : GatewayFactory) (gatewayCode : string)
    (constructed : option GatewayImpl) : GatewayFactory :=
  <[gatewayCode := constructed]> factory.

(** [unregisterGateway(gatewayCode)]. *)
Definition unregisterGateway (factory : GatewayFactory) (gatewayCode : string)
    : GatewayFactory :=
  delete gatewayCode factory.

(** [isGatewaySupported(gatewayCode)]. *)
Definition isGatewaySupported (factory : GatewayFactory) (gatewayCode : string) : bool :=
  match factory !! gatewayCode with
  | Some _ => true
  | None => false
  end.

(** [getSupportedGateways()]: the keys of the map; their order in the
    returned array is not represented. *)
Definition getSupportedGateways (factory : GatewayFactory) : gset string :=
  dom factory.

(** [tryLoadGateway(gatewayCode, moduleName, className)].  [load] stands
    for [require(moduleName)[className]]: [None] when the package is not
    installed or exports no such class, otherwise the outcome of calling
    its constructor. *)
Definition tryLoadGateway (load : string -> string -> option (option GatewayImpl))
    (factory : GatewayFactory) (gatewayCode moduleName className : string)
    : GatewayFactory :=
  match load moduleName className with
  | Some constructed => <[gatewayCode := constructed]> factory
  | None => factory
  end.

(** The constructor: [initializeGateways()] on an empty map. *)
Definition newFactory (load : string -> string -> option (option GatewayImpl))
    : GatewayFactory :=
  tryLoadGateway load
    (tryLoadGateway load
       (tryLoadGateway load ∅ "stripe" "@navipe/stripe" "StripeGateway")
       "razorpay" "@navipe/razorpay" "RazorpayGateway")
    "paypal" "@navipe/paypal" "PayPalGateway".

End Factory.

(** ** The gateway integration helpers *)

Module Integration.

(** [verifyWebhookSignature(gatewayCode, request, config)] of the
    integration helpers. *)
Definition verifyWebhookSignature (factory : GatewayFactory) (gatewayCode : string)
    (request : WebhookVerificationRequest) (config : GatewayConfig) : bool :=
  match createGateway factory gatewayCode with
  | None => false
  | Some impl =>
      match verifySignature impl request config with
      | inr valid => valid
      | inl _ => false
      end
  end.

End Integration.

(** ** The Razorpay gateway: webhook signature *)

Module RazorpayGateway.

(** [request.headers['x-razorpay-signature'] || request.signature]. *)
Definition presentedSignature (request : WebhookVerificationRequest) : option string :=
  match vr_headers request !! "x-razorpay-signature" with
  | Some h => if truthy_str h then Some h else vr_signature request
  | None => vr_signature request
  end.

(** [verifyWebhookSignature(request, config)].  [hmac secret body] stands
    for [crypto.createHmac('sha256', secret).update(body).digest('hex')];
    [createHmac] throws on a key that is not a string, which the [catch]
    turns into [false]. *)
Definition verifyWebhookSignature (hmac : string -> string -> string)
    (request : WebhookVerificationRequest) (config : GatewayConfig) : string + bool :=
  match presentedSignature request with
  | None => inr false
  | Some signature =>
      if negb (truthy_str signature) || negb (js_truthy (cfg_webhook_secret config))
      then inr false
      else match cfg_webhook_secret config with
           | JStr webhookSecret =>
               inr (String.eqb signature (hmac webhookSecret (vr_body request)))
           | _ => inr false
           end
  end.

End RazorpayGateway.

(** ** A Razorpay implementation for the statements below *)

Module RazorpayExamples.

Import Examples.

(** A gateway whose [verifyWebhookSignature] is Razorpay's; its payment
    call is not exercised. *)
Definition razorpayImpl (hmac : string -> string -> string) : GatewayImpl :=
  {| processPayment := fun _ _ => inr approved;
     verifySignature := RazorpayGateway.verifyWebhookSignature hmac |}.

(** A stand-in for HMAC-SHA256 in the examples: any function of the
    secret and the body will do there. *)
Definition toyHmac (secret body : string) : string := (secret ++ ":" ++ body)%string.

Definition razorpayFactory : GatewayFactory :=
  <["razorpay" := Some (razorpayImpl toyHmac)]> ∅.

(** A razorpay webhook that carries no signature at all. *)
Definition unsignedEvent : WebhookHandler.WebhookPayload :=
  {| WebhookHandler.gateway := "razorpay";
     WebhookHandler.event_type := "payment.failed";
     WebhookHandler.data :=
       JObj [("payload", JObj [("payment", JObj [("entity", JObj [("id", JStr "pay_1")])])])];
     WebhookHandler.signature := None;
     WebhookHandler.headers := None;
     WebhookHandler.body := Some "{...}" |}.

End RazorpayExamples.

(** * Properties *)

(** ** The stable sort *)

Section JsSort.

Context {A : Type} (cmp_le : A -> A -> bool).

Lemma In_insert_sorted (x y : A) (l : list A) :
  In y (insert_sorted cmp_le x l) <-> y = x \/ In y l.
Proof.
  induction l as [|z l IH]; simpl.
  - intuition.
  - destruct (cmp_le x z); simpl; [intuition | rewrite IH; intuition].
Qed.

Lemma In_js_sort (y : A) (l : list A) : In y (js_sort cmp_le l) <-> In y l.
Proof.
  induction l as [|x l IH]; simpl; [tauto|].
  rewrite In_insert_sorted, IH. intuition.
Qed.

Lemma js_sort_nil (l : list A) : js_sort cmp_le l = [] -> l = [].
Proof.
  destruct l as [|x l]; [reflexivity|]. intros H.
  assert (Hin : In x (js_sort cmp_le (x :: l))) by (apply In_js_sort; left; reflexivity).
  rewrite H in Hin. destruct Hin.
Qed.

Hypothesis cmp_total : forall a b, cmp_le a b = false -> cmp_le b a = true.
Hypothesis cmp_trans : forall a b c, cmp_le a b = true -> cmp_le b c = true -> cmp_le a c = true.

Lemma cmp_refl (a : A) : cmp_le a a = true.
Proof.
  destruct (cmp_le a a) eqn:E; [reflexivity|].
  pose proof (cmp_total _ _ E) as H. congruence.
Qed.

(** The first element of the sorted array is [<=] every element. *)
Lemma js_sort_head_least (l : list A) (x : A) (rest : list A) :
  js_sort cmp_le l = x :: rest -> forall y, In y l -> cmp_le x y = true.
Proof.
  revert x rest. induction l as [|a l IH]; intros x rest Hs y Hy; [destruct Hy|].
  simpl in Hs. destruct (js_sort cmp_le l) as [|h t] eqn:Hl.
  - apply js_sort_nil in Hl. subst l. simpl in Hs.
    injection Hs as <- _. destruct Hy as [<- | []]. apply cmp_refl.
  - simpl in Hs. destruct (cmp_le a h) eqn:Hah.
    + injection Hs as <- _. destruct Hy as [<- | Hy]; [apply cmp_refl|].
      eapply cmp_trans; [exact Hah|]. eapply IH; [reflexivity | exact Hy].
    + injection Hs as <- _. destruct Hy as [<- | Hy].
      * apply cmp_total, Hah.
      * eapply IH; [reflexivity | exact Hy].
Qed.

End JsSort.

(** Two comparators that agree on the elements of an array sort it alike. *)
Lemma insert_sorted_ext_in {A : Type} (c1 c2 : A -> A -> bool) (x : A) (l : list A) :
  (forall y, In y l -> c1 x y = c2 x y) ->
  insert_sorted c1 x l = insert_sorted c2 x l.
Proof.
  induction l as [|z l IH]; intros H; [reflexivity|]. simpl.
  rewrite (H z) by (left; reflexivity).
  destruct (c2 x z); [reflexivity|].
  f_equal. apply IH. intros y Hy. apply H. right; exact Hy.
Qed.

Lemma js_sort_ext_in {A : Type} (c1 c2 : A -> A -> bool) (l : list A) :
  (forall a b, In a l -> In b l -> c1 a b = c2 a b) ->
  js_sort c1 l = js_sort c2 l.
Proof.
  induction l as [|x l IH]; intros H; [reflexivity|]. simpl.
  rewrite IH by (intros a b Ha Hb; apply H; right; assumption).
  apply insert_sorted_ext_in. intros y Hy.
  apply H; [left; reflexivity | right; apply (In_js_sort c2), Hy].
Qed.

(** ** The routing engine *)

Module RoutingEngineFacts.

Import RoutingEngine RoutingEngineTerms.

Lemma byScoreOrder_total (a b : ScoredGateway) :
  byScoreOrder a b = false -> byScoreOrder b a = true.
Proof.
  unfold byScoreOrder. intros H. apply Qle_bool_iff.
  destruct (Qlt_le_dec (score a) (score b)) as [Hlt | Hle].
  - apply Qlt_le_weak, Hlt.
  - apply Qle_bool_iff in Hle. congruence.
Qed.

Lemma byScoreOrder_trans (a b c : ScoredGateway) :
  byScoreOrder a b = true -> byScoreOrder b c = true -> byScoreOrder a c = true.
Proof.
  unfold byScoreOrder. rewrite !Qle_bool_iff. intros H1 H2.
  eapply Qle_trans; eassumption.
Qed.

Lemma passesHealthFilter_spec (metrics : list GatewayHealth) (sg : ScoredGateway) :
  passesHealthFilter metrics sg = negb (markedUnhealthy metrics (sg_gateway sg)).
Proof.
  unfold passesHealthFilter, markedUnhealthy.
  destruct (findHealth metrics (gateway_id (sg_gateway sg))); [|reflexivity].
  now rewrite negb_involutive.
Qed.

Lemma sg_gateway_scoreGateway ar hour tx metrics rules g :
  sg_gateway (scoreGateway ar hour tx metrics rules g) = g.
Proof. reflexivity. Qed.

(** When subtraction keeps the order of the candidates' scores, the sort
    by [b.score - a.score] is the sort by descending score. *)
Lemma sort_by_difference_is_sort_by_score
    (ar : Arithmetic) (hour : Z) (tx : Transaction) (gws : list Gateway)
    (groups : list HealthAggregate) (rules : list Rule)
    (keep : ScoredGateway -> bool) :
  scoresKeepOrder ar hour tx groups rules gws ->
  js_sort (byScoreDesc ar)
    (List.filter keep
       (map (scoreGateway ar hour tx (getGatewayHealthMetrics groups) rules) gws))
  = js_sort byScoreOrder
      (List.filter keep
         (map (scoreGateway ar hour tx (getGatewayHealthMetrics groups) rules) gws)).
Proof.
  intros Hk. apply js_sort_ext_in. intros a b Ha Hb.
  apply filter_In in Ha. destruct Ha as [Ha _].
  apply filter_In in Hb. destruct Hb as [Hb _].
  apply in_map_iff in Ha. destruct Ha as [ga [<- Hga]].
  apply in_map_iff in Hb. destruct Hb as [gb [<- Hgb]].
  exact (Hk ga gb Hga Hgb).
Qed.

(** Without rounding, subtraction keeps the order of any two numbers. *)
Lemma exact_subtraction_keeps_order (x y : Q) :
  subtractionKeepsOrder exactArithmetic x y.
Proof.
  unfold subtractionKeepsOrder. simpl.
  destruct (Qle_bool y x) eqn:E.
  - apply Qle_bool_iff in E. apply Qle_bool_iff.
    apply (Qplus_le_l _ _ x). ring_simplify. exact E.
  - destruct (Qle_bool (y - x) 0) eqn:F; [|reflexivity].
    apply Qle_bool_iff in F. apply (Qplus_le_l _ _ x) in F. ring_simplify in F.
    apply Qle_bool_iff in F. congruence.
Qed.

(** The thresholds behind [is_healthy]. *)
Lemma is_healthy_thresholds (m : HealthAggregate) :
  is_healthy (healthOfAggregate m) = true <->
  (80 <= success_rate (healthOfAggregate m))%Q /\
  (average_response_time_ms (healthOfAggregate m) <= 5000)%Q.
Proof.
  unfold healthOfAggregate; simpl.
  rewrite andb_true_iff, !Qle_bool_iff. tauto.
Qed.






Lemma fold_left_ext_in {A B : Type} (f g : A -> B -> A) (l : list B) :
  (forall a x, In x l -> f a x = g a x) ->
  forall a, fold_left f l a = fold_left g l a.
Proof.
  induction l as [|x l IH]; intros Hfg a; [reflexivity|]. simpl.
  rewrite (Hfg a x) by (left; reflexivity).
  apply IH. intros a' y Hy. apply Hfg. right; exact Hy.
Qed.

(** [evaluateRule] reads the clock only through the rule's window. *)
Lemma evaluateRule_hours (h1 h2 : Z) (rule : Rule) (tx : Transaction) (g : Gateway) :
  (forall w, c_time_of_day (conditions rule) = Some w ->
             outside_window h1 w = outside_window h2 w) ->
  evaluateRule h1 rule tx g = evaluateRule h2 rule tx g.
Proof.
  intros Hw. unfold evaluateRule.
  destruct (c_time_of_day (conditions rule)) as [w|]; [|reflexivity].
  rewrite (Hw w eq_refl). reflexivity.
Qed.

(** C8, as the code has it.  [main] is a function of the candidate
    bindings, the health groups, the rules and the hour of the clock read
    by [evaluateRule]: two evaluations on identical inputs return the same
    selection, score and reasons whenever every rule with a [time_of_day]
    window treats the two hours alike (in particular at the same hour, or
    when no rule has such a window). *)
Theorem selection_determined_by_inputs_and_hour
    (ar : Arithmetic) (h1 h2 : Z) (tx : Transaction) (gws : list Gateway)
    (groups : list HealthAggregate) (rules : list Rule) :
  (forall r w, In r rules -> c_time_of_day (conditions r) = Some w ->
               outside_window h1 w = outside_window h2 w) ->
  main ar h1 tx gws groups rules = main ar h2 tx gws groups rules.
Proof.
  intros Hw. unfold main.
  assert (Hscore : forall g,
            scoreGateway ar h1 tx (getGatewayHealthMetrics groups) rules g =
            scoreGateway ar h2 tx (getGatewayHealthMetrics groups) rules g).
  { intros g. unfold scoreGateway.
    rewrite (fold_left_ext_in (applyRule ar h1 tx g) (applyRule ar h2 tx g));
      [reflexivity|].
    intros acc r Hr. unfold applyRule.
    rewrite (evaluateRule_hours h1 h2 r tx g); [reflexivity|].
    intros w. apply Hw, Hr. }
  rewrite (map_ext _ _ Hscore). reflexivity.
Qed.

(** The claim of C8 fails for a rule with a [time_of_day] window: the
    same bindings, health data and rules select stripe at 10 o'clock and
    razorpay at 20 o'clock. *)
Lemma selection_changes_with_the_hour :
  main Binary64.arithmetic 10 scenarioTransaction [razorpay; stripe] [] [officeHoursRule] <>
  main Binary64.arithmetic 20 scenarioTransaction [razorpay; stripe] [] [officeHoursRule] /\
  (exists d, main Binary64.arithmetic 10 scenarioTransaction [razorpay; stripe] []
               [officeHoursRule] = inr d /\
             rd_gateway_code d = "stripe") /\
  (exists d, main Binary64.arithmetic 20 scenarioTransaction [razorpay; stripe] []
               [officeHoursRule] = inr d /\
             rd_gateway_code d = "razorpay").
Proof.
  split; [vm_compute; discriminate|].
  split; eexists; (split; [vm_compute; reflexivity | reflexivity]).
Qed.

Lemma selection_determined_by_inputs_and_hour_witness :
  main Binary64.arithmetic 9 scenarioTransaction [razorpay; stripe] []
    [officeHoursRule; upiRule] =
  main Binary64.arithmetic 17 scenarioTransaction [razorpay; stripe] []
    [officeHoursRule; upiRule].
Proof.
  apply (selection_determined_by_inputs_and_hour Binary64.arithmetic 9 17).
  intros r w [<- | [<- | []]] E; simpl in E.
  - injection E as <-. reflexivity.
  - discriminate E.
Defined.

End RoutingEngineFacts.

(** ** The store *)

Lemma find_map_by_pk (id : string) (f : TransactionRow -> TransactionRow)
    (rows : list TransactionRow) :
  (forall t, tx_id (f t) = tx_id t) ->
  find (fun t => String.eqb (tx_id t) id)
       (map (fun t => if String.eqb (tx_id t) id then f t else t) rows)
  = option_map f (find (fun t => String.eqb (tx_id t) id) rows).
Proof.
  intros Hid. induction rows as [|t rows IH]; [reflexivity|]. simpl.
  destruct (String.eqb (tx_id t) id) eqn:E.
  - rewrite Hid, E. reflexivity.
  - rewrite E. exact IH.
Qed.

(** Reading back the row that [update_transactions_by_pk] rewrote. *)
Lemma transactions_by_pk_update (st : Store) (id : string)
    (f : TransactionRow -> TransactionRow) :
  (forall t, tx_id (f t) = tx_id t) ->
  transactions_by_pk (update_transactions_by_pk st id f) id
  = option_map f (transactions_by_pk st id).
Proof. intros Hid. unfold transactions_by_pk. simpl. now apply find_map_by_pk. Qed.

(** ** The payment processing workflow *)

Module PaymentWorkflowFacts.

Import PaymentWorkflow Examples.

Lemma status_eqb_eq (a b : Status) : status_eqb a b = true <-> a = b.
Proof. destruct a, b; simpl; split; intros H; try reflexivity; discriminate H. Qed.

(** What [updateTransactionStatus] leaves in the row it addresses. *)
Lemma updateTransactionStatus_lookup (st : Store) (id : string) (s : Status)
    (g : SetVar string) (r : SetVar jsval) (t : TransactionRow) :
  transactions_by_pk st id = Some t ->
  exists t', transactions_by_pk (updateTransactionStatus st id s g r) id = Some t' /\
             tx_status t' = s.
Proof.
  intros Ht. unfold updateTransactionStatus.
  rewrite transactions_by_pk_update by reflexivity.
  rewrite Ht. simpl. eexists. split; reflexivity.
Qed.

Lemma loadPending_pending (st : Store) (input : TransactionInput) (t : TransactionRow) :
  transactions_by_pk st (transactionId input) = Some t -> tx_status t = Pending ->
  exists tr, loadPending st input = inr tr /\ status tr = Pending.
Proof.
  intros Ht Hs. unfold loadPending, getTransactionForProcessing.
  rewrite Ht. simpl. rewrite Hs. simpl. eexists. split; reflexivity.
Qed.

Lemma loadPending_settled (st : Store) (input : TransactionInput) (t : TransactionRow) :
  transactions_by_pk st (transactionId input) = Some t -> tx_status t <> Pending ->
  loadPending st input
  = inl ("Transaction is already " ++ status_name (tx_status t))%string.
Proof.
  intros Ht Hs. unfold loadPending, getTransactionForProcessing.
  rewrite Ht. simpl. destruct (status_eqb (tx_status t) Pending) eqn:E.
  - apply status_eqb_eq in E. contradiction.
  - reflexivity.
Qed.

(** A trigger on a transaction that is not [pending]: the guard throws
    inside the [try], and the [catch] writes [failed] over the row. *)
Lemma main_on_settled (fac : GatewayFactory) (st : Store) (input : TransactionInput)
    (t : TransactionRow) :
  transactions_by_pk st (transactionId input) = Some t -> tx_status t <> Pending ->
  main fac st input =
  settle input
    (st, inl ("Transaction is already " ++ status_name (tx_status t))%string).
Proof.
  intros Ht Hs. unfold main. now rewrite (loadPending_settled st input t Ht Hs).
Qed.

(** C1: a duplicate trigger is not a no-op.  [tx-1] is stored as
    [success] with gateway id [pay_1]; after [main] its status is [failed],
    its gateway transaction id is null and its gateway response is the
    error object, while the caller is told "Transaction is already
    success". *)
Theorem duplicate_trigger_overwrites_settled_transaction :
  main factory (storeWith Success (Some "pay_1") (JObj [("status", JStr "captured")]))
       (trigger None)
  = (storeWith Failed None (JObj [("error", JStr "Transaction is already success")]),
     {| success := false;
        message := "Payment processing failed";
        res_transactionId := None;
        gatewayUsed := None;
        gatewayTransactionId := None;
        error := Some "Transaction is already success" |}).
Proof. vm_compute. reflexivity. Qed.

(** Steps 2 to 6 log at most one attempt, numbered 1, whatever the
    strategy and whatever makes the payment call fail. *)
Lemma processLoaded_attempts (fac : GatewayFactory) (st : Store) (input : TransactionInput)
    (tr : Transaction) :
  db_routing_attempts (fst (processLoaded fac st input tr)) = db_routing_attempts st \/
  exists a, db_routing_attempts (fst (processLoaded fac st input tr))
            = db_routing_attempts st ++ [a] /\ ra_attempt_number a = 1%Z.
Proof.
  unfold processLoaded.
  destruct (selectGateway tr _) as [g|]; [|left; reflexivity].
  destruct (processPaymentThroughGateway fac tr (OfPaymentGateway g)) as [msg|res].
  - right. eexists. split.
    + destruct (routingStrategy input) as [s|]; [destruct (String.eqb s "failover")|];
        reflexivity.
    + reflexivity.
  - right. eexists. split; reflexivity.
Qed.

Lemma settle_attempts (input : TransactionInput) (o : Store * (string + ProcessResult)) :
  db_routing_attempts (fst (settle input o)) = db_routing_attempts (fst o).
Proof. destruct o as [st [msg|r]]; reflexivity. Qed.

(** One call of [main] adds at most one row to [routing_attempts]. *)
Lemma main_attempts (fac : GatewayFactory) (st : Store) (input : TransactionInput) :
  db_routing_attempts (fst (main fac st input)) = db_routing_attempts st \/
  exists a, db_routing_attempts (fst (main fac st input))
            = db_routing_attempts st ++ [a] /\ ra_attempt_number a = 1%Z.
Proof.
  unfold main. rewrite settle_attempts.
  destruct (loadPending st input) as [msg|tr]; [left; reflexivity|].
  apply processLoaded_attempts.
Qed.

(** C2: no failover round exists.  [tx-1] is pending, its merchant
    has stripe (priority 1) and razorpay (priority 2), the strategy is
    [failover]; the call for stripe fails, one attempt numbered 1 is logged
    against stripe, none against razorpay, and the transaction ends
    [failed]. *)
Theorem failover_makes_no_second_attempt :
  db_routing_attempts (fst (main factory (storeWith Pending None JNull)
                                 (trigger (Some "failover"))))
  = [ {| ra_transaction_id := "tx-1";
         ra_gateway_id := "gw-stripe";
         ra_attempt_number := 1;
         ra_status := Failed;
         ra_error_message := Some (read_of_undefined "provider");
         ra_response_payload := JUndefined |} ] /\
  option_map tx_status
    (transactions_by_pk (fst (main factory (storeWith Pending None JNull)
                                   (trigger (Some "failover")))) "tx-1")
  = Some Failed /\
  success (snd (main factory (storeWith Pending None JNull) (trigger (Some "failover"))))
  = false.
Proof. vm_compute. repeat split. Qed.

Lemma settle_failed_lookup (input : TransactionInput) (st : Store) (msg : string)
    (t : TransactionRow) :
  transactions_by_pk st (transactionId input) = Some t ->
  exists t', transactions_by_pk (fst (settle input (st, inl msg))) (transactionId input)
             = Some t' /\ tx_status t' = Failed.
Proof. intros Ht. simpl. now apply (updateTransactionStatus_lookup st _ Failed _ _ t). Qed.

(** A call of [main] on a pending transaction leaves it [success] or
    [failed]. *)
Lemma main_settles (fac : GatewayFactory) (st : Store) (input : TransactionInput)
    (t : TransactionRow) :
  transactions_by_pk st (transactionId input) = Some t -> tx_status t = Pending ->
  exists t', transactions_by_pk (fst (main fac st input)) (transactionId input) = Some t' /\
             (tx_status t' = Success \/ tx_status t' = Failed).
Proof.
  intros Ht Hs. unfold main.
  destruct (loadPending_pending st input t Ht Hs) as [tr [-> _]].
  destruct (updateTransactionStatus_lookup st (transactionId input) Processing
              Omitted Omitted t Ht) as [t1 [Ht1 _]].
  unfold processLoaded.
  destruct (selectGateway tr _) as [g|].
  - destruct (processPaymentThroughGateway fac tr (OfPaymentGateway g)) as [msg|res].
    + match goal with
      | |- context [settle input (?s, inl msg)] =>
          destruct (settle_failed_lookup input s msg t1) as [t' [Ht' Hf]]
      end.
      { destruct (routingStrategy input) as [s|]; [destruct (String.eqb s "failover")|];
          exact Ht1. }
      exists t'. split; [exact Ht' | right; exact Hf].
    + match goal with
      | |- context [updateTransactionStatus ?s ?i Success ?g ?r] =>
          destruct (updateTransactionStatus_lookup s i Success g r t1 Ht1) as [t' [Ht' Hf]]
      end.
      exists t'. split; [exact Ht' | left; exact Hf].
  - destruct (settle_failed_lookup input
                (updateTransactionStatus st (transactionId input) Processing Omitted Omitted)
                "No suitable gateway found for this transaction" t1 Ht1) as [t' [Ht' Hf]].
    exists t'. split; [exact Ht' | right; exact Hf].
Qed.

(** Steps 2 to 6 always end in a throw, and at that point the addressed
    transaction is [processing]: step 2 has written it, whatever its status
    was, and nothing after step 2 writes it again before the [catch]. *)
Lemma processLoaded_leaves_processing (fac : GatewayFactory) (st : Store)
    (input : TransactionInput) (tr : Transaction) (t : TransactionRow) :
  transactions_by_pk st (transactionId input) = Some t ->
  exists stP msg,
    processLoaded fac st input tr = (stP, inl msg) /\
    option_map tx_status (transactions_by_pk stP (transactionId input)) = Some Processing /\
    (msg = "No suitable gateway found for this transaction" \/
     msg = read_of_undefined "provider").
Proof.
  intros Ht.
  destruct (updateTransactionStatus_lookup st (transactionId input) Processing
              Omitted Omitted t Ht) as [t1 [Ht1 Hs1]].
  unfold processLoaded.
  destruct (selectGateway tr _) as [g|].
  - change (processPaymentThroughGateway fac tr (OfPaymentGateway g))
      with (@inl string PaymentResult (read_of_undefined "provider")).
    eexists _, _. split; [reflexivity|]. split; [|right; reflexivity].
    assert (E : forall s0 r,
              transactions_by_pk (logRoutingAttempt s0 r) (transactionId input)
              = transactions_by_pk s0 (transactionId input)) by reflexivity.
    destruct (routingStrategy input) as [s|]; [destruct (String.eqb s "failover")|];
      rewrite E, Ht1; simpl; rewrite Hs1; reflexivity.
  - eexists _, _. split; [reflexivity|]. split; [|left; reflexivity].
    rewrite Ht1. simpl. rewrite Hs1. reflexivity.
Qed.

Lemma thrown_is_not_the_guard (msg : string) (s : Status) :
  msg = "No suitable gateway found for this transaction" \/
  msg = read_of_undefined "provider" ->
  msg <> ("Transaction is already " ++ status_name s)%string.
Proof. intros [-> | ->]; simpl; discriminate. Qed.

(** C7, as the code has it.  For a stored pending transaction:
    (1) [updateTransactionStatus] rewrites the status of the row it
    addresses whatever that status was; it names no expected prior status
    and cannot fail on a mismatch;
    (2) the only guard is the read of step 1: a second call of [main] that
    starts after the first has finished is rejected with "Transaction is
    already ...";
    (3) two calls whose step-1 reads are both answered before either
    writes both pass the guard and both perform the transition.  The first
    runs steps 2 to 6 on the pending row and reaches its [catch] with the
    row [processing]; the [catch] leaves it [failed]; the second then runs
    steps 2 to 6 on that row and reaches its own [catch] with the row
    [processing] again.  Neither is answered "Transaction is already
    ...": each gets the error thrown by its own steps 3 to 6. *)
Theorem pending_guard_is_a_separate_read
    (fac : GatewayFactory) (st : Store) (a b : TransactionInput) (t : TransactionRow) :
  transactionId a = transactionId b ->
  transactions_by_pk st (transactionId a) = Some t ->
  tx_status t = Pending ->
  (forall st0 t0,
     transactions_by_pk st0 (transactionId a) = Some t0 ->
     exists t1,
       transactions_by_pk
         (updateTransactionStatus st0 (transactionId a) Processing Omitted Omitted)
         (transactionId a) = Some t1 /\
       tx_status t1 = Processing) /\
  (exists s,
     s <> Pending /\
     error (snd (main fac (fst (main fac st a)) b))
     = Some ("Transaction is already " ++ status_name s)%string) /\
  (exists tra trb stPA msgA stPB msgB,
     loadPending st a = inr tra /\ loadPending st b = inr trb /\
     processLoaded fac st a tra = (stPA, inl msgA) /\
     option_map tx_status (transactions_by_pk stPA (transactionId a)) = Some Processing /\
     option_map tx_status
       (transactions_by_pk (fst (settle a (stPA, inl msgA))) (transactionId a))
     = Some Failed /\
     processLoaded fac (fst (settle a (stPA, inl msgA))) b trb = (stPB, inl msgB) /\
     option_map tx_status (transactions_by_pk stPB (transactionId a)) = Some Processing /\
     mainTwiceOverlapping fac st a b
     = (fst (settle b (stPB, inl msgB)),
        (snd (settle a (stPA, inl msgA)), snd (settle b (stPB, inl msgB)))) /\
     error (snd (settle a (stPA, inl msgA))) = Some msgA /\
     error (snd (settle b (stPB, inl msgB))) = Some msgB /\
     (forall s, msgA <> ("Transaction is already " ++ status_name s)%string) /\
     (forall s, msgB <> ("Transaction is already " ++ status_name s)%string)).
Proof.
  intros Hab Ht Hs. split; [|split].
  - intros st0 t0 H0. now apply (updateTransactionStatus_lookup st0 _ Processing _ _ t0).
  - destruct (main_settles fac st a t Ht Hs) as [t' [Ht' Hst]].
    rewrite Hab in Ht'.
    assert (Hnp : tx_status t' <> Pending)
      by (destruct Hst as [-> | ->]; discriminate).
    exists (tx_status t'). split; [exact Hnp|].
    rewrite (main_on_settled fac _ b t' Ht' Hnp). reflexivity.
  - destruct (loadPending_pending st a t Ht Hs) as [tra [Ha _]].
    pose proof Ht as Htb. rewrite Hab in Htb.
    destruct (loadPending_pending st b t Htb Hs) as [trb [Hb _]].
    destruct (processLoaded_leaves_processing fac st a tra t Ht)
      as [stPA [msgA [HPA [HsA HmA]]]].
    assert (HtP : exists tP, transactions_by_pk stPA (transactionId a) = Some tP).
    { destruct (transactions_by_pk stPA (transactionId a)) as [tP|];
        [eauto | discriminate HsA]. }
    destruct HtP as [tP HtP].
    destruct (settle_failed_lookup a stPA msgA tP HtP) as [tF [HtF HsF]].
    pose proof HtF as HtFb. rewrite Hab in HtFb.
    destruct (processLoaded_leaves_processing fac (fst (settle a (stPA, inl msgA))) b trb
                tF HtFb) as [stPB [msgB [HPB [HsB HmB]]]].
    exists tra, trb, stPA, msgA, stPB, msgB.
    split; [exact Ha|]. split; [exact Hb|]. split; [exact HPA|].
    split; [exact HsA|].
    split; [rewrite HtF; simpl; rewrite HsF; reflexivity|].
    split; [exact HPB|].
    split; [rewrite Hab; exact HsB|].
    split.
    { unfold mainTwiceOverlapping. rewrite Ha, Hb, HPA.
      destruct (settle a (stPA, inl msgA)) as [stA rA] eqn:EA. simpl in HPB.
      rewrite HPB. destruct (settle b (stPB, inl msgB)) as [stB rB]. reflexivity. }
    split; [reflexivity|]. split; [reflexivity|].
    split; intros s; apply thrown_is_not_the_guard; assumption.
Qed.

(** The claim of C7 fails: the update to [processing] goes through on a
    row stored as [success], so it is no compare-and-set; and of two
    overlapping triggers of the pending [tx-1] neither is told that the
    transaction is already processed.  Both perform the transition, the
    first on the pending row and the second on the row the first left
    [failed]; both run the workflow and each logs its own attempt. *)
Lemma overlapping_triggers_both_pass_the_guard :
  option_map tx_status
    (transactions_by_pk
       (updateTransactionStatus (storeWith Success (Some "pay_1") JNull) "tx-1"
          Processing Omitted Omitted) "tx-1")
  = Some Processing /\
  match loadPending (storeWith Pending None JNull) (trigger None) with
  | inr tr =>
      option_map tx_status
        (transactions_by_pk
           (fst (processLoaded factory (storeWith Pending None JNull) (trigger None) tr))
           "tx-1")
      = Some Processing /\
      option_map tx_status
        (transactions_by_pk
           (fst (main factory (storeWith Pending None JNull) (trigger None))) "tx-1")
      = Some Failed /\
      option_map tx_status
        (transactions_by_pk
           (fst (processLoaded factory
                   (fst (main factory (storeWith Pending None JNull) (trigger None)))
                   (trigger None) tr))
           "tx-1")
      = Some Processing
  | inl _ => False
  end /\
  length (db_routing_attempts
            (fst (mainTwiceOverlapping factory (storeWith Pending None JNull)
                    (trigger None) (trigger None)))) = 2 /\
  error (fst (snd (mainTwiceOverlapping factory (storeWith Pending None JNull)
                     (trigger None) (trigger None))))
  = Some (read_of_undefined "provider") /\
  error (snd (snd (mainTwiceOverlapping factory (storeWith Pending None JNull)
                     (trigger None) (trigger None))))
  = Some (read_of_undefined "provider").
Proof. vm_compute. repeat split. Qed.

Lemma pending_guard_is_a_separate_read_witness :
  transactionId (trigger None) = transactionId (trigger (Some "failover")) /\
  transactions_by_pk (storeWith Pending None JNull) (transactionId (trigger None))
  = Some (transactionRow Pending None JNull) /\
  tx_status (transactionRow Pending None JNull) = Pending /\
  exists s,
    s <> Pending /\
    error (snd (main factory (fst (main factory (storeWith Pending None JNull)
                                     (trigger None)))
                  (trigger (Some "failover"))))
    = Some ("Transaction is already " ++ status_name s)%string.
Proof.
  split; [reflexivity|]. split; [reflexivity|]. split; [reflexivity|].
  exact (proj1 (proj2
           (pending_guard_is_a_separate_read factory (storeWith Pending None JNull)
              (trigger None) (trigger (Some "failover"))
              (transactionRow Pending None JNull) eq_refl eq_refl eq_refl))).
Defined.

End PaymentWorkflowFacts.

(** ** The gateway webhook handler *)

Module WebhookHandlerFacts.

Import WebhookHandler Examples.

Lemma transactions_by_pk_ext (st st' : Store) (id : string) :
  db_transactions st' = db_transactions st ->
  transactions_by_pk st' id = transactions_by_pk st id.
Proof. unfold transactions_by_pk. now intros ->. Qed.

Lemma find_by_pk_of_In (t : TransactionRow) (rows : list TransactionRow) :
  In t rows -> exists t0, find (fun x => String.eqb (tx_id x) (tx_id t)) rows = Some t0.
Proof.
  induction rows as [|x rows IH]; intros Hin; [destruct Hin|]. simpl.
  destruct (String.eqb (tx_id x) (tx_id t)) eqn:E; [eauto|].
  destruct Hin as [-> | Hin]; [|exact (IH Hin)].
  rewrite String.eqb_refl in E. discriminate E.
Qed.

(** A gateway transaction id that is a string was read from an object. *)
Lemma extracted_id_from_object (p : WebhookPayload) (s : string) :
  extractGatewayTransactionId p = inr (JStr s) -> exists fields, data p = JObj fields.
Proof.
  unfold extractGatewayTransactionId.
  destruct (data p) as [| | | | | |fields|]; try (exists fields; reflexivity);
    repeat match goal with
           | |- context [if String.eqb ?a ?b then _ else _] => destruct (String.eqb a b)
           end; simpl; intros H; discriminate H.
Qed.

Section Frames.

Context (rt : JsRuntime) (fac : GatewayFactory).

Lemma notifyMerchant_frame (st st' : Store) (id ev : string) :
  notifyMerchant st id ev = inr st' ->
  db_transactions st' = db_transactions st /\ db_webhooks st' = db_webhooks st.
Proof.
  unfold notifyMerchant.
  destruct (transactions_by_pk st id) as [t|]; [|intros [= <-]; split; reflexivity].
  destruct (find _ (db_merchants st)) as [m|]; [|discriminate].
  destruct (m_webhook_url m) as [url|]; [|intros [= <-]; split; reflexivity].
  destruct (truthy_str url); intros [= <-]; split; reflexivity.
Qed.

Lemma dispatchEvent_webhooks (st st' : Store) (p : WebhookPayload)
    (u : option TransactionUpdate) (b : bool) :
  dispatchEvent rt st p = inr (st', u, b) -> db_webhooks st' = db_webhooks st.
Proof.
  unfold dispatchEvent.
  repeat match goal with
         | |- context [if ?c then _ else _] => destruct c
         end.
  - destruct (handlePaymentSuccess st p); intros [= <- _ _]; reflexivity.
  - destruct (handlePaymentFailure st p); intros [= <- _ _]; reflexivity.
  - destruct (handleRefundProcessed rt st p); intros [= <- _ _]; reflexivity.
  - unfold handleDisputeCreated. destruct (extractTransactionId p);
      intros [= <- _ _]; reflexivity.
  - intros [= <- _ _]; reflexivity.
Qed.

(** Once the signature is accepted the webhook is recorded, whatever
    happens afterwards. *)
Lemma processVerified_records (st : Store) (p : WebhookPayload) :
  exists w, db_webhooks (fst (processVerified rt st p)) = db_webhooks st ++ [w] /\
            wh_event_type w = event_type p /\ wh_payload w = data p.
Proof.
  unfold processVerified, logWebhook.
  match goal with
  | |- context [dispatchEvent rt ?s p] => set (st1 := s)
  end.
  destruct (dispatchEvent rt st1 p) as [e | [[st2 u] b]] eqn:D.
  - eexists. split; [reflexivity|]. split; reflexivity.
  - apply dispatchEvent_webhooks in D.
    set (st3 := match u with Some update => updateTransaction st2 update | None => st2 end).
    assert (H3 : db_webhooks st3 = db_webhooks st ++
              [{| wh_source := "gateway"; wh_event_type := event_type p;
                  wh_payload := data p; wh_gateway_code := gateway p;
                  wh_processed := false; wh_processed_at := false;
                  wh_error_message := None |}]).
    { subst st3. destruct u; simpl; rewrite D; reflexivity. }
    assert (H4 : exists w, db_webhooks (markWebhookProcessed st3 (length (db_webhooks st)) b)
                           = db_webhooks st ++ [w] /\
                           wh_event_type w = event_type p /\ wh_payload w = data p).
    { unfold markWebhookProcessed. simpl. rewrite H3.
      rewrite <- (Nat.add_0_r (length (db_webhooks st))), alter_app_r. simpl.
      eexists. split; [reflexivity|]. split; reflexivity. }
    destruct H4 as [w [Hw Hprops]].
    match goal with
    | |- context [match ?n with inl _ => _ | inr _ => _ end] =>
        destruct n as [e|st5] eqn:N
    end.
    + exists w. split; [exact Hw | exact Hprops].
    + exists w. split; [|exact Hprops]. simpl.
      destruct u as [update|].
      * destruct (notify_merchant update).
        -- apply notifyMerchant_frame in N. destruct N as [_ ->]. exact Hw.
        -- injection N as <-. exact Hw.
      * injection N as <-. exact Hw.
Qed.

End Frames.

(** C3, as the code has it.  When the signature is not accepted,
    [main] throws before [logWebhook] is reached: the store is returned
    exactly as it was (no webhook row is inserted, no transaction is
    touched) and the answer is [{success: false, processed: false}] with
    the message "Invalid webhook signature". *)
Theorem rejected_signature_leaves_store_untouched
    (rt : JsRuntime) (fac : GatewayFactory) (st : Store) (payload : WebhookPayload) :
  verifyWebhookSignature rt fac st payload = false ->
  main rt fac st payload
  = (st, {| success := false; message := "Invalid webhook signature"; processed := false |}).
Proof. intros H. unfold main. rewrite H. reflexivity. Qed.

(** The claim of C3 fails: razorpay rejects the signature of a webhook
    received on a store with no webhook rows, and after [main] the table
    is still empty. *)
Lemma rejected_webhook_is_not_recorded :
  verifyWebhookSignature runtime strictFactory
    (storeWith Processing (Some "pay_1") JNull) (razorpayEvent "payment.success" [])
  = false /\
  db_webhooks (fst (main runtime strictFactory
                      (storeWith Processing (Some "pay_1") JNull)
                      (razorpayEvent "payment.success" [])))
  = [].
Proof. vm_compute. split; reflexivity. Qed.

Lemma rejected_signature_leaves_store_untouched_witness :
  verifyWebhookSignature runtime strictFactory
    (storeWith Processing (Some "pay_1") JNull) (razorpayEvent "payment.success" [])
  = false /\
  main runtime strictFactory (storeWith Processing (Some "pay_1") JNull)
    (razorpayEvent "payment.success" [])
  = (storeWith Processing (Some "pay_1") JNull,
     {| success := false; message := "Invalid webhook signature"; processed := false |}).
Proof.
  split; [vm_compute; reflexivity|].
  apply (rejected_signature_leaves_store_untouched runtime strictFactory).
  vm_compute. reflexivity.
Defined.

(** C6: a reversed terminal edge is applied.  [tx-1] is stored as
    [success]; a verified [payment.failed] webhook for its gateway id sets
    it to [failed] and notifies the merchant.  The sibling handler refuses
    the mirror case: a [payment.success] webhook leaves a [failed]
    transaction as it is. *)
Theorem failed_webhook_overwrites_success :
  option_map tx_status
    (transactions_by_pk
       (fst (main runtime factory (storeWith Success (Some "pay_1") JNull)
               (razorpayEvent "payment.failed" []))) "tx-1")
  = Some Failed /\
  snd (main runtime factory (storeWith Success (Some "pay_1") JNull)
         (razorpayEvent "payment.failed" []))
  = {| success := true; message := "Webhook processed successfully"; processed := true |} /\
  db_notifications
    (fst (main runtime factory (storeWith Success (Some "pay_1") JNull)
            (razorpayEvent "payment.failed" [])))
  = [ {| n_url := "https://merchant.example/hook"; n_event := "payment.failed";
         n_status := Failed |} ] /\
  option_map tx_status
    (transactions_by_pk
       (fst (main runtime factory (storeWith Failed (Some "pay_1") JNull)
               (razorpayEvent "payment.success" []))) "tx-1")
  = Some Failed.
Proof. vm_compute. repeat split. Qed.

(** C9.  A verified [refund.processed] webhook whose gateway
    transaction id matches stored transactions sets the status of the
    first match to [refunded] when the refund amount is at least the
    transaction amount and to [success] when it is smaller, and stores the
    webhook's [data] as the gateway response. *)
Theorem refund_sets_refunded_or_success
    (rt : JsRuntime) (fac : GatewayFactory) (st : Store) (payload : WebhookPayload)
    (gatewayTransactionId : string) (refundAmount : jsval) (refund : Q)
    (transaction : TransactionRow) (others : list TransactionRow) :
  verifyWebhookSignature rt fac st payload = true ->
  event_type payload = "refund.processed" ->
  extractGatewayTransactionId payload = inr (JStr gatewayTransactionId) ->
  extractRefundAmount rt payload = inr refundAmount ->
  ToNumber rt refundAmount = Some refund ->
  transactionsByGatewayId st (JStr gatewayTransactionId) = inr (transaction :: others) ->
  exists t',
    transactions_by_pk (fst (main rt fac st payload)) (tx_id transaction) = Some t' /\
    ((tx_amount transaction <= refund)%Q -> tx_status t' = Refunded) /\
    ((refund < tx_amount transaction)%Q -> tx_status t' = Success) /\
    tx_gateway_response t' = data payload.
Proof.
  intros Hv Hev Hid Hamt Hnum Hfound.
  destruct (extracted_id_from_object payload _ Hid) as [fields Hdata].
  assert (Hin : In transaction (db_transactions st)).
  { simpl in Hfound. injection Hfound as Hf.
    assert (H : In transaction (transaction :: others)) by (left; reflexivity).
    rewrite <- Hf in H. apply filter_In in H. tauto. }
  destruct (find_by_pk_of_In transaction _ Hin) as [t0 Ht0].
  set (update := {| transaction_id := tx_id transaction;
                    status := if js_ge rt refundAmount (tx_amount transaction)
                              then Refunded else Success;
                    gateway_response := data payload;
                    metadata := Some (JObj [("refund_amount", json_of refundAmount)]);
                    notify_merchant := true |}).
  assert (Hhandle : forall st1, db_transactions st1 = db_transactions st ->
            handleRefundProcessed rt st1 payload = inr (Some update)).
  { intros st1 H1. unfold handleRefundProcessed. rewrite Hid, Hamt.
    unfold transactionsByGatewayId. rewrite H1.
    unfold transactionsByGatewayId in Hfound. injection Hfound as ->. reflexivity. }
  assert (Hstatus : forall st1, db_transactions st1 = db_transactions st ->
            exists t', transactions_by_pk (updateTransaction st1 update) (tx_id transaction)
                       = Some t' /\
              ((tx_amount transaction <= refund)%Q -> tx_status t' = Refunded) /\
              ((refund < tx_amount transaction)%Q -> tx_status t' = Success) /\
              tx_gateway_response t' = data payload).
  { intros st1 H1. unfold updateTransaction.
    rewrite transactions_by_pk_update by reflexivity.
    rewrite (transactions_by_pk_ext st st1 _ H1). unfold transactions_by_pk.
    simpl. rewrite Ht0. simpl. eexists. split; [reflexivity|]. simpl.
    unfold js_ge. rewrite Hnum. rewrite Hdata. simpl.
    split; [|split; [|reflexivity]].
    - intros Hle. apply Qle_bool_iff in Hle. rewrite Hle. reflexivity.
    - intros Hlt. destruct (Qle_bool (tx_amount transaction) refund) eqn:E; [|reflexivity].
      apply Qle_bool_iff in E. exfalso. exact (Qlt_not_le _ _ Hlt E). }
  unfold main. rewrite Hv. simpl. unfold processVerified, logWebhook.
  match goal with
  | |- context [dispatchEvent rt ?s payload] => set (st1 := s)
  end.
  assert (Hd : dispatchEvent rt st1 payload = inr (st1, Some update, true)).
  { unfold dispatchEvent. rewrite Hev. simpl.
    rewrite (Hhandle st1 eq_refl). reflexivity. }
  rewrite Hd.
  destruct (Hstatus st1 eq_refl) as [t' [Ht' Hprops]].
  exists t'. split; [|exact Hprops].
  match goal with
  | |- context [match ?n with inl _ => _ | inr _ => _ end] =>
      destruct n as [e|st5] eqn:N
  end.
  - exact Ht'.
  - simpl. simpl in N. apply notifyMerchant_frame in N. destruct N as [N _].
    rewrite (transactions_by_pk_ext _ st5 _ N). exact Ht'.
Qed.

Lemma refund_sets_refunded_or_success_witness :
  verifyWebhookSignature runtime factory (storeWith Success (Some "pay_1") JNull)
    (razorpayEvent "refund.processed" (refundOf 4000)) = true /\
  event_type (razorpayEvent "refund.processed" (refundOf 4000)) = "refund.processed" /\
  extractGatewayTransactionId (razorpayEvent "refund.processed" (refundOf 4000))
  = inr (JStr "pay_1") /\
  extractRefundAmount runtime (razorpayEvent "refund.processed" (refundOf 4000))
  = inr (JNum (4000 / 100)) /\
  ToNumber runtime (JNum (4000 / 100)) = Some (4000 / 100)%Q /\
  transactionsByGatewayId (storeWith Success (Some "pay_1") JNull) (JStr "pay_1")
  = inr [transactionRow Success (Some "pay_1") JNull] /\
  exists t',
    transactions_by_pk
      (fst (main runtime factory (storeWith Success (Some "pay_1") JNull)
              (razorpayEvent "refund.processed" (refundOf 4000))))
      (tx_id (transactionRow Success (Some "pay_1") JNull)) = Some t' /\
    ((tx_amount (transactionRow Success (Some "pay_1") JNull) <= 4000 / 100)%Q ->
     tx_status t' = Refunded) /\
    ((4000 / 100 < tx_amount (transactionRow Success (Some "pay_1") JNull))%Q ->
     tx_status t' = Success) /\
    tx_gateway_response t' = data (razorpayEvent "refund.processed" (refundOf 4000)).
Proof.
  split; [reflexivity|]. split; [reflexivity|]. split; [reflexivity|].
  split; [reflexivity|]. split; [reflexivity|]. split; [reflexivity|].
  apply (refund_sets_refunded_or_success runtime factory
           (storeWith Success (Some "pay_1") JNull)
           (razorpayEvent "refund.processed" (refundOf 4000))
           "pay_1" (JNum (4000 / 100)) (4000 / 100)%Q
           (transactionRow Success (Some "pay_1") JNull) []);
    reflexivity.
Defined.

(** C10.  When the row of [payment_gateways] exists and the factory
    has no implementation registered for its provider,
    [verifyWebhookSignature] answers [true] without consulting any
    verifier: [main] goes on exactly as for a verified webhook and records
    it.  The answer is [false] only when the row is missing, or when the
    registered implementation answers [false] or throws. *)
Theorem unregistered_provider_bypasses_verification
    (rt : JsRuntime) (fac : GatewayFactory) (st : Store) (payload : WebhookPayload) :
  (forall cfg,
     getGatewayConfig st (gateway payload) = Some cfg ->
     fac !! pg_provider cfg = None ->
     verifyWebhookSignature rt fac st payload = true /\
     main rt fac st payload = processVerified rt st payload /\
     exists w,
       db_webhooks (fst (main rt fac st payload)) = db_webhooks st ++ [w] /\
       wh_event_type w = event_type payload /\ wh_payload w = data payload) /\
  (verifyWebhookSignature rt fac st payload = false ->
   getGatewayConfig st (gateway payload) = None \/
   exists cfg impl request config,
     getGatewayConfig st (gateway payload) = Some cfg /\
     fac !! pg_provider cfg = Some (Some impl) /\
     cfg_gateway_code config = pg_gateway_code cfg /\
     cfg_webhook_secret config = pg_webhook_secret cfg /\
     vr_signature request = signature payload /\
     (verifySignature impl request config = inr false \/
      exists e, verifySignature impl request config = inl e)).
Proof.
  split.
  - intros cfg Hcfg Hnone.
    assert (Hv : verifyWebhookSignature rt fac st payload = true).
    { unfold verifyWebhookSignature, createGateway. rewrite Hcfg, Hnone. reflexivity. }
    assert (Hm : main rt fac st payload = processVerified rt st payload).
    { unfold main. rewrite Hv. reflexivity. }
    split; [exact Hv|]. split; [exact Hm|].
    rewrite Hm. apply processVerified_records.
  - unfold verifyWebhookSignature, createGateway.
    destruct (getGatewayConfig st (gateway payload)) as [cfg|]; [|intros _; left; reflexivity].
    destruct (fac !! pg_provider cfg) as [[impl|]|] eqn:Hf; try discriminate.
    intros Hv. right.
    match type of Hv with
    | context [verifySignature impl ?r ?c] =>
        exists cfg, impl, r, c; destruct (verifySignature impl r c) as [e|b] eqn:Hs
    end.
    + split; [reflexivity|]. split; [exact Hf|]. do 3 (split; [reflexivity|]).
      right. exists e. reflexivity.
    + subst b. split; [reflexivity|]. split; [exact Hf|]. do 3 (split; [reflexivity|]).
      left. reflexivity.
Qed.

Lemma unregistered_provider_bypasses_verification_witness :
  getGatewayConfig (storeWith Success (Some "pay_1") JNull) (gateway adyenEvent)
  = Some adyenRow /\
  factory !! pg_provider adyenRow = None /\
  verifyWebhookSignature runtime factory (storeWith Success (Some "pay_1") JNull) adyenEvent
  = true /\
  main runtime factory (storeWith Success (Some "pay_1") JNull) adyenEvent
  = processVerified runtime (storeWith Success (Some "pay_1") JNull) adyenEvent.
Proof.
  split; [reflexivity|]. split; [vm_compute; reflexivity|].
  pose proof (proj1 (unregistered_provider_bypasses_verification runtime factory
                       (storeWith Success (Some "pay_1") JNull) adyenEvent)
                adyenRow eq_refl eq_refl) as [Hv [Hm _]].
  split; [exact Hv | exact Hm].
Defined.

End WebhookHandlerFacts.

(** * Further properties of the scripts *)

(** ** More on the stable sort *)

Section JsSortOrder.

Context {A : Type} (cmp_le : A -> A -> bool).

Hypothesis cmp_total : forall a b, cmp_le a b = false -> cmp_le b a = true.
Hypothesis cmp_trans : forall a b c, cmp_le a b = true -> cmp_le b c = true -> cmp_le a c = true.

(** The first element of the sorted array is the earliest least element
    of the input: everything before it in the input is strictly greater. *)
Lemma js_sort_head_first (l : list A) (x : A) (rest : list A) :
  js_sort cmp_le l = x :: rest ->
  exists before after,
    l = before ++ x :: after /\
    (forall y, In y before -> cmp_le y x = false) /\
    (forall y, In y after -> cmp_le x y = true).
Proof.
  revert x rest. induction l as [|a l IH]; intros x rest Hs; [discriminate Hs|].
  simpl in Hs. destruct (js_sort cmp_le l) as [|h t] eqn:Hl.
  - apply js_sort_nil in Hl. subst l. simpl in Hs. injection Hs as <- _.
    exists [], []. repeat split; intros y [].
  - simpl in Hs. destruct (cmp_le a h) eqn:Hah.
    + injection Hs as <- _. exists [], l. split; [reflexivity|].
      split; [intros y []|]. intros y Hy.
      eapply cmp_trans; [exact Hah|].
      eapply (js_sort_head_least cmp_le cmp_total cmp_trans); [exact Hl | exact Hy].
    + injection Hs as <- _.
      destruct (IH h t eq_refl) as [before [after [-> [Hb Ha]]]].
      exists (a :: before), after. split; [reflexivity|]. split; [|exact Ha].
      intros y [<- | Hy]; [exact Hah | exact (Hb y Hy)].
Qed.

End JsSortOrder.

(** ** More on the routing engine *)

Module RoutingEngineMore.

Import RoutingEngine RoutingEngineTerms RoutingEngineFacts.

(** X2.  Ties go to the earlier candidate.  When [main] returns a
    decision and the subtraction by which the sort compares two scores
    keeps their order, the selected gateway is the first candidate of
    highest score among those not marked unhealthy, the scores being the
    ones the code computes in its own arithmetic: every such candidate
    listed before it scores strictly less, every one listed after it
    scores at most as much.  The decision carries the score and reasons
    computed for it. *)
Theorem earliest_best_candidate_is_selected
    (ar : Arithmetic) (hour : Z) (tx : Transaction) (gws : list Gateway)
    (groups : list HealthAggregate) (rules : list Rule) (d : RoutingDecision) :
  scoresKeepOrder ar hour tx groups rules gws ->
  main ar hour tx gws groups rules = inr d ->
  exists before g after,
    List.filter (fun c => negb (markedUnhealthy (getGatewayHealthMetrics groups) c)) gws
    = before ++ g :: after /\
    rd_gateway_id d = gateway_id g /\
    rd_gateway_code d = gateway_code g /\
    rd_score d = scoreOf ar hour tx groups rules g /\
    rd_reason d = reasons (scoreGateway ar hour tx (getGatewayHealthMetrics groups) rules g) /\
    (forall c, In c before ->
       (scoreOf ar hour tx groups rules c < scoreOf ar hour tx groups rules g)%Q) /\
    (forall c, In c after ->
       (scoreOf ar hour tx groups rules c <= scoreOf ar hour tx groups rules g)%Q).
Proof.
  intros Hk. unfold main. destruct gws as [|g0 gl]; [discriminate|].
  set (gws := g0 :: gl) in *. set (metrics := getGatewayHealthMetrics groups).
  unfold metrics.
  rewrite (sort_by_difference_is_sort_by_score ar hour tx gws groups rules _ Hk).
  fold metrics.
  destruct (js_sort byScoreOrder _) as [|best rest] eqn:Hsort; [discriminate|].
  intros [= <-]. simpl.
  apply (js_sort_head_first byScoreOrder byScoreOrder_total byScoreOrder_trans) in Hsort.
  destruct Hsort as [sb [sa [Hsplit [Hb Ha]]]].
  rewrite filter_map_swap in Hsplit.
  rewrite (filter_ext _ (fun c => negb (markedUnhealthy metrics c))) in Hsplit
    by (intros c; now rewrite passesHealthFilter_spec, sg_gateway_scoreGateway).
  apply map_eq_app in Hsplit. destruct Hsplit as [before [tl [Hf [Hmb Hmt]]]].
  apply map_eq_cons in Hmt. destruct Hmt as [g [after [-> [Hg Hma]]]].
  exists before, g, after. subst best sb sa.
  split; [exact Hf|]. repeat (split; [reflexivity|]).
  unfold scoreOf. fold metrics. split.
  - intros c Hc.
    assert (H : byScoreOrder (scoreGateway ar hour tx metrics rules c)
                  (scoreGateway ar hour tx metrics rules g) = false)
      by (apply Hb, in_map, Hc).
    unfold byScoreOrder in H. apply Qnot_le_lt. intros Hle.
    apply Qle_bool_iff in Hle. congruence.
  - intros c Hc.
    assert (H : byScoreOrder (scoreGateway ar hour tx metrics rules g)
                  (scoreGateway ar hour tx metrics rules c) = true)
      by (apply Ha, in_map, Hc).
    unfold byScoreOrder in H. now apply Qle_bool_iff in H.
Qed.

(** Rounding decides: the two candidates for 1000.00 tie at 112.7 without
    rounding, and the earlier one is returned; in double precision the fee
    of 3.23% is 32.300000000000004, and the later one is returned. *)
Lemma rounding_breaks_the_tie :
  (scoreOf exactArithmetic 12 thousand [] [] percentFee
   == scoreOf exactArithmetic 12 thousand [] [] fixedFee)%Q /\
  main exactArithmetic 12 thousand [percentFee; fixedFee] [] []
  = inr (decisionFor (scoreGateway exactArithmetic 12 thousand [] [] percentFee)) /\
  calculateFee Binary64.arithmetic 1000 (323 # 10000) 0
  = 4545820873877095 # 140737488355328 /\
  (scoreOf Binary64.arithmetic 12 thousand [] [] percentFee
   < scoreOf Binary64.arithmetic 12 thousand [] [] fixedFee)%Q /\
  main Binary64.arithmetic 12 thousand [percentFee; fixedFee] [] []
  = inr (decisionFor (scoreGateway Binary64.arithmetic 12 thousand [] [] fixedFee)).
Proof. repeat split; vm_compute; reflexivity. Qed.

Lemma earliest_best_candidate_is_selected_witness :
  scoresKeepOrder Binary64.arithmetic 12 thousand [] [] [percentFee; fixedFee] /\
  exists before g after,
    List.filter (fun c => negb (markedUnhealthy (getGatewayHealthMetrics []) c))
      [percentFee; fixedFee]
    = before ++ g :: after /\
    "gw-b" = gateway_id g /\
    (forall c, In c before ->
       (scoreOf Binary64.arithmetic 12 thousand [] [] c
        < scoreOf Binary64.arithmetic 12 thousand [] [] g)%Q).
Proof.
  assert (Hk : scoresKeepOrder Binary64.arithmetic 12 thousand [] []
                 [percentFee; fixedFee]).
  { intros a b [<- | [<- | []]] [<- | [<- | []]]; vm_compute; reflexivity. }
  split; [exact Hk|].
  destruct (earliest_best_candidate_is_selected Binary64.arithmetic 12 thousand
              [percentFee; fixedFee] [] []
              (decisionFor (scoreGateway Binary64.arithmetic 12 thousand
                              (getGatewayHealthMetrics []) [] fixedFee))
              Hk ltac:(vm_compute; reflexivity))
    as [before [g [after [H1 [H2 [_ [_ [_ [H3 _]]]]]]]]].
  exists before, g, after. split; [exact H1|]. split; [exact H2 | exact H3].
Defined.

(** X3.  A zero average is read as missing.  Whatever a group
    reports, the success rate handed to the scoring is never 0 and the
    response time is never 0: a group whose average success rate is 0 is
    given 95, and is then marked healthy whenever its response time passes
    the 5000 ms threshold. *)
Theorem zero_success_rate_is_reported_as_95 (m : HealthAggregate) (rate : Q) :
  avg_success_rate m = Some rate -> (rate == 0)%Q ->
  success_rate (healthOfAggregate m) = 95%Q /\
  ~ (success_rate (healthOfAggregate m) == 0)%Q /\
  ~ (average_response_time_ms (healthOfAggregate m) == 0)%Q /\
  is_healthy (healthOfAggregate m)
  = Qle_bool (average_response_time_ms (healthOfAggregate m)) 5000.
Proof.
  intros Hm Hz.
  assert (Hr : success_rate (healthOfAggregate m) = 95%Q).
  { unfold healthOfAggregate; simpl. rewrite Hm. unfold num_or, truthy_num.
    apply Qeq_bool_iff in Hz. now rewrite Hz. }
  split; [exact Hr|]. split; [rewrite Hr; discriminate|]. split.
  - unfold healthOfAggregate; simpl. unfold num_or, truthy_num.
    destruct (avg_response_time_ms m) as [q|]; [|discriminate].
    destruct (Qeq_bool q 0) eqn:E; simpl; [discriminate|].
    intros H. apply Qeq_bool_iff in H. congruence.
  - unfold healthOfAggregate in *; simpl in *. rewrite Hr. reflexivity.
Qed.

Lemma zero_success_rate_is_reported_as_95_witness :
  avg_success_rate {| agg_gateway_id := "gw-stripe"; avg_success_rate := Some 0%Q;
                      avg_response_time_ms := Some 300%Q |} = Some 0%Q /\
  (0 == 0)%Q /\
  is_healthy (healthOfAggregate
                {| agg_gateway_id := "gw-stripe"; avg_success_rate := Some 0%Q;
                   avg_response_time_ms := Some 300%Q |})
  = Qle_bool (average_response_time_ms
                (healthOfAggregate
                   {| agg_gateway_id := "gw-stripe"; avg_success_rate := Some 0%Q;
                      avg_response_time_ms := Some 300%Q |})) 5000.
Proof.
  split; [reflexivity|]. split; [reflexivity|].
  exact (proj2 (proj2 (proj2
    (zero_success_rate_is_reported_as_95
       {| agg_gateway_id := "gw-stripe"; avg_success_rate := Some 0%Q;
          avg_response_time_ms := Some 300%Q |} 0%Q eq_refl (Qeq_refl 0))))).
Defined.

End RoutingEngineMore.

(** ** Truthiness *)

Lemma truthy_str_spec (s : string) : truthy_str s = true <-> s <> "".
Proof.
  unfold truthy_str. rewrite negb_true_iff. split.
  - intros H ->. discriminate H.
  - intros H. now apply String.eqb_neq.
Qed.

(** ** More on the store *)

Lemma map_by_pk_absent (id : string) (f : TransactionRow -> TransactionRow)
    (rows : list TransactionRow) :
  find (fun t => String.eqb (tx_id t) id) rows = None ->
  map (fun t => if String.eqb (tx_id t) id then f t else t) rows = rows.
Proof.
  induction rows as [|t rows IH]; [reflexivity|]. simpl.
  destruct (String.eqb (tx_id t) id); [discriminate|].
  intros H. now rewrite (IH H).
Qed.

(** Updating a primary key that no row carries changes nothing. *)
Lemma update_transactions_by_pk_absent (st : Store) (id : string)
    (f : TransactionRow -> TransactionRow) :
  transactions_by_pk st id = None -> update_transactions_by_pk st id f = st.
Proof.
  unfold transactions_by_pk, update_transactions_by_pk, with_transactions.
  intros H. rewrite (map_by_pk_absent id f _ H). destruct st; reflexivity.
Qed.

Lemma find_map_by_pk_other (id id' : string) (f : TransactionRow -> TransactionRow)
    (rows : list TransactionRow) :
  (forall t, tx_id (f t) = tx_id t) -> id' <> id ->
  find (fun t => String.eqb (tx_id t) id')
       (map (fun t => if String.eqb (tx_id t) id then f t else t) rows)
  = find (fun t => String.eqb (tx_id t) id') rows.
Proof.
  intros Hid Hne. induction rows as [|t rows IH]; [reflexivity|]. simpl.
  destruct (String.eqb (tx_id t) id) eqn:E.
  - rewrite Hid. apply String.eqb_eq in E.
    destruct (String.eqb (tx_id t) id') eqn:E'.
    + apply String.eqb_eq in E'. congruence.
    + exact IH.
  - destruct (String.eqb (tx_id t) id'); [reflexivity | exact IH].
Qed.

(** The rows with another primary key are read back unchanged. *)
Lemma transactions_by_pk_update_other (st : Store) (id id' : string)
    (f : TransactionRow -> TransactionRow) :
  (forall t, tx_id (f t) = tx_id t) -> id' <> id ->
  transactions_by_pk (update_transactions_by_pk st id f) id' = transactions_by_pk st id'.
Proof. intros Hid Hne. unfold transactions_by_pk. simpl. now apply find_map_by_pk_other. Qed.

Lemma map_tx_id_update (id : string) (f : TransactionRow -> TransactionRow)
    (rows : list TransactionRow) :
  (forall t, tx_id (f t) = tx_id t) ->
  map tx_id (map (fun t => if String.eqb (tx_id t) id then f t else t) rows)
  = map tx_id rows.
Proof.
  intros Hid. induction rows as [|t rows IH]; [reflexivity|]. simpl.
  rewrite IH. destruct (String.eqb (tx_id t) id); [now rewrite Hid | reflexivity].
Qed.

(** ** More on the payment processing workflow *)

Module PaymentWorkflowMore.

Import PaymentWorkflow Examples PaymentWorkflowFacts.

(** The payment call of [main] throws before any gateway is looked up:
    the value [main] passes has no property [gateway]. *)
Lemma payment_call_of_main_throws (fac : GatewayFactory) (tr : Transaction)
    (g : PaymentGateway) :
  processPaymentThroughGateway fac tr (OfPaymentGateway g)
  = inl (read_of_undefined "provider").
Proof. reflexivity. Qed.

(** The three ways the [try] block of [main] ends: each is a throw. *)
Lemma main_outcome (fac : GatewayFactory) (st : Store) (input : TransactionInput) :
  exists st' msg,
    main fac st input = settle input (st', inl msg) /\
    (st' = st \/
     st' = updateTransactionStatus st (transactionId input) Processing Omitted Omitted \/
     exists tr g,
       loadPending st input = inr tr /\
       selectGateway tr
         (match routingStrategy input with
          | Some s => if truthy_str s then s else "default"
          | None => "default"
          end) = Some g /\
       msg = read_of_undefined "provider" /\
       st' = logRoutingAttempt
               (updateTransactionStatus st (transactionId input) Processing Omitted Omitted)
               {| ra_transaction_id := transactionId input;
                  ra_gateway_id := pg_id g;
                  ra_attempt_number := 1;
                  ra_status := Failed;
                  ra_error_message := Some (read_of_undefined "provider");
                  ra_response_payload := JUndefined |}).
Proof.
  unfold main. destruct (loadPending st input) as [msg|tr] eqn:Hload.
  - exists st, msg. split; [reflexivity | left; reflexivity].
  - unfold processLoaded.
    destruct (selectGateway tr _) as [g|] eqn:Hsel.
    + rewrite payment_call_of_main_throws.
      eexists _, _. split.
      * destruct (routingStrategy input) as [s|]; [destruct (String.eqb s "failover")|];
          reflexivity.
      * right; right. exists tr, g. repeat split. exact Hsel.
    + eexists _, _. split; [reflexivity | right; left; reflexivity].
Qed.

(** X6.  A trigger for an unknown transaction id changes nothing: the
    caller is told "Transaction not found" and the store is returned as it
    was (the update to [failed] addresses no row). *)
Theorem unknown_transaction_leaves_store_unchanged
    (fac : GatewayFactory) (st : Store) (input : TransactionInput) :
  transactions_by_pk st (transactionId input) = None ->
  main fac st input
  = (st, {| success := false;
            message := "Payment processing failed";
            res_transactionId := None;
            gatewayUsed := None;
            gatewayTransactionId := None;
            error := Some "Transaction not found" |}).
Proof.
  intros Hnone. unfold main, loadPending, getTransactionForProcessing.
  rewrite Hnone. simpl. unfold updateTransactionStatus.
  now rewrite update_transactions_by_pk_absent.
Qed.

Lemma unknown_transaction_leaves_store_unchanged_witness :
  transactions_by_pk (storeWith Pending None JNull)
    (transactionId {| transactionId := "tx-404"; routingStrategy := None |}) = None /\
  fst (main factory (storeWith Pending None JNull)
         {| transactionId := "tx-404"; routingStrategy := None |})
  = storeWith Pending None JNull.
Proof.
  split; [reflexivity|].
  exact (f_equal fst
           (unknown_transaction_leaves_store_unchanged factory (storeWith Pending None JNull)
              {| transactionId := "tx-404"; routingStrategy := None |} eq_refl)).
Defined.

(** X7.  No call of [main] reports success, and none reaches a
    gateway: the answer does not depend on the gateway factory.  The answer
    carries an error message, and when the transaction exists it ends
    [failed] with a null gateway transaction id and that same message
    stored as its gateway response. *)
Theorem process_always_fails_and_records_the_error
    (fac : GatewayFactory) (st : Store) (input : TransactionInput) :
  success (snd (main fac st input)) = false /\
  (forall fac', main fac' st input = main fac st input) /\
  exists msg,
    error (snd (main fac st input)) = Some msg /\
    forall t,
      transactions_by_pk st (transactionId input) = Some t ->
      exists t',
        transactions_by_pk (fst (main fac st input)) (transactionId input) = Some t' /\
        tx_status t' = Failed /\
        tx_gateway_transaction_id t' = None /\
        tx_gateway_response t' = JObj [("error", JStr msg)] /\
        tx_amount t' = tx_amount t /\ tx_merchant_id t' = tx_merchant_id t.
Proof.
  destruct (main_outcome fac st input) as [st' [msg [Hmain Hst']]].
  split; [now rewrite Hmain|]. split.
  - intros fac'. unfold main.
    destruct (loadPending st input) as [m|tr]; [reflexivity|].
    unfold processLoaded. destruct (selectGateway tr _); [|reflexivity].
    now rewrite !payment_call_of_main_throws.
  - exists msg. split; [now rewrite Hmain|].
    intros t Ht. rewrite Hmain. simpl. unfold updateTransactionStatus at 1.
    rewrite transactions_by_pk_update by reflexivity.
    assert (Hl : exists t1, transactions_by_pk st' (transactionId input) = Some t1 /\
                            tx_amount t1 = tx_amount t /\
                            tx_merchant_id t1 = tx_merchant_id t).
    { destruct Hst' as [-> | [-> | [tr [g [_ [_ [_ ->]]]]]]].
      - exists t. repeat split. exact Ht.
      - unfold updateTransactionStatus.
        rewrite transactions_by_pk_update by reflexivity. rewrite Ht. simpl.
        eexists. repeat split.
      - unfold logRoutingAttempt, updateTransactionStatus.
        change (transactions_by_pk (with_routing_attempts ?s ?l))
          with (transactions_by_pk s).
        rewrite transactions_by_pk_update by reflexivity. rewrite Ht. simpl.
        eexists. repeat split. }
    destruct Hl as [t1 [Ht1 [Ha Hm]]]. rewrite Ht1. simpl.
    eexists. split; [reflexivity|]. simpl. repeat split; assumption.
Qed.

Lemma updateTransactionStatus_other (st : Store) (id id' : string) (s : Status)
    (g : SetVar string) (r : SetVar jsval) :
  id' <> id ->
  transactions_by_pk (updateTransactionStatus st id s g r) id' = transactions_by_pk st id'.
Proof.
  intros Hne. unfold updateTransactionStatus.
  now apply transactions_by_pk_update_other.
Qed.

Lemma updateTransactionStatus_ids (st : Store) (id : string) (s : Status)
    (g : SetVar string) (r : SetVar jsval) :
  map tx_id (db_transactions (updateTransactionStatus st id s g r))
  = map tx_id (db_transactions st).
Proof. unfold updateTransactionStatus. simpl. now apply map_tx_id_update. Qed.

(** X8.  [main] writes to the addressed transaction and to
    [routing_attempts] only: every other transaction is read back
    unchanged, no transaction row is added or removed, and the gateway,
    binding, rule, merchant, webhook, audit and notification tables are
    left as they were. *)
Theorem process_touches_only_its_transaction
    (fac : GatewayFactory) (st : Store) (input : TransactionInput) :
  (forall id', id' <> transactionId input ->
     transactions_by_pk (fst (main fac st input)) id' = transactions_by_pk st id') /\
  map tx_id (db_transactions (fst (main fac st input))) = map tx_id (db_transactions st) /\
  db_payment_gateways (fst (main fac st input)) = db_payment_gateways st /\
  db_merchant_gateways (fst (main fac st input)) = db_merchant_gateways st /\
  db_routing_rules (fst (main fac st input)) = db_routing_rules st /\
  db_merchants (fst (main fac st input)) = db_merchants st /\
  db_webhooks (fst (main fac st input)) = db_webhooks st /\
  db_audit_logs (fst (main fac st input)) = db_audit_logs st /\
  db_notifications (fst (main fac st input)) = db_notifications st.
Proof.
  destruct (main_outcome fac st input) as [st' [msg [-> Hst']]].
  change (fst (settle input (st', inl msg)))
    with (updateTransactionStatus st' (transactionId input) Failed SetNull
            (SetTo (JObj [("error", JStr msg)]))).
  split; [|split].
  - intros id' Hne. rewrite updateTransactionStatus_other by exact Hne.
    destruct Hst' as [-> | [-> | [tr [g [_ [_ [_ ->]]]]]]].
    + reflexivity.
    + now apply updateTransactionStatus_other.
    + unfold logRoutingAttempt.
      change (transactions_by_pk (with_routing_attempts ?s ?l) id')
        with (transactions_by_pk s id').
      now apply updateTransactionStatus_other.
  - rewrite updateTransactionStatus_ids.
    destruct Hst' as [-> | [-> | [tr [g [_ [_ [_ ->]]]]]]].
    + reflexivity.
    + apply updateTransactionStatus_ids.
    + unfold logRoutingAttempt.
      change (db_transactions (with_routing_attempts ?s ?l)) with (db_transactions s).
      apply updateTransactionStatus_ids.
  - destruct Hst' as [-> | [-> | [tr [g [_ [_ [_ ->]]]]]]]; repeat split.
Qed.

(** What [applyRuleAction] returns is a member of the array, and the
    array it leaves behind has the same members. *)
Lemma applyRuleAction_member (rule : RoutingRuleRow) (gws gws' : list MerchantGateway)
    (found : option MerchantGateway) :
  applyRuleAction rule gws = (found, gws') ->
  (forall mg, found = Some mg -> In mg gws) /\ (forall mg, In mg gws' <-> In mg gws).
Proof.
  unfold applyRuleAction.
  assert (Hsorted : forall f g',
            (head (js_sort byPriorityAsc gws), js_sort byPriorityAsc gws) = (f, g') ->
            (forall mg, f = Some mg -> In mg gws) /\ (forall mg, In mg g' <-> In mg gws)).
  { intros f g' [= <- <-]. split.
    - intros mg Hh. apply (In_js_sort byPriorityAsc).
      destruct (js_sort byPriorityAsc gws); [discriminate|].
      injection Hh as ->. left; reflexivity.
    - intros mg. apply In_js_sort. }
  assert (Hnone : forall f g', (@None MerchantGateway, gws) = (f, g') ->
            (forall mg, f = Some mg -> In mg gws) /\ (forall mg, In mg g' <-> In mg gws)).
  { intros f g' [= <- <-]. split; [discriminate | tauto]. }
  destruct (preferred_gateway (rr_actions rule)) as [code|].
  - destruct (truthy_str code).
    + intros [= <- <-]. split; [|tauto].
      intros mg Hf. apply find_some in Hf. tauto.
    + destruct (use_priority (rr_actions rule)); [apply Hsorted | apply Hnone].
  - destruct (use_priority (rr_actions rule)); [apply Hsorted | apply Hnone].
Qed.

Lemma selectByRules_member (rules : list RoutingRuleRow) (tr : Transaction)
    (gws gws' : list MerchantGateway) (found : option PaymentGateway) :
  selectByRules rules tr gws = (found, gws') ->
  (forall g, found = Some g -> exists mg, In mg gws /\ gateway mg = g) /\
  (forall mg, In mg gws' <-> In mg gws).
Proof.
  revert gws. induction rules as [|rule rules IH]; intros gws; simpl.
  - intros [= <- <-]. split; [discriminate | tauto].
  - destruct (evaluateRule rule tr); [|apply IH].
    destruct (applyRuleAction rule gws) as [[mg|] gws1] eqn:Ha;
      apply applyRuleAction_member in Ha; destruct Ha as [Hm Hp].
    + intros [= <- <-]. split; [|exact Hp].
      intros g [= <-]. exists mg. split; [apply Hm; reflexivity | reflexivity].
    + intros Hs. apply IH in Hs. destruct Hs as [Hf Hp']. split.
      * intros g Hg. destruct (Hf g Hg) as [mg [Hin Hgw]].
        exists mg. split; [apply Hp, Hin | exact Hgw].
      * intros mg. rewrite Hp'. apply Hp.
Qed.

(** Whatever [selectGateway] returns belongs to one of the merchant's
    bindings. *)
Lemma selectGateway_member (tr : Transaction) (strategy : string) (g : PaymentGateway) :
  selectGateway tr strategy = Some g ->
  exists mg, In mg (merchant_gateways (merchant tr)) /\ gateway mg = g.
Proof.
  unfold selectGateway.
  destruct (selectByRules (routing_rules (merchant tr)) tr (merchant_gateways (merchant tr)))
    as [[g0|] gws'] eqn:Hs; apply selectByRules_member in Hs; destruct Hs as [Hf Hp].
  - intros [= <-]. apply Hf. reflexivity.
  - destruct (js_sort byPriorityAsc gws') as [|mg rest] eqn:Hsort; [discriminate|].
    intros [= <-]. exists mg. split; [|reflexivity].
    apply Hp, (In_js_sort byPriorityAsc). rewrite Hsort. left; reflexivity.
Qed.

(** X9.  [selectGateway] returns one of the merchant's active
    gateways, and returns [null] exactly when the merchant has none: "No
    suitable gateway found for this transaction" cannot come from the
    rules. *)
Theorem selectGateway_picks_a_merchant_gateway (tr : Transaction) (strategy : string) :
  (forall g, selectGateway tr strategy = Some g ->
     exists mg, In mg (merchant_gateways (merchant tr)) /\ gateway mg = g) /\
  (selectGateway tr strategy = None <-> merchant_gateways (merchant tr) = []).
Proof.
  split; [intros g; apply selectGateway_member|].
  split.
  - unfold selectGateway.
    destruct (selectByRules (routing_rules (merchant tr)) tr (merchant_gateways (merchant tr)))
      as [[g0|] gws'] eqn:Hs; [discriminate|].
    apply selectByRules_member in Hs. destruct Hs as [_ Hp].
    destruct (js_sort byPriorityAsc gws') as [|mg rest] eqn:Hsort; [|discriminate].
    apply js_sort_nil in Hsort. subst gws'. intros _.
    destruct (merchant_gateways (merchant tr)) as [|x l]; [reflexivity|].
    destruct (proj2 (Hp x) (or_introl eq_refl)).
  - intros Hnil. destruct (selectGateway tr strategy) as [g|] eqn:Hsel; [|reflexivity].
    destruct (selectGateway_member tr strategy g Hsel) as [mg [Hin _]].
    rewrite Hnil in Hin. destruct Hin.
Qed.


Lemma byPriorityAsc_total (a b : MerchantGateway) :
  byPriorityAsc a b = false -> byPriorityAsc b a = true.
Proof. unfold byPriorityAsc. rewrite Z.leb_gt, Z.leb_le. lia. Qed.

Lemma byPriorityAsc_trans (a b c : MerchantGateway) :
  byPriorityAsc a b = true -> byPriorityAsc b c = true -> byPriorityAsc a c = true.
Proof. unfold byPriorityAsc. rewrite !Z.leb_le. lia. Qed.

Lemma sorted_head_lowest (gws : list MerchantGateway) (mg : MerchantGateway) :
  head (js_sort byPriorityAsc gws) = Some mg ->
  In mg gws /\ forall mg', In mg' gws -> (priority mg <= priority mg')%Z.
Proof.
  destruct (js_sort byPriorityAsc gws) as [|h rest] eqn:Hsort; [discriminate|].
  intros [= ->]. split.
  - apply (In_js_sort byPriorityAsc). rewrite Hsort. left; reflexivity.
  - intros mg' Hin. apply Z.leb_le.
    exact (js_sort_head_least byPriorityAsc byPriorityAsc_total byPriorityAsc_trans
             gws mg rest Hsort mg' Hin).
Qed.

Lemma selectByRules_lowest (rules : list RoutingRuleRow) (tr : Transaction)
    (gws gws' : list MerchantGateway) (g : PaymentGateway) :
  (forall r c, In r rules -> preferred_gateway (rr_actions r) = Some c -> c = "") ->
  selectByRules rules tr gws = (Some g, gws') ->
  exists mg, In mg gws /\ gateway mg = g /\
             forall mg', In mg' gws -> (priority mg <= priority mg')%Z.
Proof.
  revert gws. induction rules as [|rule rules IH]; intros gws Hpref; simpl; [discriminate|].
  assert (Hrest : forall r c, In r rules -> preferred_gateway (rr_actions r) = Some c -> c = "")
    by (intros r c Hr; apply Hpref; right; exact Hr).
  destruct (evaluateRule rule tr); [|apply IH, Hrest].
  destruct (applyRuleAction rule gws) as [[mg|] gws1] eqn:Ha.
  - intros [= <- <-]. unfold applyRuleAction in Ha.
    assert (Hsorted : (head (js_sort byPriorityAsc gws), js_sort byPriorityAsc gws)
                      = (Some mg, gws1) ->
              exists mg0, In mg0 gws /\ gateway mg0 = gateway mg /\
                          forall mg', In mg' gws -> (priority mg0 <= priority mg')%Z).
    { intros [= Hh _]. apply sorted_head_lowest in Hh. exists mg. tauto. }
    destruct (preferred_gateway (rr_actions rule)) as [code|] eqn:Hc.
    + rewrite (Hpref rule code (or_introl eq_refl) Hc) in Ha. simpl in Ha.
      destruct (use_priority (rr_actions rule)); [apply Hsorted, Ha | discriminate].
    + destruct (use_priority (rr_actions rule)); [apply Hsorted, Ha | discriminate].
  - intros Hs. pose proof (applyRuleAction_member _ _ _ _ Ha) as [_ Hp].
    destruct (IH gws1 Hrest Hs) as [mg [Hin [Hg Hmin]]].
    exists mg. split; [apply Hp, Hin|]. split; [exact Hg|].
    intros mg' Hin'. apply Hmin, Hp, Hin'.
Qed.

(** X11.  When no rule of the merchant names a preferred gateway,
    [selectGateway] returns a gateway of lowest priority number among the
    merchant's active gateways; rules that carry only [avoided_gateway] or
    [distribution] actions have no effect on the choice. *)
Theorem selection_without_preference_takes_lowest_priority
    (tr : Transaction) (strategy : string) (g : PaymentGateway) :
  (forall r c, In r (routing_rules (merchant tr)) ->
               preferred_gateway (rr_actions r) = Some c -> c = "") ->
  selectGateway tr strategy = Some g ->
  exists mg, In mg (merchant_gateways (merchant tr)) /\ gateway mg = g /\
             forall mg', In mg' (merchant_gateways (merchant tr)) ->
                         (priority mg <= priority mg')%Z.
Proof.
  intros Hpref. unfold selectGateway.
  destruct (selectByRules (routing_rules (merchant tr)) tr (merchant_gateways (merchant tr)))
    as [[g0|] gws'] eqn:Hs.
  - intros [= <-]. exact (selectByRules_lowest _ _ _ _ _ Hpref Hs).
  - apply selectByRules_member in Hs. destruct Hs as [_ Hp].
    destruct (js_sort byPriorityAsc gws') as [|mg rest] eqn:Hsort; [discriminate|].
    intros [= <-].
    assert (Hh : head (js_sort byPriorityAsc gws') = Some mg) by now rewrite Hsort.
    apply sorted_head_lowest in Hh. destruct Hh as [Hin Hmin].
    exists mg. split; [apply Hp, Hin|]. split; [reflexivity|].
    intros mg' Hin'. apply Hmin, Hp, Hin'.
Qed.

Lemma selection_without_preference_takes_lowest_priority_witness :
  (forall r c, In r (routing_rules (merchantOf (storeWith Pending None JNull) "m-1")) ->
               preferred_gateway (rr_actions r) = Some c -> c = "") /\
  exists mg, In mg (merchant_gateways (merchantOf (storeWith Pending None JNull) "m-1")) /\
             gateway mg = stripeRow /\
             forall mg', In mg' (merchant_gateways (merchantOf (storeWith Pending None JNull) "m-1")) ->
                         (priority mg <= priority mg')%Z.
Proof.
  split; [intros r c []|].
  apply (selection_without_preference_takes_lowest_priority
           {| id := "tx-1"; amount := 100; currency := "USD"; payment_method := "card";
              customer_email := None; metadata := JObj []; status := Pending;
              merchant := merchantOf (storeWith Pending None JNull) "m-1" |}
           "default" stripeRow).
  - intros r c [].
  - reflexivity.
Defined.

(** X12.  The two rule evaluators are not the same test.  Whenever
    the routing engine's [evaluateRule] accepts a rule for a transaction
    (at any hour, for any gateway), the workflow's [evaluateRule] accepts
    the same conditions for the same amount and payment method, whatever
    the rule type. *)
Theorem engine_match_implies_workflow_match
    (hour : Z) (rule : RoutingEngine.Rule) (row : RoutingRuleRow)
    (tx : RoutingEngine.Transaction) (tr : Transaction) (g : RoutingEngine.Gateway) :
  RoutingEngine.conditions rule = rr_conditions row ->
  RoutingEngine.amount tx = amount tr ->
  RoutingEngine.payment_method tx = payment_method tr ->
  RoutingEngine.evaluateRule hour rule tx g = true ->
  evaluateRule row tr = true.
Proof.
  intros Hc Ha Hm. unfold RoutingEngine.evaluateRule, evaluateRule.
  rewrite Hc, Ha, Hm.
  destruct (String.eqb (rr_rule_type row) "amount").
  - destruct (c_amount (rr_conditions row)) as [a|]; [|reflexivity].
    destruct (below_bound (amount tr) (amount_min a)); [discriminate|].
    destruct (above_bound (amount tr) (amount_max a)); [discriminate | reflexivity].
  - destruct (String.eqb (rr_rule_type row) "method_based");
      [|destruct (String.eqb (rr_rule_type row) "gateway_priority"); reflexivity].
    destruct (match c_amount (rr_conditions row) with
              | Some a => below_bound (amount tr) (amount_min a)
              | None => false
              end); [discriminate|].
    destruct (match c_amount (rr_conditions row) with
              | Some a => above_bound (amount tr) (amount_max a)
              | None => false
              end); [discriminate|].
    destruct (str_mismatch (c_currency (rr_conditions row)) (RoutingEngine.currency tx));
      [discriminate|].
    unfold str_mismatch.
    destruct (c_payment_method (rr_conditions row)) as [m|]; [|reflexivity].
    destruct (truthy_str m); simpl; [|reflexivity].
    destruct (String.eqb (payment_method tr) m); [reflexivity | discriminate].
Qed.

Lemma engine_match_implies_workflow_match_witness :
  RoutingEngine.evaluateRule 12 RoutingEngine.upiRule RoutingEngine.scenarioTransaction
    RoutingEngine.razorpay = true /\
  evaluateRule
    {| rr_merchant_id := "m-1"; rr_rule_type := "method_based"; rr_priority := 5;
       rr_conditions := RoutingEngine.conditions RoutingEngine.upiRule;
       rr_actions := RoutingEngine.actions RoutingEngine.upiRule;
       rr_is_active := true |}
    {| id := "tx-1"; amount := 500; currency := "INR"; payment_method := "upi";
       customer_email := None; metadata := JObj []; status := Pending;
       merchant := merchantOf (storeWith Pending None JNull) "m-1" |} = true.
Proof.
  split; [reflexivity|].
  apply (engine_match_implies_workflow_match 12 RoutingEngine.upiRule _
           RoutingEngine.scenarioTransaction _ RoutingEngine.razorpay);
    reflexivity.
Defined.

End PaymentWorkflowMore.

(** ** More on the gateway webhook handler *)

Module WebhookHandlerMore.

Import WebhookHandler WebhookTerms Examples WebhookHandlerFacts.

Section Outcomes.

Context (rt : JsRuntime) (fac : GatewayFactory).

Lemma mark_logged (st : Store) (p : WebhookPayload) (b : bool) :
  markWebhookProcessed (with_webhooks st (db_webhooks st ++ [loggedRow p]))
    (length (db_webhooks st)) b
  = with_webhooks st (db_webhooks st ++ [markedRow p b]).
Proof.
  unfold markWebhookProcessed. simpl.
  rewrite <- (Nat.add_0_r (length (db_webhooks st))), alter_app_r. reflexivity.
Qed.

(** A handler that throws: the row stays as [logWebhook] wrote it. *)
Lemma processVerified_throw (st : Store) (p : WebhookPayload) (e : string) :
  dispatchEvent rt (with_webhooks st (db_webhooks st ++ [loggedRow p])) p = inl e ->
  processVerified rt st p
  = (with_webhooks st (db_webhooks st ++ [loggedRow p]),
     {| success := false; message := e; processed := false |}).
Proof.
  intros D. unfold processVerified, logWebhook.
  change {| wh_source := "gateway"; wh_event_type := event_type p;
            wh_payload := data p; wh_gateway_code := gateway p;
            wh_processed := false; wh_processed_at := false;
            wh_error_message := None |} with (loggedRow p).
  rewrite D. reflexivity.
Qed.

(** A handler that asks for no update: only the webhook row is marked. *)
Lemma processVerified_no_update (st : Store) (p : WebhookPayload) (b : bool) :
  dispatchEvent rt (with_webhooks st (db_webhooks st ++ [loggedRow p])) p
  = inr (with_webhooks st (db_webhooks st ++ [loggedRow p]), None, b) ->
  processVerified rt st p
  = (with_webhooks st (db_webhooks st ++ [markedRow p b]),
     {| success := true; message := "Webhook processed successfully"; processed := b |}).
Proof.
  intros D. unfold processVerified, logWebhook.
  change {| wh_source := "gateway"; wh_event_type := event_type p;
            wh_payload := data p; wh_gateway_code := gateway p;
            wh_processed := false; wh_processed_at := false;
            wh_error_message := None |} with (loggedRow p).
  rewrite D. rewrite mark_logged. reflexivity.
Qed.

Lemma main_verified (st : Store) (p : WebhookPayload) :
  verifyWebhookSignature rt fac st p = true ->
  main rt fac st p = processVerified rt st p.
Proof. intros H. unfold main. now rewrite H. Qed.

Lemma extractRefundAmount_of_object (p : WebhookPayload) (fields : list (string * jsval)) :
  data p = JObj fields -> exists v, extractRefundAmount rt p = inr v.
Proof.
  intros Hd. unfold extractRefundAmount. rewrite Hd. simpl.
  repeat match goal with
         | |- context [if String.eqb ?a ?b then _ else _] => destruct (String.eqb a b)
         end; eexists; reflexivity.
Qed.

Lemma unhandled_event_dispatch (st : Store) (p : WebhookPayload) :
  ~ In (event_type p) handledEvents -> dispatchEvent rt st p = inr (st, None, false).
Proof.
  intros Hn. unfold dispatchEvent.
  repeat match goal with
         | |- context [String.eqb (event_type p) ?s] =>
             let E := fresh "E" in
             destruct (String.eqb (event_type p) s) eqn:E;
             [apply String.eqb_eq in E; exfalso; apply Hn; rewrite E; simpl; tauto|]
         end.
  reflexivity.
Qed.

(** X13.  The success handler is idempotent.  A verified
    [payment.success] (or [payment_capture.completed]) webhook for a
    transaction that is not [processing] changes no transaction, writes no
    audit entry and sends no notification: the webhook is recorded, marked
    processed, and the answer is [{success: true, processed: true}]. *)
Theorem success_webhook_on_settled_transaction_changes_nothing
    (st : Store) (p : WebhookPayload) (gid : string)
    (t : TransactionRow) (others : list TransactionRow) :
  verifyWebhookSignature rt fac st p = true ->
  event_type p = "payment.success" \/ event_type p = "payment_capture.completed" ->
  extractGatewayTransactionId p = inr (JStr gid) ->
  transactionsByGatewayId st (JStr gid) = inr (t :: others) ->
  tx_status t <> Processing ->
  main rt fac st p
  = (with_webhooks st (db_webhooks st ++ [markedRow p true]),
     {| success := true; message := "Webhook processed successfully"; processed := true |}).
Proof.
  intros Hv Hev Hid Hfound Hst. rewrite (main_verified st p Hv).
  apply processVerified_no_update.
  assert (Hh : handlePaymentSuccess
                 (with_webhooks st (db_webhooks st ++ [loggedRow p])) p = inr None).
  { unfold handlePaymentSuccess. rewrite Hid.
    change (transactionsByGatewayId (with_webhooks st ?l) ?x)
      with (transactionsByGatewayId st x).
    rewrite Hfound.
    destruct (status_eqb (tx_status t) Processing) eqn:E; [|reflexivity].
    apply PaymentWorkflowFacts.status_eqb_eq in E. contradiction. }
  unfold dispatchEvent. destruct Hev as [-> | ->]; simpl; now rewrite Hh.
Qed.

(** X14.  An orphan webhook is reported as processed.  When no
    transaction carries the gateway transaction id of a verified payment,
    failure or refund webhook, nothing but the webhook row is written; the
    row is marked processed with no error and the answer is [{success:
    true, processed: true}]. *)
Theorem orphan_webhook_is_marked_processed
    (st : Store) (p : WebhookPayload) (gid : string) :
  verifyWebhookSignature rt fac st p = true ->
  In (event_type p) transactionEvents ->
  extractGatewayTransactionId p = inr (JStr gid) ->
  transactionsByGatewayId st (JStr gid) = inr [] ->
  main rt fac st p
  = (with_webhooks st (db_webhooks st ++ [markedRow p true]),
     {| success := true; message := "Webhook processed successfully"; processed := true |}).
Proof.
  intros Hv Hev Hid Hfound. rewrite (main_verified st p Hv).
  apply processVerified_no_update.
  destruct (extracted_id_from_object p gid Hid) as [fields Hd].
  destruct (extractRefundAmount_of_object p fields Hd) as [v Hv'].
  set (st1 := with_webhooks st (db_webhooks st ++ [loggedRow p])).
  assert (Hs : handlePaymentSuccess st1 p = inr None).
  { unfold handlePaymentSuccess. rewrite Hid.
    change (transactionsByGatewayId st1 (JStr gid))
      with (transactionsByGatewayId st (JStr gid)).
    now rewrite Hfound. }
  assert (Hf : handlePaymentFailure st1 p = inr None).
  { unfold handlePaymentFailure. rewrite Hid.
    change (transactionsByGatewayId st1 (JStr gid))
      with (transactionsByGatewayId st (JStr gid)).
    now rewrite Hfound. }
  assert (Hr : handleRefundProcessed rt st1 p = inr None).
  { unfold handleRefundProcessed. rewrite Hid, Hv'.
    change (transactionsByGatewayId st1 (JStr gid))
      with (transactionsByGatewayId st (JStr gid)).
    now rewrite Hfound. }
  unfold dispatchEvent.
  simpl in Hev. destruct Hev as [E | [E | [E | [E | [E | []]]]]]; rewrite <- E; simpl;
    rewrite ?Hs, ?Hf, ?Hr; reflexivity.
Qed.

(** X15.  An event type without a [case] is recorded and left
    unprocessed: the webhook row gets [processed = false] (and a
    [processed_at]), nothing else is written, and the answer is [{success:
    true, processed: false}], whatever the payload holds. *)
Theorem unhandled_event_is_recorded_unprocessed (st : Store) (p : WebhookPayload) :
  verifyWebhookSignature rt fac st p = true ->
  ~ In (event_type p) handledEvents ->
  main rt fac st p
  = (with_webhooks st (db_webhooks st ++ [markedRow p false]),
     {| success := true; message := "Webhook processed successfully"; processed := false |}).
Proof.
  intros Hv Hn. rewrite (main_verified st p Hv).
  apply processVerified_no_update. now apply unhandled_event_dispatch.
Qed.

(** X16.  A verified [dispute.created] webhook changes no
    transaction and sends no notification: besides the audit entry it asks
    for, it only records its own webhook row, marked processed, and
    answers [{success: true, processed: true}]. *)
Theorem dispute_webhook_changes_no_transaction
    (st : Store) (p : WebhookPayload) (entityId : jsval) :
  verifyWebhookSignature rt fac st p = true ->
  event_type p = "dispute.created" ->
  extractTransactionId p = inr entityId ->
  snd (main rt fac st p)
  = {| success := true; message := "Webhook processed successfully"; processed := true |} /\
  db_transactions (fst (main rt fac st p)) = db_transactions st /\
  db_notifications (fst (main rt fac st p)) = db_notifications st /\
  db_webhooks (fst (main rt fac st p)) = db_webhooks st ++ [markedRow p true].
Proof.
  intros Hv Hev He. rewrite (main_verified st p Hv).
  set (st1 := with_webhooks st (db_webhooks st ++ [loggedRow p])).
  assert (D : dispatchEvent rt st1 p
              = inr (with_audit_logs st1
                       (db_audit_logs st ++
                        [{| al_entity_type := "transaction"; al_entity_id := entityId;
                            al_action := "dispute_created"; al_changes := data p |}]),
                     None, true)).
  { unfold dispatchEvent. rewrite Hev. simpl.
    unfold handleDisputeCreated. rewrite He. reflexivity. }
  unfold processVerified, logWebhook.
  change {| wh_source := "gateway"; wh_event_type := event_type p;
            wh_payload := data p; wh_gateway_code := gateway p;
            wh_processed := false; wh_processed_at := false;
            wh_error_message := None |} with (loggedRow p).
  fold st1. rewrite D. unfold markWebhookProcessed, st1. simpl.
  rewrite <- (Nat.add_0_r (length (db_webhooks st))), alter_app_r.
  repeat split.
Qed.

Lemma extractRefundAmount_after_id (p : WebhookPayload) (v : jsval) :
  extractGatewayTransactionId p = inr v -> exists a, extractRefundAmount rt p = inr a.
Proof.
  unfold extractGatewayTransactionId, extractRefundAmount.
  destruct (data p); simpl;
    repeat match goal with
           | |- context [if String.eqb ?a ?b then _ else _] => destruct (String.eqb a b)
           end; simpl; intros H; try discriminate H; eexists; reflexivity.
Qed.

(** X17.  A payment, failure or refund webhook whose payload yields
    no gateway transaction id (the id read is not a string) makes the
    lookup throw after the webhook was recorded: the row stays unprocessed,
    no transaction is written, and the answer is [{success: false,
    processed: false}]. *)
Theorem webhook_without_gateway_id_fails_after_recording
    (st : Store) (p : WebhookPayload) (v : jsval) :
  verifyWebhookSignature rt fac st p = true ->
  In (event_type p) transactionEvents ->
  extractGatewayTransactionId p = inr v ->
  (forall s, v <> JStr s) ->
  main rt fac st p
  = (with_webhooks st (db_webhooks st ++ [loggedRow p]),
     {| success := false;
        message := "Cannot read properties of undefined (reading 'transactions')";
        processed := false |}).
Proof.
  intros Hv Hev Hid Hns. rewrite (main_verified st p Hv).
  apply processVerified_throw.
  destruct (extractRefundAmount_after_id p v Hid) as [a Ha].
  assert (Hq : forall st', transactionsByGatewayId st' v
                = inl "Cannot read properties of undefined (reading 'transactions')").
  { intros st'. unfold transactionsByGatewayId.
    destruct v; try reflexivity. exfalso. exact (Hns s eq_refl). }
  unfold dispatchEvent, handlePaymentSuccess, handlePaymentFailure, handleRefundProcessed.
  rewrite Hid, Ha, Hq.
  simpl in Hev. destruct Hev as [E | [E | [E | [E | [E | []]]]]]; rewrite <- E; reflexivity.
Qed.

Lemma dispatchEvent_transactions (st st' : Store) (p : WebhookPayload)
    (u : option TransactionUpdate) (b : bool) :
  dispatchEvent rt st p = inr (st', u, b) -> db_transactions st' = db_transactions st.
Proof.
  unfold dispatchEvent.
  repeat match goal with
         | |- context [if ?c then _ else _] => destruct c
         end.
  - destruct (handlePaymentSuccess st p); intros [= <- _ _]; reflexivity.
  - destruct (handlePaymentFailure st p); intros [= <- _ _]; reflexivity.
  - destruct (handleRefundProcessed rt st p); intros [= <- _ _]; reflexivity.
  - unfold handleDisputeCreated. destruct (extractTransactionId p);
      intros [= <- _ _]; reflexivity.
  - intros [= <- _ _]; reflexivity.
Qed.

(** The transactions after a verified webhook: those of the store, with
    the update the handler asked for, if any, applied. *)
Lemma processVerified_transactions (st : Store) (p : WebhookPayload) :
  db_transactions (fst (processVerified rt st p))
  = match dispatchEvent rt (with_webhooks st (db_webhooks st ++ [loggedRow p])) p with
    | inr (_, Some u, _) => db_transactions (updateTransaction st u)
    | _ => db_transactions st
    end.
Proof.
  unfold processVerified, logWebhook.
  change {| wh_source := "gateway"; wh_event_type := event_type p;
            wh_payload := data p; wh_gateway_code := gateway p;
            wh_processed := false; wh_processed_at := false;
            wh_error_message := None |} with (loggedRow p).
  destruct (dispatchEvent rt _ p) as [e | [[st2 u] b]] eqn:D; [reflexivity|].
  apply dispatchEvent_transactions in D. simpl in D.
  destruct u as [u|].
  - match goal with
    | |- context [match ?n with inl _ => _ | inr _ => _ end] =>
        destruct n as [e|st5] eqn:N
    end.
    + simpl. now rewrite D.
    + simpl. destruct (notify_merchant u).
      * apply notifyMerchant_frame in N. destruct N as [-> _]. simpl. now rewrite D.
      * injection N as <-. simpl. now rewrite D.
  - simpl. exact D.
Qed.

(** Reading back the row that [updateTransaction] rewrote. *)
Lemma updateTransaction_lookup (st : Store) (u : TransactionUpdate) (t0 : TransactionRow)
    (fields : list (string * jsval)) :
  transactions_by_pk st (transaction_id u) = Some t0 ->
  gateway_response u = JObj fields ->
  exists t',
    transactions_by_pk (updateTransaction st u) (transaction_id u) = Some t' /\
    tx_status t' = status u /\
    tx_gateway_response t' = gateway_response u /\
    tx_metadata t' = match metadata u with
                     | Some m => jsonb_concat (tx_metadata t0) m
                     | None => tx_metadata t0
                     end /\
    sameFixedColumns t0 t'.
Proof.
  intros Ht Hg. unfold updateTransaction.
  rewrite transactions_by_pk_update by reflexivity. rewrite Ht. simpl.
  eexists. split; [reflexivity|]. simpl. rewrite Hg.
  repeat split.
Qed.

Lemma updateTransaction_other (st : Store) (u : TransactionUpdate) (id' : string) :
  id' <> transaction_id u ->
  transactions_by_pk (updateTransaction st u) id' = transactions_by_pk st id'.
Proof.
  intros Hne. unfold updateTransaction. now apply transactions_by_pk_update_other.
Qed.

Lemma found_row_has_pk (st : Store) (gid : string) (t : TransactionRow)
    (others : list TransactionRow) :
  transactionsByGatewayId st (JStr gid) = inr (t :: others) ->
  exists t0, transactions_by_pk st (tx_id t) = Some t0.
Proof.
  intros Hfound. simpl in Hfound. injection Hfound as Hf.
  assert (H : In t (t :: others)) by (left; reflexivity).
  rewrite <- Hf in H. apply filter_In in H. destruct H as [Hin _].
  exact (find_by_pk_of_In t _ Hin).
Qed.

(** X18.  The failure handler does not look at the stored status.
    A verified [payment.failed] (or [payment_capture.failed]) webhook sets
    the first transaction carrying its gateway transaction id to [failed]
    and stores the payload as its gateway response, whatever status the
    transaction had; every other transaction is read back unchanged. *)
Theorem failure_webhook_sets_failed_from_any_status
    (st : Store) (p : WebhookPayload) (gid : string)
    (t : TransactionRow) (others : list TransactionRow) :
  verifyWebhookSignature rt fac st p = true ->
  event_type p = "payment.failed" \/ event_type p = "payment_capture.failed" ->
  extractGatewayTransactionId p = inr (JStr gid) ->
  transactionsByGatewayId st (JStr gid) = inr (t :: others) ->
  (exists t',
     transactions_by_pk (fst (main rt fac st p)) (tx_id t) = Some t' /\
     tx_status t' = Failed /\
     tx_gateway_response t' = data p) /\
  (forall id', id' <> tx_id t ->
     transactions_by_pk (fst (main rt fac st p)) id' = transactions_by_pk st id').
Proof.
  intros Hv Hev Hid Hfound. rewrite (main_verified st p Hv).
  destruct (extracted_id_from_object p gid Hid) as [fields Hd].
  destruct (found_row_has_pk st gid t others Hfound) as [t0 Ht0].
  set (u := {| transaction_id := tx_id t; status := Failed; gateway_response := data p;
               metadata := None; notify_merchant := true |}).
  pose proof (processVerified_transactions st p) as Htx.
  assert (D : dispatchEvent rt (with_webhooks st (db_webhooks st ++ [loggedRow p])) p
              = inr (with_webhooks st (db_webhooks st ++ [loggedRow p]), Some u, true)).
  { unfold dispatchEvent, handlePaymentFailure. rewrite Hid.
    change (transactionsByGatewayId (with_webhooks st ?l) ?x)
      with (transactionsByGatewayId st x).
    rewrite Hfound. destruct Hev as [-> | ->]; reflexivity. }
  rewrite D in Htx. split.
  - rewrite (transactions_by_pk_ext _ _ _ Htx).
    destruct (updateTransaction_lookup st u t0 fields Ht0 Hd) as [t' [Hl [Hs [Hg _]]]].
    exists t'. split; [exact Hl|]. split; [exact Hs | exact Hg].
  - intros id' Hne. rewrite (transactions_by_pk_ext _ _ _ Htx).
    now apply updateTransaction_other.
Qed.

(** X19.  A refund without a usable amount counts as partial.  When
    the amount read from a verified [refund.processed] webhook is not a
    number, the comparison with the transaction amount is false and the
    first matching transaction is set to [success], whatever its amount
    and status; the amount is appended to its metadata as it was read. *)
Theorem refund_without_amount_sets_success
    (st : Store) (p : WebhookPayload) (gid : string) (refundAmount : jsval)
    (t : TransactionRow) (others : list TransactionRow) :
  verifyWebhookSignature rt fac st p = true ->
  event_type p = "refund.processed" ->
  extractGatewayTransactionId p = inr (JStr gid) ->
  extractRefundAmount rt p = inr refundAmount ->
  ToNumber rt refundAmount = None ->
  transactionsByGatewayId st (JStr gid) = inr (t :: others) ->
  exists t0 t',
    transactions_by_pk st (tx_id t) = Some t0 /\
    transactions_by_pk (fst (main rt fac st p)) (tx_id t) = Some t' /\
    tx_status t' = Success /\
    tx_metadata t'
    = jsonb_concat (tx_metadata t0) (JObj [("refund_amount", json_of refundAmount)]).
Proof.
  intros Hv Hev Hid Hamt Hnan Hfound. rewrite (main_verified st p Hv).
  destruct (extracted_id_from_object p gid Hid) as [fields Hd].
  destruct (found_row_has_pk st gid t others Hfound) as [t0 Ht0].
  set (u := {| transaction_id := tx_id t; status := Success; gateway_response := data p;
               metadata := Some (JObj [("refund_amount", json_of refundAmount)]);
               notify_merchant := true |}).
  pose proof (processVerified_transactions st p) as Htx.
  assert (D : dispatchEvent rt (with_webhooks st (db_webhooks st ++ [loggedRow p])) p
              = inr (with_webhooks st (db_webhooks st ++ [loggedRow p]), Some u, true)).
  { unfold dispatchEvent, handleRefundProcessed. rewrite Hev, Hid, Hamt. simpl.
    change (List.filter ?f (db_transactions (with_webhooks st ?l)))
      with (List.filter f (db_transactions st)).
    simpl in Hfound. injection Hfound as ->.
    unfold js_ge. rewrite Hnan. reflexivity. }
  rewrite D in Htx.
  destruct (updateTransaction_lookup st u t0 fields Ht0 Hd) as [t' [Hl [Hs [_ [Hm _]]]]].
  exists t0, t'. split; [exact Ht0|].
  rewrite (transactions_by_pk_ext _ _ _ Htx).
  split; [exact Hl|]. split; [exact Hs | exact Hm].
Qed.

Lemma sameFixedColumns_refl (t : TransactionRow) : sameFixedColumns t t.
Proof. repeat split. Qed.

Lemma Forall2_fixed_refl (rows : list TransactionRow) :
  Forall2 sameFixedColumns rows rows.
Proof. induction rows; constructor; [apply sameFixedColumns_refl | assumption]. Qed.

Lemma updateTransaction_fixed (st : Store) (u : TransactionUpdate) :
  Forall2 sameFixedColumns (db_transactions st) (db_transactions (updateTransaction st u)).
Proof.
  unfold updateTransaction. simpl.
  induction (db_transactions st) as [|t rows IH]; simpl; constructor; [|exact IH].
  destruct (String.eqb (tx_id t) (transaction_id u)); repeat split.
Qed.

Lemma dispatchEvent_static (st st' : Store) (p : WebhookPayload)
    (u : option TransactionUpdate) (b : bool) :
  dispatchEvent rt st p = inr (st', u, b) -> sameStaticTables st st'.
Proof.
  unfold dispatchEvent.
  repeat match goal with
         | |- context [if ?c then _ else _] => destruct c
         end.
  - destruct (handlePaymentSuccess st p); intros [= <- _ _]; repeat split.
  - destruct (handlePaymentFailure st p); intros [= <- _ _]; repeat split.
  - destruct (handleRefundProcessed rt st p); intros [= <- _ _]; repeat split.
  - unfold handleDisputeCreated. destruct (extractTransactionId p);
      intros [= <- _ _]; repeat split.
  - intros [= <- _ _]; repeat split.
Qed.

Lemma notifyMerchant_static (st st' : Store) (id ev : string) :
  notifyMerchant st id ev = inr st' -> sameStaticTables st st'.
Proof.
  unfold notifyMerchant.
  destruct (transactions_by_pk st id) as [t|]; [|intros [= <-]; repeat split].
  destruct (find _ (db_merchants st)) as [m|]; [|discriminate].
  destruct (m_webhook_url m) as [url|]; [|intros [= <-]; repeat split].
  destruct (truthy_str url); intros [= <-]; repeat split.
Qed.

Lemma processVerified_static (st : Store) (p : WebhookPayload) :
  sameStaticTables st (fst (processVerified rt st p)).
Proof.
  unfold processVerified, logWebhook.
  destruct (dispatchEvent rt _ p) as [e | [[st2 u] b]] eqn:D; [repeat split|].
  apply dispatchEvent_static in D.
  assert (H4 : sameStaticTables st
                 (markWebhookProcessed
                    match u with Some update => updateTransaction st2 update | None => st2 end
                    (length (db_webhooks st)) b)).
  { destruct D as [D1 [D2 [D3 [D4 D5]]]].
    destruct u; unfold sameStaticTables; simpl; rewrite D1, D2, D3, D4, D5; repeat split. }
  match goal with
  | |- context [match ?n with inl _ => _ | inr _ => _ end] =>
      destruct n as [e|st5] eqn:N
  end; [exact H4|]. simpl.
  destruct u as [update|]; [destruct (notify_merchant update)|].
  - apply notifyMerchant_static in N.
    destruct H4 as [A1 [A2 [A3 [A4 A5]]]]. destruct N as [B1 [B2 [B3 [B4 B5]]]].
    unfold sameStaticTables. rewrite B1, B2, B3, B4, B5. repeat split; assumption.
  - injection N as <-. exact H4.
  - injection N as <-. exact H4.
Qed.

(** X20.  Whatever webhook arrives, the handler adds and removes no
    transaction and leaves the id, merchant, amount, currency, payment
    method, customer email and gateway transaction id of every transaction
    as they were; it writes nothing to the gateway, binding, rule, merchant
    and routing-attempt tables. *)
Theorem webhook_never_rewrites_fixed_columns (st : Store) (p : WebhookPayload) :
  Forall2 sameFixedColumns (db_transactions st) (db_transactions (fst (main rt fac st p))) /\
  db_payment_gateways (fst (main rt fac st p)) = db_payment_gateways st /\
  db_merchant_gateways (fst (main rt fac st p)) = db_merchant_gateways st /\
  db_routing_rules (fst (main rt fac st p)) = db_routing_rules st /\
  db_merchants (fst (main rt fac st p)) = db_merchants st /\
  db_routing_attempts (fst (main rt fac st p)) = db_routing_attempts st.
Proof.
  unfold main. destruct (verifyWebhookSignature rt fac st p); simpl.
  - split; [|apply processVerified_static].
    rewrite processVerified_transactions.
    destruct (dispatchEvent rt _ p) as [e | [[st2 [u|]] b]];
      [apply Forall2_fixed_refl | apply updateTransaction_fixed | apply Forall2_fixed_refl].
  - split; [apply Forall2_fixed_refl | repeat split].
Qed.

(** The webhook row after a verified webhook: the logged row, marked or
    not. *)
Lemma processVerified_row (st : Store) (p : WebhookPayload) :
  exists w, db_webhooks (fst (processVerified rt st p)) = db_webhooks st ++ [w] /\
            (w = loggedRow p \/ exists b, w = markedRow p b).
Proof.
  unfold processVerified, logWebhook.
  change {| wh_source := "gateway"; wh_event_type := event_type p;
            wh_payload := data p; wh_gateway_code := gateway p;
            wh_processed := false; wh_processed_at := false;
            wh_error_message := None |} with (loggedRow p).
  destruct (dispatchEvent rt _ p) as [e | [[st2 u] b]] eqn:D.
  - exists (loggedRow p). split; [reflexivity | left; reflexivity].
  - apply dispatchEvent_webhooks in D. simpl in D.
    exists (markedRow p b). split; [|right; exists b; reflexivity].
    assert (H4 : db_webhooks
                   (markWebhookProcessed
                      match u with Some update => updateTransaction st2 update | None => st2 end
                      (length (db_webhooks st)) b)
                 = db_webhooks st ++ [markedRow p b]).
    { unfold markWebhookProcessed. simpl.
      assert (H3 : db_webhooks
                     match u with Some update => updateTransaction st2 update | None => st2 end
                   = db_webhooks st ++ [loggedRow p])
        by (destruct u; simpl; exact D).
      rewrite H3, <- (Nat.add_0_r (length (db_webhooks st))), alter_app_r. reflexivity. }
    match goal with
    | |- context [match ?n with inl _ => _ | inr _ => _ end] =>
        destruct n as [e|st5] eqn:N
    end; [exact H4|]. simpl.
    destruct u as [update|]; [destruct (notify_merchant update)|].
    + apply notifyMerchant_frame in N. destruct N as [_ ->]. exact H4.
    + injection N as <-. exact H4.
    + injection N as <-. exact H4.
Qed.

(** X21.  The webhook table is append-only.  [main] never alters or
    removes an existing row; it appends nothing when the signature is
    refused and exactly one row when it is accepted.  That row carries the
    source ["gateway"], the event type, the payload and the gateway code of
    the request, and its [error_message] is never written. *)
Theorem webhook_rows_are_append_only (st : Store) (p : WebhookPayload) :
  (verifyWebhookSignature rt fac st p = false /\
   db_webhooks (fst (main rt fac st p)) = db_webhooks st) \/
  (verifyWebhookSignature rt fac st p = true /\
   exists w,
     db_webhooks (fst (main rt fac st p)) = db_webhooks st ++ [w] /\
     wh_source w = "gateway" /\
     wh_event_type w = event_type p /\
     wh_payload w = data p /\
     wh_gateway_code w = gateway p /\
     wh_error_message w = None).
Proof.
  unfold main. destruct (verifyWebhookSignature rt fac st p); simpl.
  - right. split; [reflexivity|].
    destruct (processVerified_row st p) as [w [Hw Hrow]].
    exists w. split; [exact Hw|].
    destruct Hrow as [-> | [b ->]]; repeat split.
  - left. split; reflexivity.
Qed.

End Outcomes.

Lemma success_webhook_on_settled_transaction_changes_nothing_witness :
  tx_status (transactionRow Success (Some "pay_1") JNull) <> Processing /\
  main runtime factory (storeWith Success (Some "pay_1") JNull)
    (razorpayEvent "payment.success" [])
  = (with_webhooks (storeWith Success (Some "pay_1") JNull)
       (db_webhooks (storeWith Success (Some "pay_1") JNull)
        ++ [markedRow (razorpayEvent "payment.success" []) true]),
     {| success := true; message := "Webhook processed successfully"; processed := true |}).
Proof.
  split; [discriminate|].
  apply (success_webhook_on_settled_transaction_changes_nothing runtime factory
           (storeWith Success (Some "pay_1") JNull) (razorpayEvent "payment.success" [])
           "pay_1" (transactionRow Success (Some "pay_1") JNull) []);
    try reflexivity.
  - left; reflexivity.
  - discriminate.
Defined.

Lemma orphan_webhook_is_marked_processed_witness :
  transactionsByGatewayId (storeWith Processing None JNull) (JStr "pay_1") = inr [] /\
  main runtime factory (storeWith Processing None JNull) (razorpayEvent "payment.failed" [])
  = (with_webhooks (storeWith Processing None JNull)
       (db_webhooks (storeWith Processing None JNull)
        ++ [markedRow (razorpayEvent "payment.failed" []) true]),
     {| success := true; message := "Webhook processed successfully"; processed := true |}).
Proof.
  split; [reflexivity|].
  apply (orphan_webhook_is_marked_processed runtime factory
           (storeWith Processing None JNull) (razorpayEvent "payment.failed" []) "pay_1");
    try reflexivity.
  simpl. tauto.
Defined.

Lemma unhandled_event_is_recorded_unprocessed_witness :
  ~ In (event_type (razorpayEvent "payment.authorized" [])) handledEvents /\
  main runtime factory (storeWith Processing (Some "pay_1") JNull)
    (razorpayEvent "payment.authorized" [])
  = (with_webhooks (storeWith Processing (Some "pay_1") JNull)
       (db_webhooks (storeWith Processing (Some "pay_1") JNull)
        ++ [markedRow (razorpayEvent "payment.authorized" []) false]),
     {| success := true; message := "Webhook processed successfully"; processed := false |}).
Proof.
  assert (Hn : ~ In (event_type (razorpayEvent "payment.authorized" [])) handledEvents).
  { simpl. intros [H | [H | [H | [H | [H | [H | []]]]]]]; discriminate H. }
  split; [exact Hn|].
  apply (unhandled_event_is_recorded_unprocessed runtime factory
           (storeWith Processing (Some "pay_1") JNull)
           (razorpayEvent "payment.authorized" []));
    [reflexivity | exact Hn].
Defined.

Lemma dispute_webhook_changes_no_transaction_witness :
  extractTransactionId (razorpayEvent "dispute.created" []) = inr (JStr "") /\
  db_transactions
    (fst (main runtime factory (storeWith Success (Some "pay_1") JNull)
            (razorpayEvent "dispute.created" [])))
  = db_transactions (storeWith Success (Some "pay_1") JNull).
Proof.
  split; [reflexivity|].
  exact (proj1 (proj2
           (dispute_webhook_changes_no_transaction runtime factory
              (storeWith Success (Some "pay_1") JNull)
              (razorpayEvent "dispute.created" []) (JStr "")
              eq_refl eq_refl eq_refl))).
Defined.

Lemma webhook_without_gateway_id_fails_after_recording_witness :
  extractGatewayTransactionId (idlessEvent "payment.failed") = inr JUndefined /\
  main runtime factory (storeWith Success (Some "pay_1") JNull) (idlessEvent "payment.failed")
  = (with_webhooks (storeWith Success (Some "pay_1") JNull)
       (db_webhooks (storeWith Success (Some "pay_1") JNull)
        ++ [loggedRow (idlessEvent "payment.failed")]),
     {| success := false;
        message := "Cannot read properties of undefined (reading 'transactions')";
        processed := false |}).
Proof.
  split; [reflexivity|].
  apply (webhook_without_gateway_id_fails_after_recording runtime factory
           (storeWith Success (Some "pay_1") JNull) (idlessEvent "payment.failed")
           JUndefined);
    [reflexivity | simpl; tauto | reflexivity | discriminate].
Defined.

Lemma failure_webhook_sets_failed_from_any_status_witness :
  transactionsByGatewayId (storeWith Refunded (Some "pay_1") JNull) (JStr "pay_1")
  = inr [transactionRow Refunded (Some "pay_1") JNull] /\
  exists t',
    transactions_by_pk
      (fst (main runtime factory (storeWith Refunded (Some "pay_1") JNull)
              (razorpayEvent "payment.failed" [])))
      (tx_id (transactionRow Refunded (Some "pay_1") JNull)) = Some t' /\
    tx_status t' = Failed /\
    tx_gateway_response t' = data (razorpayEvent "payment.failed" []).
Proof.
  split; [reflexivity|].
  apply (failure_webhook_sets_failed_from_any_status runtime factory
           (storeWith Refunded (Some "pay_1") JNull) (razorpayEvent "payment.failed" [])
           "pay_1" (transactionRow Refunded (Some "pay_1") JNull) []);
    try reflexivity.
  left; reflexivity.
Defined.

Lemma refund_without_amount_sets_success_witness :
  extractRefundAmount runtime (razorpayEvent "refund.processed" []) = inr JNaN /\
  exists t0 t',
    transactions_by_pk (storeWith Failed (Some "pay_1") JNull)
      (tx_id (transactionRow Failed (Some "pay_1") JNull)) = Some t0 /\
    transactions_by_pk
      (fst (main runtime factory (storeWith Failed (Some "pay_1") JNull)
              (razorpayEvent "refund.processed" [])))
      (tx_id (transactionRow Failed (Some "pay_1") JNull)) = Some t' /\
    tx_status t' = Success /\
    tx_metadata t'
    = jsonb_concat (tx_metadata t0) (JObj [("refund_amount", json_of JNaN)]).
Proof.
  split; [reflexivity|].
  apply (refund_without_amount_sets_success runtime factory
           (storeWith Failed (Some "pay_1") JNull) (razorpayEvent "refund.processed" [])
           "pay_1" JNaN (transactionRow Failed (Some "pay_1") JNull) []);
    reflexivity.
Defined.

End WebhookHandlerMore.

(** ** The gateway factory *)

Module FactoryFacts.

Import Factory.

(** X22.  Registration and lookup round-trip.  After
    [registerGateway(code, f)], [createGateway(code)] yields what [f]
    constructs (replacing any earlier registration) and every other code
    is served as before; after [unregisterGateway(code)],
    [createGateway(code)] is [null] and every other code is served as
    before; registering a fresh code and unregistering it restores the
    factory. *)
Theorem register_and_unregister_round_trip
    (fac : GatewayFactory) (code : string) (constructed : option GatewayImpl) :
  createGateway (registerGateway fac code constructed) code = constructed /\
  (forall code', code' <> code ->
     createGateway (registerGateway fac code constructed) code' = createGateway fac code') /\
  createGateway (unregisterGateway fac code) code = None /\
  (forall code', code' <> code ->
     createGateway (unregisterGateway fac code) code' = createGateway fac code') /\
  (fac !! code = None ->
     unregisterGateway (registerGateway fac code constructed) code = fac).
Proof.
  unfold createGateway, registerGateway, unregisterGateway.
  split; [now rewrite lookup_insert_eq|].
  split; [intros code' Hne; now rewrite lookup_insert_ne by congruence|].
  split; [now rewrite lookup_delete_eq|].
  split; [intros code' Hne; now rewrite lookup_delete_ne by congruence|].
  intros Hnone. rewrite delete_insert_eq. now apply delete_id.
Qed.

(** X23.  "Supported" means registered, not constructible.  A code
    is supported exactly when it is among the supported gateways; a gateway
    that [createGateway] returns is supported, an unsupported one is never
    returned, and a registered gateway whose constructor throws is
    supported although [createGateway] returns [null] for it. *)
Theorem supported_is_registered_not_constructible (fac : GatewayFactory) (code : string) :
  (isGatewaySupported fac code = true <-> code ∈ getSupportedGateways fac) /\
  (forall impl, createGateway fac code = Some impl -> isGatewaySupported fac code = true) /\
  (isGatewaySupported fac code = false -> createGateway fac code = None) /\
  (fac !! code = Some None ->
     isGatewaySupported fac code = true /\ createGateway fac code = None).
Proof.
  unfold isGatewaySupported, createGateway, getSupportedGateways.
  split; [|split; [|split]].
  - rewrite elem_of_dom. destruct (fac !! code) as [c|].
    + split; [intros _; eexists; reflexivity | reflexivity].
    + split; [discriminate | intros [x Hx]; discriminate].
  - intros impl. destruct (fac !! code); [reflexivity | discriminate].
  - destruct (fac !! code); [discriminate | reflexivity].
  - intros ->. split; reflexivity.
Qed.

Lemma tryLoadGateway_lookup (load : string -> string -> option (option GatewayImpl))
    (fac : GatewayFactory) (code moduleName className code' : string) :
  tryLoadGateway load fac code moduleName className !! code'
  = if String.eqb code code'
    then match load moduleName className with
         | Some c => Some c
         | None => fac !! code'
         end
    else fac !! code'.
Proof.
  unfold tryLoadGateway. destruct (String.eqb code code') eqn:E.
  - apply String.eqb_eq in E. subst code'.
    destruct (load moduleName className); [apply lookup_insert_eq | reflexivity].
  - apply String.eqb_neq in E.
    destruct (load moduleName className); [now apply lookup_insert_ne | reflexivity].
Qed.

(** X24.  A new factory knows at most stripe, razorpay and paypal,
    each exactly when its package loads: a code is supported if and only
    if it is one of the three and [require] finds its class; for every
    other code [createGateway] returns [null]. *)
Theorem new_factory_holds_the_installed_packages
    (load : string -> string -> option (option GatewayImpl)) (code : string) :
  (isGatewaySupported (newFactory load) code = true <->
   (code = "stripe" /\ load "@navipe/stripe" "StripeGateway" <> None) \/
   (code = "razorpay" /\ load "@navipe/razorpay" "RazorpayGateway" <> None) \/
   (code = "paypal" /\ load "@navipe/paypal" "PayPalGateway" <> None)) /\
  (code <> "stripe" -> code <> "razorpay" -> code <> "paypal" ->
   createGateway (newFactory load) code = None).
Proof.
  unfold isGatewaySupported, createGateway, newFactory.
  rewrite !tryLoadGateway_lookup, lookup_empty.
  destruct (String.eqb "paypal" code) eqn:Ep;
    [apply String.eqb_eq in Ep; subst code; simpl|apply String.eqb_neq in Ep].
  { destruct (load "@navipe/paypal" "PayPalGateway"); split;
      try (intros; congruence);
      split; intros H; try discriminate H;
      try (right; right; split; [reflexivity | discriminate]);
      try reflexivity;
      destruct H as [[H _] | [[H _] | [_ H]]]; try discriminate H; congruence. }
  destruct (String.eqb "razorpay" code) eqn:Er;
    [apply String.eqb_eq in Er; subst code; simpl|apply String.eqb_neq in Er].
  { destruct (load "@navipe/razorpay" "RazorpayGateway"); split;
      try (intros; congruence);
      split; intros H; try discriminate H;
      try (right; left; split; [reflexivity | discriminate]);
      try reflexivity;
      destruct H as [[H _] | [[_ H] | [H _]]]; try discriminate H; congruence. }
  destruct (String.eqb "stripe" code) eqn:Es;
    [apply String.eqb_eq in Es; subst code; simpl|apply String.eqb_neq in Es].
  { destruct (load "@navipe/stripe" "StripeGateway"); split;
      try (intros; congruence);
      split; intros H; try discriminate H;
      try (left; split; [reflexivity | discriminate]);
      try reflexivity;
      destruct H as [[_ H] | [[H _] | [H _]]]; try discriminate H; congruence. }
  split; [|reflexivity].
  split; [discriminate|].
  intros [[H _] | [[H _] | [H _]]]; congruence.
Qed.

End FactoryFacts.

(** ** Signature verification end to end *)

Module SignatureFacts.

Import WebhookHandler WebhookTerms Examples RazorpayExamples.

(** The handler's check, with the request and configuration it builds
    named. *)
Lemma handler_verification_unfolded (rt : JsRuntime) (fac : GatewayFactory) (st : Store)
    (p : WebhookPayload) :
  verifyWebhookSignature rt fac st p
  = match getGatewayConfig st (gateway p) with
    | None => false
    | Some cfg =>
        match createGateway fac (pg_provider cfg) with
        | None => true
        | Some impl =>
            match verifySignature impl (verificationRequestOf rt p) (gatewayConfigOf cfg) with
            | inr valid => valid
            | inl _ => false
            end
        end
    end.
Proof. reflexivity. Qed.

(** X25.  The integration helper fails closed where the webhook
    handler fails open.  For a configured gateway whose provider cannot be
    created, the helper's [verifyWebhookSignature] answers [false] while
    the handler's answers [true]; whenever the provider can be created the
    two give the same answer on the request the handler builds. *)
Theorem helper_fails_closed_where_handler_fails_open
    (rt : JsRuntime) (fac : GatewayFactory) (st : Store) (p : WebhookPayload)
    (cfg : PaymentGateway) :
  getGatewayConfig st (gateway p) = Some cfg ->
  (createGateway fac (pg_provider cfg) = None ->
     Integration.verifyWebhookSignature fac (pg_provider cfg)
       (verificationRequestOf rt p) (gatewayConfigOf cfg) = false /\
     verifyWebhookSignature rt fac st p = true) /\
  (createGateway fac (pg_provider cfg) <> None ->
     verifyWebhookSignature rt fac st p
     = Integration.verifyWebhookSignature fac (pg_provider cfg)
         (verificationRequestOf rt p) (gatewayConfigOf cfg)).
Proof.
  intros Hcfg. rewrite handler_verification_unfolded, Hcfg.
  unfold Integration.verifyWebhookSignature.
  destruct (createGateway fac (pg_provider cfg)) as [impl|]; split.
  - discriminate.
  - reflexivity.
  - intros _. split; reflexivity.
  - intros H. contradiction.
Qed.

Lemma helper_fails_closed_where_handler_fails_open_witness :
  getGatewayConfig (storeWith Success (Some "pay_1") JNull) (gateway adyenEvent)
  = Some adyenRow /\
  createGateway factory (pg_provider adyenRow) = None /\
  Integration.verifyWebhookSignature factory (pg_provider adyenRow)
    (verificationRequestOf runtime adyenEvent) (gatewayConfigOf adyenRow) = false /\
  verifyWebhookSignature runtime factory (storeWith Success (Some "pay_1") JNull) adyenEvent
  = true.
Proof.
  split; [reflexivity|].
  assert (Hnone : createGateway factory (pg_provider adyenRow) = None)
    by (vm_compute; reflexivity).
  split; [exact Hnone|].
  exact (proj1 (helper_fails_closed_where_handler_fails_open runtime factory
                  (storeWith Success (Some "pay_1") JNull) adyenEvent adyenRow eq_refl)
           Hnone).
Defined.

(** Razorpay's check never throws and accepts exactly the matching HMAC. *)
Lemma razorpay_verify_spec (hmac : string -> string -> string)
    (request : WebhookVerificationRequest) (config : GatewayConfig) :
  (exists b, RazorpayGateway.verifyWebhookSignature hmac request config = inr b) /\
  (RazorpayGateway.verifyWebhookSignature hmac request config = inr true <->
   exists signature secret,
     RazorpayGateway.presentedSignature request = Some signature /\
     signature <> "" /\
     cfg_webhook_secret config = JStr secret /\
     secret <> "" /\
     signature = hmac secret (vr_body request)).
Proof.
  unfold RazorpayGateway.verifyWebhookSignature.
  split.
  - destruct (RazorpayGateway.presentedSignature request) as [s|]; [|eexists; reflexivity].
    destruct (negb (truthy_str s) || negb (js_truthy (cfg_webhook_secret config)));
      [eexists; reflexivity|].
    destruct (cfg_webhook_secret config); eexists; reflexivity.
  - destruct (RazorpayGateway.presentedSignature request) as [s|];
      [|split; [discriminate | intros [? [? [H _]]]; discriminate H]].
    destruct (truthy_str s) eqn:Es; simpl;
      [|split; [discriminate|];
        intros [sig [sec [[= <-] [Hne _]]]]; apply truthy_str_spec in Hne; congruence].
    destruct (cfg_webhook_secret config) as [| |b|q| |secret|fields|items] eqn:Ec;
      simpl;
      try (split; [discriminate | intros [? [? [_ [_ [H _]]]]]; discriminate H]).
    + destruct b; simpl;
        (split; [discriminate | intros [? [? [_ [_ [H _]]]]]; discriminate H]).
    + destruct (truthy_num q); simpl;
        (split; [discriminate | intros [? [? [_ [_ [H _]]]]]; discriminate H]).
    + destruct (truthy_str secret) eqn:Et; simpl.
      * split.
        -- intros [= H]. apply String.eqb_eq in H.
           exists s, secret. repeat split; try assumption; now apply truthy_str_spec.
        -- intros [sig [sec [[= <-] [_ [[= <-] [_ ->]]]]]].
           now rewrite String.eqb_refl.
      * split; [discriminate|].
        intros [sig [sec [_ [_ [[= <-] [Hne _]]]]]].
        apply truthy_str_spec in Hne. congruence.
Qed.

(** X26.  Razorpay's [verifyWebhookSignature] never throws, and it
    accepts exactly when a non-empty signature is presented (the
    [x-razorpay-signature] header when it is non-empty, else the
    [signature] field), the configured [webhook_secret] is a non-empty
    string, and the signature equals the HMAC of the body under that
    secret. *)
Theorem razorpay_accepts_exactly_the_matching_hmac
    (hmac : string -> string -> string)
    (request : WebhookVerificationRequest) (config : GatewayConfig) :
  (exists b, RazorpayGateway.verifyWebhookSignature hmac request config = inr b) /\
  (RazorpayGateway.verifyWebhookSignature hmac request config = inr true <->
   exists signature secret,
     RazorpayGateway.presentedSignature request = Some signature /\
     signature <> "" /\
     cfg_webhook_secret config = JStr secret /\
     secret <> "" /\
     signature = hmac secret (vr_body request)) /\
  (forall h, vr_headers request !! "x-razorpay-signature" = Some h -> h <> "" ->
             RazorpayGateway.presentedSignature request = Some h) /\
  (vr_headers request !! "x-razorpay-signature" = None ->
   RazorpayGateway.presentedSignature request = vr_signature request).
Proof.
  destruct (razorpay_verify_spec hmac request config) as [Hb Hiff].
  split; [exact Hb|]. split; [exact Hiff|]. split.
  - intros h Hh Hne. unfold RazorpayGateway.presentedSignature. rewrite Hh.
    apply truthy_str_spec in Hne. now rewrite Hne.
  - intros Hh. unfold RazorpayGateway.presentedSignature. now rewrite Hh.
Qed.

(** X27.  End to end with a Razorpay implementation registered for
    the configured provider: the handler accepts a webhook exactly when its
    presented signature is the HMAC of the body it forwards under the
    stored [webhook_secret]; otherwise [main] answers "Invalid webhook
    signature" and returns the store as it was.  A webhook that presents no
    signature is therefore always refused. *)
Theorem razorpay_webhook_needs_the_matching_hmac
    (hmac : string -> string -> string) (rt : JsRuntime) (fac : GatewayFactory)
    (st : Store) (p : WebhookPayload) (cfg : PaymentGateway) (impl : GatewayImpl) :
  getGatewayConfig st (gateway p) = Some cfg ->
  fac !! pg_provider cfg = Some (Some impl) ->
  (forall request config,
     verifySignature impl request config
     = RazorpayGateway.verifyWebhookSignature hmac request config) ->
  (verifyWebhookSignature rt fac st p = true <->
   exists signature secret,
     RazorpayGateway.presentedSignature (verificationRequestOf rt p) = Some signature /\
     signature <> "" /\
     pg_webhook_secret cfg = JStr secret /\
     secret <> "" /\
     signature = hmac secret (vr_body (verificationRequestOf rt p))) /\
  (verifyWebhookSignature rt fac st p = false ->
   main rt fac st p
   = (st, {| success := false; message := "Invalid webhook signature";
             processed := false |})) /\
  (RazorpayGateway.presentedSignature (verificationRequestOf rt p) = None ->
   verifyWebhookSignature rt fac st p = false).
Proof.
  intros Hcfg Hfac Himpl.
  assert (Hv : verifyWebhookSignature rt fac st p
               = match RazorpayGateway.verifyWebhookSignature hmac
                         (verificationRequestOf rt p) (gatewayConfigOf cfg) with
                 | inr valid => valid
                 | inl _ => false
                 end).
  { rewrite handler_verification_unfolded, Hcfg. unfold createGateway.
    rewrite Hfac, Himpl. reflexivity. }
  destruct (razorpay_verify_spec hmac (verificationRequestOf rt p) (gatewayConfigOf cfg))
    as [[b Hb] Hiff].
  split; [|split].
  - rewrite Hv, Hb. rewrite Hb in Hiff.
    split.
    + intros ->. apply Hiff. reflexivity.
    + intros H. apply Hiff in H. now injection H.
  - intros Hf. unfold main. now rewrite Hf.
  - intros Hnone. rewrite Hv.
    unfold RazorpayGateway.verifyWebhookSignature. now rewrite Hnone.
Qed.

Lemma razorpay_webhook_needs_the_matching_hmac_witness :
  getGatewayConfig (storeWith Success (Some "pay_1") JNull) (gateway unsignedEvent)
  = Some razorpayRow /\
  razorpayFactory !! pg_provider razorpayRow = Some (Some (razorpayImpl toyHmac)) /\
  RazorpayGateway.presentedSignature (verificationRequestOf runtime unsignedEvent) = None /\
  verifyWebhookSignature runtime razorpayFactory (storeWith Success (Some "pay_1") JNull)
    unsignedEvent = false.
Proof.
  split; [reflexivity|]. split; [vm_compute; reflexivity|]. split; [reflexivity|].
  assert (Hfac : razorpayFactory !! pg_provider razorpayRow
                 = Some (Some (razorpayImpl toyHmac))) by (vm_compute; reflexivity).
  exact (proj2 (proj2
           (razorpay_webhook_needs_the_matching_hmac toyHmac runtime razorpayFactory
              (storeWith Success (Some "pay_1") JNull) unsignedEvent razorpayRow
              (razorpayImpl toyHmac) eq_refl Hfac (fun _ _ => eq_refl)))
           eq_refl).
Defined.

End SignatureFacts.

(** ** The confirmation path, and the workflow followed by a webhook *)

Module ConvergenceFacts.

Import WebhookHandler WebhookTerms Examples WebhookHandlerFacts WebhookHandlerMore.

(** X28.  The confirmation path.  A verified [payment.success] (or
    [payment_capture.completed]) webhook for a transaction that is
    [processing] sets it to [success], stores the payload as its gateway
    response, marks the webhook processed and, when the merchant has a
    webhook URL, posts one notification that carries the event type and
    the new status. *)
Theorem success_webhook_confirms_processing_transaction
    (rt : JsRuntime) (fac : GatewayFactory) (st : Store) (p : WebhookPayload)
    (gid : string) (t t0 : TransactionRow) (others : list TransactionRow)
    (m : MerchantRow) (url : string) :
  verifyWebhookSignature rt fac st p = true ->
  event_type p = "payment.success" \/ event_type p = "payment_capture.completed" ->
  extractGatewayTransactionId p = inr (JStr gid) ->
  transactionsByGatewayId st (JStr gid) = inr (t :: others) ->
  tx_status t = Processing ->
  transactions_by_pk st (tx_id t) = Some t0 ->
  find (fun m => String.eqb (m_id m) (tx_merchant_id t0)) (db_merchants st) = Some m ->
  m_webhook_url m = Some url -> url <> "" ->
  snd (main rt fac st p)
  = {| success := true; message := "Webhook processed successfully"; processed := true |} /\
  (exists t',
     transactions_by_pk (fst (main rt fac st p)) (tx_id t) = Some t' /\
     tx_status t' = Success /\ tx_gateway_response t' = data p) /\
  db_notifications (fst (main rt fac st p))
  = db_notifications st ++ [{| n_url := url; n_event := event_type p; n_status := Success |}] /\
  db_webhooks (fst (main rt fac st p)) = db_webhooks st ++ [markedRow p true].
Proof.
  intros Hv Hev Hid Hfound Hst Ht0 Hm Hurl Hne.
  rewrite (main_verified rt fac st p Hv).
  destruct (extracted_id_from_object p gid Hid) as [fields Hd].
  set (u := {| transaction_id := tx_id t; status := Success; gateway_response := data p;
               metadata := None; notify_merchant := true |}).
  set (st1 := with_webhooks st (db_webhooks st ++ [loggedRow p])).
  assert (D : dispatchEvent rt st1 p = inr (st1, Some u, true)).
  { unfold dispatchEvent, handlePaymentSuccess. rewrite Hid.
    change (transactionsByGatewayId st1 (JStr gid))
      with (transactionsByGatewayId st (JStr gid)).
    rewrite Hfound, Hst. destruct Hev as [-> | ->]; reflexivity. }
  destruct (updateTransaction_lookup st u t0 fields Ht0 Hd)
    as [t' [Hl [Hs [Hg [_ Hfix]]]]].
  set (st4 := markWebhookProcessed (updateTransaction st1 u) (length (db_webhooks st)) true).
  assert (Hl4 : transactions_by_pk st4 (tx_id t) = Some t') by exact Hl.
  assert (Hw4 : db_webhooks st4 = db_webhooks st ++ [markedRow p true]).
  { unfold st4, markWebhookProcessed. simpl.
    rewrite <- (Nat.add_0_r (length (db_webhooks st))), alter_app_r. reflexivity. }
  assert (N : notifyMerchant st4 (tx_id t) (event_type p)
              = inr (with_notifications st4
                       (db_notifications st ++
                        [{| n_url := url; n_event := event_type p; n_status := Success |}]))).
  { unfold notifyMerchant. rewrite Hl4.
    destruct Hfix as [_ [Hmer _]]. rewrite Hmer.
    change (db_merchants st4) with (db_merchants st). rewrite Hm, Hurl.
    apply truthy_str_spec in Hne. rewrite Hne, Hs. reflexivity. }
  assert (R : processVerified rt st p
              = (with_notifications st4
                   (db_notifications st ++
                    [{| n_url := url; n_event := event_type p; n_status := Success |}]),
                 {| success := true; message := "Webhook processed successfully";
                    processed := true |})).
  { unfold processVerified, logWebhook.
    change {| wh_source := "gateway"; wh_event_type := event_type p;
              wh_payload := data p; wh_gateway_code := gateway p;
              wh_processed := false; wh_processed_at := false;
              wh_error_message := None |} with (loggedRow p).
    fold st1. rewrite D. fold st4.
    change (notify_merchant u) with true. change (transaction_id u) with (tx_id t).
    cbv iota. rewrite N. reflexivity. }
  rewrite R. simpl. split; [reflexivity|]. split; [|split].
  - exists t'. split; [exact Hl4|]. split; [exact Hs | exact Hg].
  - reflexivity.
  - exact Hw4.
Qed.

Lemma success_webhook_confirms_processing_transaction_witness :
  tx_status (transactionRow Processing (Some "pay_1") JNull) = Processing /\
  (exists t',
     transactions_by_pk
       (fst (main runtime factory (storeWith Processing (Some "pay_1") JNull)
               (razorpayEvent "payment.success" [])))
       (tx_id (transactionRow Processing (Some "pay_1") JNull)) = Some t' /\
     tx_status t' = Success /\
     tx_gateway_response t' = data (razorpayEvent "payment.success" [])) /\
  db_notifications
    (fst (main runtime factory (storeWith Processing (Some "pay_1") JNull)
            (razorpayEvent "payment.success" [])))
  = db_notifications (storeWith Processing (Some "pay_1") JNull)
    ++ [{| n_url := "https://merchant.example/hook";
           n_event := event_type (razorpayEvent "payment.success" []);
           n_status := Success |}].
Proof.
  split; [reflexivity|].
  pose proof (success_webhook_confirms_processing_transaction runtime factory
                (storeWith Processing (Some "pay_1") JNull)
                (razorpayEvent "payment.success" []) "pay_1"
                (transactionRow Processing (Some "pay_1") JNull)
                (transactionRow Processing (Some "pay_1") JNull) []
                {| m_id := "m-1"; m_webhook_url := Some "https://merchant.example/hook" |}
                "https://merchant.example/hook"
                eq_refl (or_introl eq_refl) eq_refl eq_refl eq_refl eq_refl eq_refl eq_refl)
    as H.
  assert (Hne : "https://merchant.example/hook" <> "") by discriminate.
  destruct (H Hne) as [_ [H1 [H2 _]]]. split; [exact H1 | exact H2].
Defined.

(** The rows that [main] of the workflow leaves under the addressed id
    have no gateway transaction id. *)
Lemma processed_rows_have_no_gateway_id (fac : GatewayFactory) (st : Store)
    (input : PaymentWorkflow.TransactionInput) (t : TransactionRow) :
  In t (db_transactions (fst (PaymentWorkflow.main fac st input))) ->
  tx_id t = PaymentWorkflow.transactionId input ->
  tx_gateway_transaction_id t = None.
Proof.
  destruct (PaymentWorkflowMore.main_outcome fac st input) as [st' [msg [-> _]]].
  simpl. intros Hin Hid. apply in_map_iff in Hin. destruct Hin as [t0 [Ht _]].
  destruct (String.eqb (tx_id t0) (PaymentWorkflow.transactionId input)) eqn:E.
  - subst t. reflexivity.
  - subst t. apply String.eqb_neq in E. contradiction.
Qed.

Lemma found_by_gateway_id (st : Store) (v : jsval) (t : TransactionRow)
    (others : list TransactionRow) :
  transactionsByGatewayId st v = inr (t :: others) ->
  In t (db_transactions st) /\ tx_gateway_transaction_id t <> None.
Proof.
  unfold transactionsByGatewayId. destruct v; try discriminate.
  intros [= Hf].
  assert (H : In t (t :: others)) by (left; reflexivity).
  rewrite <- Hf in H. apply filter_In in H. destruct H as [Hin Hg].
  split; [exact Hin|]. destruct (tx_gateway_transaction_id t); [discriminate | discriminate Hg].
Qed.

(** The transaction a handler asks to update was found by its gateway
    transaction id. *)
Lemma dispatch_update_target (rt : JsRuntime) (st st' : Store) (p : WebhookPayload)
    (u : TransactionUpdate) (b : bool) :
  dispatchEvent rt st p = inr (st', Some u, b) ->
  exists t, In t (db_transactions st) /\ tx_id t = transaction_id u /\
            tx_gateway_transaction_id t <> None.
Proof.
  unfold dispatchEvent.
  repeat match goal with
         | |- context [if ?c then _ else _] => destruct c
         end.
  - unfold handlePaymentSuccess.
    destruct (extractGatewayTransactionId p) as [e|v]; [discriminate|].
    destruct (transactionsByGatewayId st v) as [e|[|t others]] eqn:Hf; try discriminate.
    destruct (negb (status_eqb (tx_status t) Processing)); [discriminate|].
    intros [= _ <- _]. apply found_by_gateway_id in Hf. exists t. simpl. tauto.
  - unfold handlePaymentFailure.
    destruct (extractGatewayTransactionId p) as [e|v]; [discriminate|].
    destruct (transactionsByGatewayId st v) as [e|[|t others]] eqn:Hf; try discriminate.
    intros [= _ <- _]. apply found_by_gateway_id in Hf. exists t. simpl. tauto.
  - unfold handleRefundProcessed.
    destruct (extractGatewayTransactionId p) as [e|v]; [discriminate|].
    destruct (extractRefundAmount rt p) as [e|a]; [discriminate|].
    destruct (transactionsByGatewayId st v) as [e|[|t others]] eqn:Hf; try discriminate.
    intros [= _ <- _]. apply found_by_gateway_id in Hf. exists t. simpl. tauto.
  - destruct (handleDisputeCreated st p); discriminate.
  - discriminate.
Qed.

(** X29.  The workflow and the webhook handler do not converge.  A
    call of the workflow's [main] leaves the addressed transaction with a
    null gateway transaction id, and the handler only updates transactions
    it finds by that id: whatever webhook is handled afterwards, under any
    runtime and factory, the transaction is read back exactly as the
    workflow left it. *)
Theorem no_webhook_reaches_a_processed_transaction
    (fac fac' : GatewayFactory) (rt : JsRuntime) (st : Store)
    (input : PaymentWorkflow.TransactionInput) (p : WebhookPayload) :
  transactions_by_pk
    (fst (main rt fac' (fst (PaymentWorkflow.main fac st input)) p))
    (PaymentWorkflow.transactionId input)
  = transactions_by_pk (fst (PaymentWorkflow.main fac st input))
      (PaymentWorkflow.transactionId input).
Proof.
  set (st1 := fst (PaymentWorkflow.main fac st input)).
  unfold main. destruct (verifyWebhookSignature rt fac' st1 p); simpl; [|reflexivity].
  pose proof (processVerified_transactions rt st1 p) as Htx.
  destruct (dispatchEvent rt _ p) as [e | [[st2 [u|]] b]] eqn:D;
    try (now apply transactions_by_pk_ext).
  rewrite (transactions_by_pk_ext _ _ _ Htx).
  apply updateTransaction_other.
  apply dispatch_update_target in D. destruct D as [t [Hin [Hid Hg]]].
  intros Heq. apply Hg.
  apply (processed_rows_have_no_gateway_id fac st input t); [exact Hin | congruence].
Qed.

End ConvergenceFacts.
